(** * Conversation state and ambiguity resolution engine

    A shallow embedding of [personal_agent/conversation]: the state manager
    ([state.py]), the dialogue-act recognizer ([dialogue_act.py]), the
    ambiguity detector ([ambiguity_detector.py]), the question generator
    ([question_generator.py]), the response generator
    ([response_generator.py]) and the orchestrating interface
    ([interface.py]).

    Conventions of the embedding:
    - Python [str] is [string]; characters are 8-bit, and the case and
      whitespace functions are the ASCII ones (non-ASCII text is outside
      the embedding).
    - Python [float] is the primitive binary64 [float], so every sum and
      comparison of confidences is bit-for-bit the one Python performs.
    - [datetime.now()], [uuid.uuid4()] and [random.choice] read from an
      explicit [World] of oracles, threaded by a small state monad.
    - mutable objects ([self], [self.context]) are passed and returned. *)

From Stdlib Require Import PrimFloat.
From Stdlib Require Import ZArith NArith String Ascii List Lia Bool Sorted Permutation.
From stdpp Require Import base option list strings gmap.

Import ListNotations.

Local Set Warnings "-inexact-float,-register-all".
Local Open Scope string_scope.
Local Open Scope list_scope.

(** ** Python strings *)

Module PyStr.

Definition chars (s : string) : list ascii := list_ascii_of_string s.
Definition of_chars (l : list ascii) : string := string_of_list_ascii l.

Definition code (c : ascii) : N := N_of_ascii c.

Definition is_upper (c : ascii) : bool :=
  (65 <=? code c)%N && (code c <=? 90)%N.

(** [c.lower()] on one ASCII character. *)
Definition lower_char (c : ascii) : ascii :=
  if is_upper c then ascii_of_N (code c + 32) else c.

(** [str.isspace] on ASCII: TAB..CR, FS..US and the blank. *)
Definition is_space (c : ascii) : bool :=
  ((9 <=? code c)%N && (code c <=? 13)%N)
  || ((28 <=? code c)%N && (code c <=? 32)%N).

Definition lower (s : string) : string := of_chars (map lower_char (chars s)).

Fixpoint lstrip_chars (l : list ascii) : list ascii :=
  match l with
  | c :: l' => if is_space c then lstrip_chars l' else l
  | [] => []
  end.

Definition strip_chars (l : list ascii) : list ascii :=
  rev (lstrip_chars (rev (lstrip_chars l))).

(** [s.strip()] *)
Definition strip (s : string) : string := of_chars (strip_chars (chars s)).

Fixpoint starts_chars (p l : list ascii) : bool :=
  match p, l with
  | [], _ => true
  | a :: p', b :: l' => Ascii.eqb a b && starts_chars p' l'
  | _ :: _, [] => false
  end.

(** [s.startswith(p)] and [s.endswith(p)] *)
Definition startswith (s p : string) : bool := starts_chars (chars p) (chars s).
Definition endswith (s p : string) : bool :=
  starts_chars (rev (chars p)) (rev (chars s)).

(** First index at which [p] occurs in [l], counted from [i]. *)
Fixpoint find_chars (p l : list ascii) (i : nat) : option nat :=
  if starts_chars p l then Some i
  else match l with
       | [] => None
       | _ :: l' => find_chars p l' (S i)
       end.

(** [s.find(p)]: the lowest index of [p] in [s], or [-1]. *)
Definition find (s p : string) : Z :=
  match find_chars (chars p) (chars s) 0 with
  | Some i => Z.of_nat i
  | None => (-1)%Z
  end.

(** [p in s] *)
Definition contains (s p : string) : bool :=
  match find_chars (chars p) (chars s) 0 with Some _ => true | None => false end.

(** [len(s)] *)
Definition len (s : string) : nat := String.length s.

(** [s[a:b]] for non-negative [a], [b]: out-of-range bounds are clamped. *)
Definition slice (s : string) (a b : nat) : string :=
  of_chars (take (b - a) (drop a (chars s))).

(** [s.replace(old, new)] for a non-empty [old]: occurrences are replaced
    left to right without overlap.  [fuel] bounds the scan and is the
    length of the scanned text. *)
Fixpoint replace_chars (fuel : nat) (old new l : list ascii) : list ascii :=
  match fuel with
  | O => l
  | S fuel' =>
      if starts_chars old l then new ++ replace_chars fuel' old new (drop (List.length old) l)
      else match l with
           | [] => []
           | c :: l' => c :: replace_chars fuel' old new l'
           end
  end.

Definition replace (s old new : string) : string :=
  of_chars (replace_chars (S (len s)) (chars old) (chars new) (chars s)).

(** [sep.join(l)] *)
Fixpoint join (sep : string) (l : list string) : string :=
  match l with
  | [] => ""
  | [x] => x
  | x :: l' => x +:+ sep +:+ join sep l'
  end.

Definition digit_char (n : nat) : ascii := ascii_of_nat (48 + n mod 10).

(** [str(n)] for a natural number: decimal digits, most significant first. *)
Fixpoint str_nat_aux (fuel n : nat) (acc : string) : string :=
  match fuel with
  | O => acc
  | S fuel' =>
      let acc' := String (digit_char n) acc in
      if (n <? 10)%nat then acc' else str_nat_aux fuel' (n / 10) acc'
  end.

Definition str_nat (n : nat) : string := str_nat_aux (S n) n "".

End PyStr.

(** ** Python floats: [min], [max] and the comparisons used by the code *)

Module PyFloat.

Local Open Scope float_scope.

(** [min(a, b)] returns [a] unless [b < a]. *)
Definition min (a b : float) : float := if PrimFloat.ltb b a then b else a.

(** [max(a, b)] returns [a] unless [b > a]. *)
Definition max (a b : float) : float := if PrimFloat.ltb a b then b else a.

(** [a >= b] *)
Definition ge (a b : float) : bool := PrimFloat.leb b a.

(** [a > b] *)
Definition gt (a b : float) : bool := PrimFloat.ltb b a.

(** Membership of the closed unit interval. *)
Definition in_unit (c : float) : bool := PrimFloat.leb 0 c && PrimFloat.leb c 1.

End PyFloat.

(** ** [state.py]: the enumerations *)

Inductive ConversationState :=
| INITIAL
| GREETING
| IN_PROGRESS
| ASKING_CLARIFICATION
| PROVIDING_INFORMATION
| SEEKING_CONFIRMATION
| CLOSING
| ERROR.

Module DialogueAct.
Inductive t :=
| GREETING
| QUESTION
| STATEMENT
| REQUEST
| CONFIRMATION
| CLARIFICATION
| ACKNOWLEDGMENT
| CLOSING
| ERROR.

(** [act.value] *)
Definition value (a : t) : string :=
  match a with
  | GREETING => "greeting"
  | QUESTION => "question"
  | STATEMENT => "statement"
  | REQUEST => "request"
  | CONFIRMATION => "confirmation"
  | CLARIFICATION => "clarification"
  | ACKNOWLEDGMENT => "acknowledgment"
  | CLOSING => "closing"
  | ERROR => "error"
  end.

Definition all : list t :=
  [GREETING; QUESTION; STATEMENT; REQUEST; CONFIRMATION; CLARIFICATION;
   ACKNOWLEDGMENT; CLOSING; ERROR].

(** [DialogueAct(s)]: the member whose value is [s], if any. *)
Definition of_value (s : string) : option t :=
  List.find (fun a => String.eqb (value a) s) all.

End DialogueAct.

#[global] Instance DialogueAct_eq_dec : EqDecision DialogueAct.t.
Proof. solve_decision. Defined.

Module State.
(** [state.value] *)
Definition value (s : ConversationState) : string :=
  match s with
  | INITIAL => "initial"
  | GREETING => "greeting"
  | IN_PROGRESS => "in_progress"
  | ASKING_CLARIFICATION => "asking_clarification"
  | PROVIDING_INFORMATION => "providing_information"
  | SEEKING_CONFIRMATION => "seeking_confirmation"
  | CLOSING => "closing"
  | ERROR => "error"
  end.

Definition all : list ConversationState :=
  [INITIAL; GREETING; IN_PROGRESS; ASKING_CLARIFICATION; PROVIDING_INFORMATION;
   SEEKING_CONFIRMATION; CLOSING; ERROR].

(** [ConversationState(s)] *)
Definition of_value (s : string) : option ConversationState :=
  List.find (fun a => String.eqb (value a) s) all.

End State.

#[global] Instance ConversationState_eq_dec : EqDecision ConversationState.
Proof. solve_decision. Defined.

(** ** Naive [datetime] values and their ISO-8601 text

    A timestamp is what [datetime.now()] returns: a naive calendar date and
    wall-clock time with microseconds. *)

Record datetime := {
  year : N;
  month : N;
  day : N;
  hour : N;
  minute : N;
  second : N;
  microsecond : N
}.

Module Datetime.

Local Open Scope N_scope.

Definition is_leap (y : N) : bool :=
  (y mod 4 =? 0) && negb (y mod 100 =? 0) || (y mod 400 =? 0).

Definition days_in_month (y m : N) : N :=
  match m with
  | 2 => if is_leap y then 29 else 28
  | 4 | 6 | 9 | 11 => 30
  | _ => 31
  end.

(** The range checks of the [datetime] constructor. *)
Definition valid (t : datetime) : bool :=
  (1 <=? year t) && (year t <=? 9999)
  && (1 <=? month t) && (month t <=? 12)
  && (1 <=? day t) && (day t <=? days_in_month (year t) (month t))
  && (hour t <? 24) && (minute t <? 60) && (second t <? 60)
  && (microsecond t <? 1000000).

Definition d (n : N) : ascii := ascii_of_N (48 + n mod 10).

(** ["%02d"], ["%04d"] and ["%06d"] on numbers within range. *)
Definition zpad2 (n : N) : list ascii := [d (n / 10); d n].
Definition zpad4 (n : N) : list ascii :=
  [d (n / 1000); d (n / 100); d (n / 10); d n].
Definition zpad6 (n : N) : list ascii :=
  [d (n / 100000); d (n / 10000); d (n / 1000); d (n / 100); d (n / 10); d n].

(** [dt.isoformat()]: [YYYY-MM-DDTHH:MM:SS], followed by [.ffffff] when
    the microsecond is not zero. *)
Definition isoformat (t : datetime) : string :=
  PyStr.of_chars
    (zpad4 (year t) ++ "-"%char :: zpad2 (month t) ++ "-"%char :: zpad2 (day t)
     ++ "T"%char :: zpad2 (hour t) ++ ":"%char :: zpad2 (minute t)
     ++ ":"%char :: zpad2 (second t)
     ++ (if microsecond t =? 0 then [] else "."%char :: zpad6 (microsecond t))).

Definition digit_of (c : ascii) : option N :=
  let n := PyStr.code c in
  if (48 <=? n) && (n <=? 57) then Some (n - 48) else None.

Fixpoint number_of (cs : list ascii) (acc : N) : option N :=
  match cs with
  | [] => Some acc
  | c :: cs' =>
      match digit_of c with
      | Some k => number_of cs' (10 * acc + k)
      | None => None
      end
  end.

Definition checked (t : datetime) : option datetime :=
  if valid t then Some t else None.

(** [datetime.fromisoformat(s)] on the two shapes [isoformat] emits for a
    naive timestamp; [None] stands for [ValueError].  (The other shapes
    the library accepts, dates alone and UTC offsets, are never produced
    by [isoformat] on the timestamps of this program.) *)
Definition fromisoformat (s : string) : option datetime :=
  match PyStr.chars s with
  | y1 :: y2 :: y3 :: y4 :: "-"%char :: m1 :: m2 :: "-"%char :: d1 :: d2
    :: "T"%char :: h1 :: h2 :: ":"%char :: n1 :: n2 :: ":"%char :: s1 :: s2 :: rest =>
      yy ← number_of [y1; y2; y3; y4] 0;
      mm ← number_of [m1; m2] 0;
      dd ← number_of [d1; d2] 0;
      hh ← number_of [h1; h2] 0;
      mi ← number_of [n1; n2] 0;
      ss ← number_of [s1; s2] 0;
      match rest with
      | [] => checked (Build_datetime yy mm dd hh mi ss 0)
      | ["."%char; u1; u2; u3; u4; u5; u6] =>
          us ← number_of [u1; u2; u3; u4; u5; u6] 0;
          checked (Build_datetime yy mm dd hh mi ss us)
      | _ => None
      end
  | _ => None
  end.

End Datetime.

(** ** Dynamically typed values: what [Any] ranges over in [entities] and
    [metadata], and what the dictionaries of [to_dict] hold *)

Inductive pyval :=
| PNone
| PBool (b : bool)
| PInt (z : Z)
| PFloat (f : float)
| PStr (s : string)
| PList (l : list pyval)
| PDict (m : gmap string pyval).

(** ** The outside world: clock, UUID generator and random source

    [clock], [uuids] and [rand] are arbitrary streams; the counters say how
    many values of each have been consumed. *)

Record World := {
  clock : nat -> datetime;
  uuids : nat -> string;
  rand : nat -> nat;
  n_clock : nat;
  n_uuid : nat;
  n_rand : nat
}.

Definition M (A : Type) : Type := World -> A * World.

Definition ret {A} (a : A) : M A := fun w => (a, w).
Definition bind {A B} (m : M A) (k : A -> M B) : M B :=
  fun w => let (a, w') := m w in k a w'.

Notation "x <- c1 ;; c2" := (bind c1 (fun x => c2))
  (at level 100, c1 at next level, right associativity).

(** [datetime.now()] *)
Definition datetime_now : M datetime := fun w =>
  (clock w (n_clock w),
   Build_World (clock w) (uuids w) (rand w) (S (n_clock w)) (n_uuid w) (n_rand w)).

(** [str(uuid.uuid4())] *)
Definition uuid4 : M string := fun w =>
  (uuids w (n_uuid w),
   Build_World (clock w) (uuids w) (rand w) (n_clock w) (S (n_uuid w)) (n_rand w)).

(** [random.choice(seq)] on a non-empty sequence; [dflt] is never returned
    for one, it only makes the function total. *)
Definition random_choice {A} (dflt : A) (seq : list A) : M A := fun w =>
  (nth (rand w (n_rand w) mod List.length seq) seq dflt,
   Build_World (clock w) (uuids w) (rand w) (n_clock w) (n_uuid w) (S (n_rand w))).

(** ** [state.py]: records *)

Record ConversationContext := {
  user_id : string;
  conversation_id : string;
  state : ConversationState;
  previous_state : ConversationState;
  dialogue_act : DialogueAct.t;
  topic : string;
  entities : list (gmap string pyval);
  user_intent : string;
  last_user_input : string;
  last_agent_response : string;
  turn_count : Z;
  created_at : datetime;
  updated_at : datetime;
  metadata : gmap string pyval
}.

(** [ConversationContext(user_id=..., conversation_id=...)]: the two
    [default_factory] timestamps are read one after the other. *)
Definition new_context (uid cid : string) : M ConversationContext :=
  c <- datetime_now ;;
  u <- datetime_now ;;
  ret {| user_id := uid; conversation_id := cid;
         state := INITIAL; previous_state := INITIAL;
         dialogue_act := DialogueAct.GREETING;
         topic := ""; entities := []; user_intent := "";
         last_user_input := ""; last_agent_response := "";
         turn_count := 0; created_at := c; updated_at := u;
         metadata := ∅ |}.

Record StateTransition := {
  from_state : ConversationState;
  to_state : ConversationState;
  trigger : string;
  timestamp : datetime
}.

(** The manager object: [self.user_id], [self.conversation_id],
    [self.context], [self.state_history], [self.max_history_length]. *)
Record ConversationStateManager := {
  self_user_id : string;
  self_conversation_id : string;
  context : ConversationContext;
  state_history : list StateTransition;
  max_history_length : nat
}.

(** ** [state.py]: [ConversationStateManager] *)

(** Attribute assignment on the context, one setter per field. *)
Definition set_state (v : ConversationState) (c : ConversationContext) :=
  {| user_id := user_id c; conversation_id := conversation_id c;
     state := v; previous_state := previous_state c;
     dialogue_act := dialogue_act c; topic := topic c; entities := entities c;
     user_intent := user_intent c; last_user_input := last_user_input c;
     last_agent_response := last_agent_response c; turn_count := turn_count c;
     created_at := created_at c; updated_at := updated_at c;
     metadata := metadata c |}.

Definition set_previous_state (v : ConversationState) (c : ConversationContext) :=
  {| user_id := user_id c; conversation_id := conversation_id c;
     state := state c; previous_state := v;
     dialogue_act := dialogue_act c; topic := topic c; entities := entities c;
     user_intent := user_intent c; last_user_input := last_user_input c;
     last_agent_response := last_agent_response c; turn_count := turn_count c;
     created_at := created_at c; updated_at := updated_at c;
     metadata := metadata c |}.

Definition set_dialogue_act (v : DialogueAct.t) (c : ConversationContext) :=
  {| user_id := user_id c; conversation_id := conversation_id c;
     state := state c; previous_state := previous_state c;
     dialogue_act := v; topic := topic c; entities := entities c;
     user_intent := user_intent c; last_user_input := last_user_input c;
     last_agent_response := last_agent_response c; turn_count := turn_count c;
     created_at := created_at c; updated_at := updated_at c;
     metadata := metadata c |}.

Definition set_updated_at (v : datetime) (c : ConversationContext) :=
  {| user_id := user_id c; conversation_id := conversation_id c;
     state := state c; previous_state := previous_state c;
     dialogue_act := dialogue_act c; topic := topic c; entities := entities c;
     user_intent := user_intent c; last_user_input := last_user_input c;
     last_agent_response := last_agent_response c; turn_count := turn_count c;
     created_at := created_at c; updated_at := v;
     metadata := metadata c |}.

(** The keyword arguments of [update_context]: one constructor per context
    attribute, with a value of the attribute's type, and [kw_other] for a
    keyword that names no attribute of the context ([hasattr] is false). *)
Inductive kwarg :=
| kw_user_id (v : string)
| kw_conversation_id (v : string)
| kw_state (v : ConversationState)
| kw_previous_state (v : ConversationState)
| kw_dialogue_act (v : DialogueAct.t)
| kw_topic (v : string)
| kw_entities (v : list (gmap string pyval))
| kw_user_intent (v : string)
| kw_last_user_input (v : string)
| kw_last_agent_response (v : string)
| kw_turn_count (v : Z)
| kw_created_at (v : datetime)
| kw_updated_at (v : datetime)
| kw_metadata (v : gmap string pyval)
| kw_other (name : string) (v : pyval).

(** [hasattr(self.context, key)] *)
Definition hasattr (k : kwarg) : bool :=
  match k with kw_other _ _ => false | _ => true end.

(** [setattr(self.context, key, value)] *)
Definition setattr (k : kwarg) (c : ConversationContext) : ConversationContext :=
  let uid := user_id c in
  let cid := conversation_id c in
  let st := state c in
  let pst := previous_state c in
  let da := dialogue_act c in
  let tp := topic c in
  let en := entities c in
  let ui := user_intent c in
  let lui := last_user_input c in
  let lar := last_agent_response c in
  let tc := turn_count c in
  let ca := created_at c in
  let ua := updated_at c in
  let md := metadata c in
  let r := Build_ConversationContext in
  match k with
  | kw_user_id v => r v cid st pst da tp en ui lui lar tc ca ua md
  | kw_conversation_id v => r uid v st pst da tp en ui lui lar tc ca ua md
  | kw_state v => r uid cid v pst da tp en ui lui lar tc ca ua md
  | kw_previous_state v => r uid cid st v da tp en ui lui lar tc ca ua md
  | kw_dialogue_act v => r uid cid st pst v tp en ui lui lar tc ca ua md
  | kw_topic v => r uid cid st pst da v en ui lui lar tc ca ua md
  | kw_entities v => r uid cid st pst da tp v ui lui lar tc ca ua md
  | kw_user_intent v => r uid cid st pst da tp en v lui lar tc ca ua md
  | kw_last_user_input v => r uid cid st pst da tp en ui v lar tc ca ua md
  | kw_last_agent_response v => r uid cid st pst da tp en ui lui v tc ca ua md
  | kw_turn_count v => r uid cid st pst da tp en ui lui lar v ca ua md
  | kw_created_at v => r uid cid st pst da tp en ui lui lar tc v ua md
  | kw_updated_at v => r uid cid st pst da tp en ui lui lar tc ca v md
  | kw_metadata v => r uid cid st pst da tp en ui lui lar tc ca ua v
  | kw_other _ _ => c
  end.

Definition with_context (c : ConversationContext) (self : ConversationStateManager) :=
  {| self_user_id := self_user_id self;
     self_conversation_id := self_conversation_id self;
     context := c;
     state_history := state_history self;
     max_history_length := max_history_length self |}.

(** [l[-n:]]: the last [n] elements ([-0] is [0], so the whole list). *)
Definition last_n {A} (n : nat) (l : list A) : list A :=
  if (n =? 0)%nat then l else drop (List.length l - n) l.

(** [ConversationStateManager(user_id)] *)
Definition new_manager (uid : string) : M ConversationStateManager :=
  cid <- uuid4 ;;
  c <- new_context uid cid ;;
  ret {| self_user_id := uid; self_conversation_id := cid; context := c;
         state_history := []; max_history_length := 10 |}.

(** [self.update_state(new_state, trigger)] *)
Definition update_state (new_state : ConversationState) (trig : string)
    (self : ConversationStateManager) : M (bool * ConversationStateManager) :=
  if decide (new_state = state (context self)) then ret (false, self)
  else
    ts <- datetime_now ;;
    let transition :=
      {| from_state := state (context self); to_state := new_state;
         trigger := trig; timestamp := ts |} in
    let history := state_history self ++ [transition] in
    let history :=
      if (max_history_length self <? List.length history)%nat
      then last_n (max_history_length self) history
      else history in
    now <- datetime_now ;;
    ret (true,
         {| self_user_id := self_user_id self;
            self_conversation_id := self_conversation_id self;
            context :=
              set_updated_at now
                (set_state new_state
                   (set_previous_state (state (context self)) (context self)));
            state_history := history;
            max_history_length := max_history_length self |}).

(** [self.update_dialogue_act(act)] *)
Definition update_dialogue_act (act : DialogueAct.t)
    (self : ConversationStateManager) : M (bool * ConversationStateManager) :=
  if decide (act = dialogue_act (context self)) then ret (false, self)
  else
    now <- datetime_now ;;
    ret (true, with_context (set_updated_at now (set_dialogue_act act (context self))) self).

(** The loop of [update_context]: [(updated, context)] after the keyword
    arguments [kwargs] were visited in order. *)
Fixpoint update_context_loop (kwargs : list kwarg) (updated : bool)
    (c : ConversationContext) : bool * ConversationContext :=
  match kwargs with
  | [] => (updated, c)
  | k :: rest =>
      if hasattr k then update_context_loop rest true (setattr k c)
      else update_context_loop rest updated c
  end.

(** [self.update_context] applied to the keyword arguments [kwargs] *)
Definition update_context (kwargs : list kwarg)
    (self : ConversationStateManager) : M (bool * ConversationStateManager) :=
  let (updated, c) := update_context_loop kwargs false (context self) in
  if updated then
    now <- datetime_now ;;
    ret (updated, with_context (set_updated_at now c) self)
  else ret (updated, with_context c self).

(** [self.get_context()] and [self.get_state_history()] *)
Definition get_context (self : ConversationStateManager) : ConversationContext :=
  context self.
Definition get_state_history (self : ConversationStateManager) : list StateTransition :=
  state_history self.

(** [self.reset_conversation()] *)
Definition reset_conversation (self : ConversationStateManager) : M ConversationStateManager :=
  cid <- uuid4 ;;
  c <- new_context (self_user_id self) cid ;;
  ret {| self_user_id := self_user_id self; self_conversation_id := cid;
         context := c; state_history := [];
         max_history_length := max_history_length self |}.

(** [self.to_dict()] *)
Definition to_dict (self : ConversationStateManager) : gmap string pyval :=
  let c := context self in
  <["user_id" := PStr (user_id c)]>
  (<["conversation_id" := PStr (conversation_id c)]>
  (<["state" := PStr (State.value (state c))]>
  (<["previous_state" := PStr (State.value (previous_state c))]>
  (<["dialogue_act" := PStr (DialogueAct.value (dialogue_act c))]>
  (<["topic" := PStr (topic c)]>
  (<["entities" := PList (map PDict (entities c))]>
  (<["user_intent" := PStr (user_intent c)]>
  (<["last_user_input" := PStr (last_user_input c)]>
  (<["last_agent_response" := PStr (last_agent_response c)]>
  (<["turn_count" := PInt (turn_count c)]>
  (<["created_at" := PStr (Datetime.isoformat (created_at c))]>
  (<["updated_at" := PStr (Datetime.isoformat (updated_at c))]>
  (<["metadata" := PDict (metadata c)]> ∅))))))))))))).

(** Exceptions of [from_dict].  [IllTyped] marks a dictionary whose value
    under a key is not of the attribute's declared type: Python would store
    it unchecked, the typed context of the embedding cannot. *)
Inductive exn :=
| KeyError (k : string)
| ValueError (what : string)
| IllTyped (k : string).

Inductive result (A : Type) :=
| Ok (a : A)
| Raise (e : exn).
Arguments Ok {A} a.
Arguments Raise {A} e.

Definition rbind {A B} (r : result A) (k : A -> result B) : result B :=
  match r with Ok a => k a | Raise e => Raise e end.

Notation "x <~ c1 ;; c2" := (rbind c1 (fun x => c2))
  (at level 100, c1 at next level, right associativity).

(** [data[k]] *)
Definition getitem (data : gmap string pyval) (k : string) : result pyval :=
  match data !! k with Some v => Ok v | None => Raise (KeyError k) end.

Definition get_str (data : gmap string pyval) (k : string) : result string :=
  v <~ getitem data k ;;
  match v with PStr s => Ok s | _ => Raise (IllTyped k) end.

Definition get_int (data : gmap string pyval) (k : string) : result Z :=
  v <~ getitem data k ;;
  match v with PInt z => Ok z | _ => Raise (IllTyped k) end.

Definition get_dict (data : gmap string pyval) (k : string) : result (gmap string pyval) :=
  v <~ getitem data k ;;
  match v with PDict m => Ok m | _ => Raise (IllTyped k) end.

Fixpoint dicts_of (k : string) (l : list pyval) : result (list (gmap string pyval)) :=
  match l with
  | [] => Ok []
  | PDict m :: l' => ms <~ dicts_of k l' ;; Ok (m :: ms)
  | _ :: _ => Raise (IllTyped k)
  end.

Definition get_dicts (data : gmap string pyval) (k : string)
    : result (list (gmap string pyval)) :=
  v <~ getitem data k ;;
  match v with PList l => dicts_of k l | _ => Raise (IllTyped k) end.

(** [ConversationState(data[k])] *)
Definition get_state (data : gmap string pyval) (k : string) : result ConversationState :=
  s <~ get_str data k ;;
  match State.of_value s with
  | Some st => Ok st
  | None => Raise (ValueError s)
  end.

(** [DialogueAct(data[k])] *)
Definition get_act (data : gmap string pyval) (k : string) : result DialogueAct.t :=
  s <~ get_str data k ;;
  match DialogueAct.of_value s with
  | Some a => Ok a
  | None => Raise (ValueError s)
  end.

(** [datetime.fromisoformat(data[k])] *)
Definition get_datetime (data : gmap string pyval) (k : string) : result datetime :=
  s <~ get_str data k ;;
  match Datetime.fromisoformat s with
  | Some t => Ok t
  | None => Raise (ValueError s)
  end.

(** The thirteen assignments of [from_dict] on the fresh manager. *)
Definition from_dict_fill (data : gmap string pyval)
    (manager : ConversationStateManager) : result ConversationStateManager :=
  cid <~ get_str data "conversation_id" ;;
  st <~ get_state data "state" ;;
  pst <~ get_state data "previous_state" ;;
  da <~ get_act data "dialogue_act" ;;
  tp <~ get_str data "topic" ;;
  en <~ get_dicts data "entities" ;;
  ui <~ get_str data "user_intent" ;;
  lui <~ get_str data "last_user_input" ;;
  lar <~ get_str data "last_agent_response" ;;
  tc <~ get_int data "turn_count" ;;
  ca <~ get_datetime data "created_at" ;;
  ua <~ get_datetime data "updated_at" ;;
  md <~ get_dict data "metadata" ;;
  Ok (with_context
        {| user_id := user_id (context manager); conversation_id := cid;
           state := st; previous_state := pst; dialogue_act := da; topic := tp;
           entities := en; user_intent := ui; last_user_input := lui;
           last_agent_response := lar; turn_count := tc; created_at := ca;
           updated_at := ua; metadata := md |}
        manager).

(** [ConversationStateManager.from_dict(data)] *)
Definition from_dict (data : gmap string pyval) : M (result ConversationStateManager) :=
  match get_str data "user_id" with
  | Raise e => ret (Raise e)
  | Ok uid =>
      manager <- new_manager uid ;;
      ret (from_dict_fill data manager)
  end.

(** ** Regular expressions: the fragment of Python's [re] the pattern
    tables use

    Literals, [.], [\s], [\b], [$], escaped punctuation, groups,
    alternation, [?] on any atom and greedy [*] / [+] on a one-character
    atom.  Matching is the backtracking search of [re]: alternatives are
    tried left to right, [*], [+] and [?] prefer the longer match, and the
    first success wins; all matching is done under [re.IGNORECASE]. *)

Module Re.

(** One-character atoms. *)
Inductive cls :=
| Any               (* [.]: any character but a newline *)
| Space             (* [\s] *)
| Lit (c : ascii).  (* the character itself, up to case *)

Inductive t :=
| Eps
| Cls (q : cls)
| Star (q : cls)
| Plus (q : cls)
| Opt (r : t)
| Seq (r1 r2 : t)
| Alt (r1 r2 : t)
| WordB             (* [\b] *)
| Eol               (* [$] *)
| Fail.             (* matches nothing *)

Definition newline : ascii := ascii_of_N 10.

(** [\w] on ASCII: letters, digits and the underscore. *)
Definition is_word (c : ascii) : bool :=
  let n := PyStr.code c in
  ((48 <=? n) && (n <=? 57) || (65 <=? n) && (n <=? 90)
   || (97 <=? n) && (n <=? 122) || (n =? 95))%N.

Definition cls_match (q : cls) (x : ascii) : bool :=
  match q with
  | Any => negb (Ascii.eqb x newline)
  | Space => PyStr.is_space x
  | Lit c => Ascii.eqb (PyStr.lower_char x) (PyStr.lower_char c)
  end.

(** A position in the subject: the character before it, the characters
    from it on, and its index. *)
Record cursor := { prev : option ascii; rest : list ascii; pos : nat }.

Definition word_opt (o : option ascii) : bool :=
  match o with Some c => is_word c | None => false end.

Definition at_boundary (c : cursor) : bool :=
  xorb (word_opt (prev c)) (word_opt (head (rest c))).

(** [$] without [re.MULTILINE]: the end, or just before a final newline. *)
Definition at_eol (c : cursor) : bool :=
  match rest c with
  | [] => true
  | [x] => Ascii.eqb x newline
  | _ => false
  end.

(** Greedy repetition of a one-character atom, then the continuation;
    on failure one character is given back at a time. *)
Fixpoint star (q : cls) (pv : option ascii) (rs : list ascii) (p : nat)
    (k : cursor -> option nat) : option nat :=
  match rs with
  | x :: xs =>
      if cls_match q x then
        match star q (Some x) xs (S p) k with
        | Some e => Some e
        | None => k (Build_cursor pv rs p)
        end
      else k (Build_cursor pv rs p)
  | [] => k (Build_cursor pv [] p)
  end.

(** [run r c k]: match [r] at [c], then [k] on the position reached; the
    result is the end of the first overall success. *)
Fixpoint run (r : t) (c : cursor) (k : cursor -> option nat) : option nat :=
  match r with
  | Eps => k c
  | Cls q =>
      match rest c with
      | x :: xs => if cls_match q x then k (Build_cursor (Some x) xs (S (pos c))) else None
      | [] => None
      end
  | Star q => star q (prev c) (rest c) (pos c) k
  | Plus q =>
      match rest c with
      | x :: xs => if cls_match q x then star q (Some x) xs (S (pos c)) k else None
      | [] => None
      end
  | Opt r1 =>
      match run r1 c k with
      | Some e => Some e
      | None => k c
      end
  | Seq r1 r2 => run r1 c (fun c' => run r2 c' k)
  | Alt r1 r2 =>
      match run r1 c k with
      | Some e => Some e
      | None => run r2 c k
      end
  | WordB => if at_boundary c then k c else None
  | Eol => if at_eol c then k c else None
  | Fail => None
  end.

(** A match anchored at [c]: its end. *)
Definition match_at (r : t) (c : cursor) : option nat :=
  run r c (fun c' => Some (pos c')).

(** Left-to-right scan for non-overlapping matches.  [skip] counts the
    positions still covered by the previous match. *)
Fixpoint scan (r : t) (pv : option ascii) (rs : list ascii) (p skip : nat)
    : list (nat * nat) :=
  let here :=
    match skip with
    | O => match_at r (Build_cursor pv rs p)
    | S _ => None
    end in
  let found := match here with Some e => [(p, e)] | None => [] end in
  let skip' := match here with Some e => e - p - 1 | None => skip - 1 end in
  match rs with
  | [] => found
  | x :: xs => found ++ scan r (Some x) xs (S p) skip'
  end.

(** The spans of [re.finditer(r, s)]. *)
Definition finditer_re (r : t) (s : string) : list (nat * nat) :=
  scan r None (PyStr.chars s) 0 0.

(** [re.search(r, s)] as a truth value. *)
Definition search_re (r : t) (s : string) : bool :=
  match finditer_re r s with [] => false | _ :: _ => true end.

(** [re.fullmatch(r, s)] as a truth value: a match from the start that
    ends at the end of [s]. *)
Definition fullmatch_re (r : t) (s : string) : bool :=
  match run r (Build_cursor None (PyStr.chars s) 0)
          (fun c' => match rest c' with [] => Some (pos c') | _ :: _ => None end) with
  | Some _ => true
  | None => false
  end.

(** *** Reading a pattern

    A stack of open groups; each frame holds the finished alternatives of
    its group and the pieces of the alternative being read, both in
    reverse. *)

Definition frame : Type := list t * list t.

Definition seq_of (pieces_rev : list t) : t :=
  fold_left (fun acc r => match acc with Eps => r | _ => Seq r acc end) pieces_rev Eps.

Definition alt_of (alts_rev : list t) (last : t) : t :=
  fold_left (fun acc r => Alt r acc) alts_rev last.

Definition close (f : frame) : t := alt_of (fst f) (seq_of (snd f)).

Definition push_piece (r : t) (st : list frame) : option (list frame) :=
  match st with
  | (alts, pieces) :: st' => Some ((alts, r :: pieces) :: st')
  | [] => None
  end.

(** A quantifier applies to the piece read last. *)
Definition quantify (q : ascii) (st : list frame) : option (list frame) :=
  match st with
  | (alts, r :: pieces) :: st' =>
      let r' :=
        if Ascii.eqb q "?" then Some (Opt r)
        else match r with
             | Cls k => Some (if Ascii.eqb q "*" then Star k else Plus k)
             | _ => None
             end in
      match r' with
      | Some r' => Some ((alts, r' :: pieces) :: st')
      | None => None
      end
  | _ => None
  end.

Definition escape (c : ascii) : t :=
  if Ascii.eqb c "b" then WordB
  else if Ascii.eqb c "s" then Cls Space
  else Cls (Lit c).

Fixpoint parse_chars (l : list ascii) (st : list frame) : option t :=
  match l with
  | [] => match st with [f] => Some (close f) | _ => None end
  | c :: l' =>
      if Ascii.eqb c "\" then
        match l' with
        | e :: l'' =>
            if is_word e && negb (Ascii.eqb e "b") && negb (Ascii.eqb e "s") then None
            else match push_piece (escape e) st with
                 | Some st' => parse_chars l'' st'
                 | None => None
                 end
        | [] => None
        end
      else if Ascii.eqb c "(" then parse_chars l' (([], []) :: st)
      else if Ascii.eqb c ")" then
        match st with
        | f :: st' =>
            match push_piece (close f) st' with
            | Some st'' => parse_chars l' st''
            | None => None
            end
        | [] => None
        end
      else if Ascii.eqb c "|" then
        match st with
        | (alts, pieces) :: st' => parse_chars l' ((seq_of pieces :: alts, []) :: st')
        | [] => None
        end
      else if Ascii.eqb c "*" || Ascii.eqb c "+" || Ascii.eqb c "?" then
        match quantify c st with
        | Some st' => parse_chars l' st'
        | None => None
        end
      else if Ascii.eqb c "[" || Ascii.eqb c "]" || Ascii.eqb c "{" || Ascii.eqb c "}"
              || Ascii.eqb c "^" then None
      else
        let r := if Ascii.eqb c "." then Cls Any
                 else if Ascii.eqb c "$" then Eol
                 else Cls (Lit c) in
        match push_piece r st with
        | Some st' => parse_chars l' st'
        | None => None
        end
  end.

(** [None] when the pattern is outside the fragment. *)
Definition parse (pattern : string) : option t :=
  parse_chars (PyStr.chars pattern) [([], [])].

(** The compiled pattern; every pattern of the tables is inside the
    fragment (lemma [tables_compile] below). *)
Definition compile (pattern : string) : t :=
  match parse pattern with Some r => r | None => Fail end.

(** [re.search(pattern, s, re.IGNORECASE)], [re.fullmatch(...)] and the
    spans of [re.finditer(...)]. *)
Definition search (pattern s : string) : bool := search_re (compile pattern) s.
Definition fullmatch (pattern s : string) : bool := fullmatch_re (compile pattern) s.
Definition finditer (pattern s : string) : list (nat * nat) :=
  finditer_re (compile pattern) s.

End Re.

(** ** [dialogue_act.py]: [DialogueActRecognizer] *)

Module DialogueActRecognizer.

Import DialogueAct.
Local Open Scope float_scope.

(** [self.patterns], in the insertion order of the dictionary. *)
Definition patterns : list (DialogueAct.t * list string) :=
  [ (GREETING,
      [ "\b(hello|hi|hey|good\s+(morning|afternoon|evening))\b";
        "\bhowdy\b";
        "\bwhat\'?s\s+up\b" ]);
    (CLOSING,
      [ "\b(bye|goodbye|see\s+you|farewell|quit|exit)\b";
        "\b(that\'?s\s+all|that\'?s\s+it)\b" ]);
    (QUESTION,
      [ "\b(what|where|when|why|how|who|which|whose|whom)\b.*\?";
        "\b(could|would|can|will|shall|do|does|did|is|are|was|were)\b.*\?";
        ".*\?$" ]);
    (REQUEST,
      [ "\b(please|could you|would you|can you|help me)\b";
        "\b(i need|i want|i would like)\b";
        "\b(tell me|show me|give me|find me)\b" ]);
    (CONFIRMATION,
      [ "\b(yes|yeah|yep|sure|ok|okay|right|correct|affirmative)\b";
        "\b(no|nope|negative)\b" ]);
    (CLARIFICATION,
      [ "\b(what do you mean|can you explain|what exactly|sorry)\b";
        "\b(i don\'?t understand|i\'?m confused)\b" ]);
    (ACKNOWLEDGMENT,
      [ "\b(i see|i understand|got it|okay|ok|right)\b";
        "\b(thanks|thank you|appreciate it)\b" ]) ].

(** [self._calculate_pattern_score(text, patterns)]: the loop returns at
    the first pattern found anywhere in the text. *)
Fixpoint _calculate_pattern_score (text : string) (pats : list string) : float :=
  match pats with
  | [] => 0.0
  | pattern :: pats' =>
      if Re.search pattern text then
        if Re.fullmatch pattern text then 0.9 else 0.7
      else _calculate_pattern_score text pats'
  end.

(** The body of the [for act, patterns in self.patterns.items()] loop. *)
Definition step (text_lower : string) (best : DialogueAct.t * float)
    (entry : DialogueAct.t * list string) : DialogueAct.t * float :=
  let score := _calculate_pattern_score text_lower (snd entry) in
  if PyFloat.gt score (snd best) then (fst entry, score) else best.

(** [self.recognize_act(text)] *)
Definition recognize_act (text : string) : DialogueAct.t * float :=
  let text_lower := PyStr.strip (PyStr.lower text) in
  if String.eqb text_lower "" then (ERROR, 0.0)
  else fold_left (step text_lower) patterns (STATEMENT, 0.1).

(** [scores.sort(key=lambda x: x[1], reverse=True)]: the stable sort of
    the (act, score) pairs into descending score. *)
Fixpoint insert_score (x : DialogueAct.t * float) (l : list (DialogueAct.t * float))
    : list (DialogueAct.t * float) :=
  match l with
  | [] => [x]
  | y :: l' =>
      if PrimFloat.ltb (snd x) (snd y) then y :: insert_score x l'
      else x :: y :: l'
  end.

Definition sort_scores (l : list (DialogueAct.t * float)) : list (DialogueAct.t * float) :=
  fold_right insert_score [] l.

(** [l[:n]] for any integer [n]: a negative [n] drops the last [-n]
    elements. *)
Definition slice_to {A} (n : Z) (l : list A) : list A :=
  if (0 <=? n)%Z then take (Z.to_nat n) l
  else take (List.length l - Z.to_nat (- n)) l.

(** The scores of all acts, in table order. *)
Definition all_scores (text_lower : string) : list (DialogueAct.t * float) :=
  map (fun entry : DialogueAct.t * list string =>
         (fst entry, _calculate_pattern_score text_lower (snd entry)))
      patterns.

(** [self.recognize_multiple_acts(text, top_n)] *)
Definition recognize_multiple_acts (text : string) (top_n : Z)
    : list (DialogueAct.t * float) :=
  let text_lower := PyStr.strip (PyStr.lower text) in
  if String.eqb text_lower "" then [(ERROR, 0.0)]
  else slice_to top_n (sort_scores (all_scores text_lower)).

(** [self.get_act_description(act)] *)
Definition get_act_description (act : DialogueAct.t) : string :=
  match act with
  | GREETING => "User is greeting the agent"
  | QUESTION => "User is asking a question"
  | STATEMENT => "User is making a statement"
  | REQUEST => "User is making a request"
  | CONFIRMATION => "User is confirming or denying something"
  | CLARIFICATION => "User is asking for clarification"
  | ACKNOWLEDGMENT => "User is acknowledging or thanking"
  | CLOSING => "User is ending the conversation"
  | ERROR => "Could not determine user intent"
  end.

End DialogueActRecognizer.

(** ** [ambiguity_detector.py] *)

Inductive AmbiguityType :=
| ENTITY_AMBIGUITY
| SCOPE_AMBIGUITY
| INTENT_AMBIGUITY
| TEMPORAL_AMBIGUITY
| QUANTIFIER_AMBIGUITY
| REFERENCE_AMBIGUITY
| CONTEXT_AMBIGUITY.

#[global] Instance AmbiguityType_eq_dec : EqDecision AmbiguityType.
Proof. solve_decision. Defined.

Record AmbiguityDetection := {
  type : AmbiguityType;
  confidence : float;
  description : string;
  position : nat * nat;
  suggested_clarification : string
}.

Module AmbiguityDetector.

Local Open Scope float_scope.

(** [ambiguity_type.value] *)
Definition value (a : AmbiguityType) : string :=
  match a with
  | ENTITY_AMBIGUITY => "entity_ambiguity"
  | SCOPE_AMBIGUITY => "scope_ambiguity"
  | INTENT_AMBIGUITY => "intent_ambiguity"
  | TEMPORAL_AMBIGUITY => "temporal_ambiguity"
  | QUANTIFIER_AMBIGUITY => "quantifier_ambiguity"
  | REFERENCE_AMBIGUITY => "reference_ambiguity"
  | CONTEXT_AMBIGUITY => "context_ambiguity"
  end.

(** [self.patterns], in the insertion order of the dictionary. *)
Definition patterns : list (AmbiguityType * list string) :=
  [ (ENTITY_AMBIGUITY,
      [ "\b(it|this|that|these|those)\b";
        "\b(he|she|they|them|we|us)\b";
        "\b(the thing|the stuff|this one|that one)\b" ]);
    (SCOPE_AMBIGUITY,
      [ "\b(all|everything|everywhere)\b";
        "\b(some|a few|several)\b.*\b(of (them|it|this))\b";
        "\b(part of|some of|a bit of)\b";
        "\b(a few of those things)\b" ]);
    (INTENT_AMBIGUITY,
      [ "\b(help me|can you|could you|would you)\b.*\?$";
        "\b(i need|i want)\b.*\?$";
        "\b(what about|how about)\b";
        "\b(i need help with this)\b" ]);
    (TEMPORAL_AMBIGUITY,
      [ "\b(sometimes|often|usually|occasionally)\b";
        "\b(later|soon|in a bit|in a moment)\b";
        "\b(when|whenever|while)\b.*\?";
        "\b(recently|lately|before|afterwards)\b" ]);
    (QUANTIFIER_AMBIGUITY,
      [ "\b(a lot of|a bunch of|a lot|many|much)\b";
        "\b(few|a few|several|some)\b";
        "\b(enough|too much|too many)\b" ]);
    (REFERENCE_AMBIGUITY,
      [ "\b(this|that|these|those)\b.*\?";
        "\b(he|she|it|they|them)\b.*\?";
        "\b(one|ones)\b.*\b(refer to|mean|talking about)\b" ]);
    (CONTEXT_AMBIGUITY,
      [ "\b(in that case|given that|considering that)\b";
        "\b(as we discussed|as mentioned|like before)\b";
        "\b(based on|according to)\b.*\b(you|your|previous)\b" ]) ].

(** [self.ambiguity_indicators["vague_terms"]] and
    [self.ambiguity_indicators["incomplete_phrases"]] *)
Definition vague_terms : list string :=
  ["thing"; "stuff"; "something"; "someone"; "somewhere"; "somehow"].
Definition incomplete_phrases : list string :=
  ["i want"; "i need"; "help me"; "can you"; "could you"].

(** The [base_confidence] table of [_calculate_confidence]. *)
Definition base_confidence (a : AmbiguityType) : float :=
  match a with
  | ENTITY_AMBIGUITY => 0.7
  | SCOPE_AMBIGUITY => 0.6
  | INTENT_AMBIGUITY => 0.8
  | TEMPORAL_AMBIGUITY => 0.6
  | QUANTIFIER_AMBIGUITY => 0.5
  | REFERENCE_AMBIGUITY => 0.7
  | CONTEXT_AMBIGUITY => 0.6
  end.

(** [self._calculate_confidence(ambiguity_type, matched_text, text_lower)] *)
Definition _calculate_confidence (a : AmbiguityType)
    (matched_text text_lower : string) : float :=
  let adjustment := 0.0 in
  let adjustment :=
    if PyStr.endswith text_lower matched_text && PyStr.contains text_lower "?"
    then adjustment + 0.1 else adjustment in
  let adjustment :=
    if (PyStr.len text_lower <? 10)%nat then adjustment - 0.2 else adjustment in
  let confidence := base_confidence a + adjustment in
  PyFloat.max 0.0 (PyFloat.min 1.0 confidence).

(** [self._generate_description_and_clarification(ambiguity_type, matched_text)] *)
Definition _generate_description_and_clarification (a : AmbiguityType)
    (matched_text : string) : string * string :=
  let quoted := "'" +:+ matched_text +:+ "'" in
  let description :=
    match a with
    | ENTITY_AMBIGUITY => "Unclear reference to " +:+ quoted
    | SCOPE_AMBIGUITY => "Unclear scope with " +:+ quoted
    | INTENT_AMBIGUITY => "Unclear intent with " +:+ quoted
    | TEMPORAL_AMBIGUITY => "Unclear timing with " +:+ quoted
    | QUANTIFIER_AMBIGUITY => "Unclear quantity with " +:+ quoted
    | REFERENCE_AMBIGUITY => "Unclear reference to " +:+ quoted
    | CONTEXT_AMBIGUITY => "Missing context with " +:+ quoted
    end in
  let clarification :=
    match a with
    | ENTITY_AMBIGUITY => "Could you be more specific about what you're referring to?"
    | SCOPE_AMBIGUITY => "Could you clarify what you mean by that?"
    | INTENT_AMBIGUITY => "What exactly would you like me to help you with?"
    | TEMPORAL_AMBIGUITY => "When are you referring to?"
    | QUANTIFIER_AMBIGUITY => "How much or how many are you referring to?"
    | REFERENCE_AMBIGUITY => "What specifically are you referring to?"
    | CONTEXT_AMBIGUITY => "Could you provide more context for your request?"
    end in
  (description, clarification).

(** [self._create_ambiguity_detection(ambiguity_type, match, text, text_lower)];
    [span] is [match.span()].  The span was found in [text_lower] and is
    cut out of the original [text]. *)
Definition _create_ambiguity_detection (a : AmbiguityType) (span : nat * nat)
    (text text_lower : string) : AmbiguityDetection :=
  let (start, end_) := span in
  let matched_text := PyStr.slice text start end_ in
  let confidence := _calculate_confidence a matched_text text_lower in
  let (description, clarification) :=
    _generate_description_and_clarification a matched_text in
  {| type := a; confidence := confidence; description := description;
     position := (start, end_); suggested_clarification := clarification |}.

(** [self._detect_keyword_ambiguities(text_lower)] *)
Definition _detect_keyword_ambiguities (text_lower : string) : list AmbiguityDetection :=
  flat_map
    (fun term =>
       if PyStr.contains text_lower term then
         let start := Z.to_nat (PyStr.find text_lower term) in
         let end_ := (start + PyStr.len term)%nat in
         [ {| type := ENTITY_AMBIGUITY; confidence := 0.6;
              description := "Vague term '" +:+ term +:+ "' used";
              position := (start, end_);
              suggested_clarification :=
                "Could you be more specific about what you mean?" |} ]
       else [])
    vague_terms
  ++
  flat_map
    (fun phrase =>
       if PyStr.endswith text_lower phrase then
         let start := Z.to_nat (PyStr.find text_lower phrase) in
         let end_ := (start + PyStr.len phrase)%nat in
         [ {| type := INTENT_AMBIGUITY; confidence := 0.8;
              description := "Incomplete request ending with '" +:+ phrase +:+ "'";
              position := (start, end_);
              suggested_clarification :=
                "What specifically would you like me to do?" |} ]
       else [])
    incomplete_phrases.

(** [self._detect_dialogue_act_ambiguity(text)] *)
Definition _detect_dialogue_act_ambiguity (text : string) : option AmbiguityDetection :=
  let text_lower := PyStr.strip (PyStr.lower text) in
  if PyStr.endswith text_lower "?" then
    let vague_question_indicators := ["what"; "how"; "which"] in
    if existsb (PyStr.contains text_lower) vague_question_indicators then
      let specific_terms := ["name"; "date"; "time"; "place"; "number"; "amount"] in
      if negb (existsb (PyStr.contains text_lower) specific_terms) then
        Some {| type := INTENT_AMBIGUITY; confidence := 0.7;
                description := "General question without specific details";
                position := (0%nat, PyStr.len text);
                suggested_clarification :=
                  "Could you be more specific about what information you're looking for?" |}
      else None
    else None
  else None.

(** The key under which [_remove_duplicates] remembers a detection. *)
Definition pos_key (a : AmbiguityDetection) : nat * nat * string :=
  (fst (position a), snd (position a), value (type a)).

(** The loop of [_remove_duplicates], from a given [seen_positions]. *)
Fixpoint remove_duplicates_from (seen_positions : gset (nat * nat * string))
    (ambiguities : list AmbiguityDetection) : list AmbiguityDetection :=
  match ambiguities with
  | [] => []
  | ambiguity :: rest =>
      if decide (pos_key ambiguity ∈ seen_positions)
      then remove_duplicates_from seen_positions rest
      else ambiguity
           :: remove_duplicates_from ({[ pos_key ambiguity ]} ∪ seen_positions) rest
  end.

(** [self._remove_duplicates(ambiguities)] *)
Definition _remove_duplicates (ambiguities : list AmbiguityDetection)
    : list AmbiguityDetection :=
  remove_duplicates_from ∅ ambiguities.

(** [sorted(l, key=lambda x: x.confidence, reverse=True)]: the stable
    sort into descending confidence, by insertion from the right.  An
    element goes in front of the first one that is not greater, so equal
    confidences keep their order. *)
Fixpoint insert_desc (x : AmbiguityDetection) (l : list AmbiguityDetection)
    : list AmbiguityDetection :=
  match l with
  | [] => [x]
  | y :: l' =>
      if PrimFloat.ltb (confidence x) (confidence y) then y :: insert_desc x l'
      else x :: y :: l'
  end.

Definition sort_by_confidence_desc (l : list AmbiguityDetection)
    : list AmbiguityDetection :=
  fold_right insert_desc [] l.

(** The detections of [detect_ambiguities] before de-duplication and
    sorting: pattern matches, keyword detections, dialogue-act detection. *)
Definition collect (text : string) : list AmbiguityDetection :=
  let text_lower := PyStr.strip (PyStr.lower text) in
  flat_map
    (fun entry : AmbiguityType * list string =>
       flat_map
         (fun pattern =>
            map (fun span => _create_ambiguity_detection (fst entry) span text text_lower)
                (Re.finditer pattern text_lower))
         (snd entry))
    patterns
  ++ _detect_keyword_ambiguities text_lower
  ++ match _detect_dialogue_act_ambiguity text with
     | Some dialogue_ambiguity => [dialogue_ambiguity]
     | None => []
     end.

(** [self.detect_ambiguities(text)] *)
Definition detect_ambiguities (text : string) : list AmbiguityDetection :=
  sort_by_confidence_desc (_remove_duplicates (collect text)).

(** [self.has_ambiguity(text, min_confidence)] *)
Definition has_ambiguity (text : string) (min_confidence : float) : bool :=
  existsb (fun a => PyFloat.ge (confidence a) min_confidence) (detect_ambiguities text).

(** [max(ambiguities, key=lambda x: x.confidence)] on a non-empty list:
    the first element of the greatest confidence. *)
Definition max_by_confidence (first : AmbiguityDetection) (others : list AmbiguityDetection)
    : AmbiguityDetection :=
  fold_left
    (fun best x => if PrimFloat.ltb (confidence best) (confidence x) then x else best)
    others first.

(** [self.get_highest_confidence_ambiguity(text)] *)
Definition get_highest_confidence_ambiguity (text : string) : option AmbiguityDetection :=
  match detect_ambiguities text with
  | first :: others => Some (max_by_confidence first others)
  | [] => None
  end.

End AmbiguityDetector.

(** ** Dictionaries with a few fixed keys: lookup in insertion order *)

Fixpoint dict_get `{EqDecision K} {V} (d : list (K * V)) (k : K) : option V :=
  match d with
  | [] => None
  | (k', v) :: d' => if decide (k' = k) then Some v else dict_get d' k
  end.

(** Truth value of an optional dictionary argument: [None] and the empty
    dictionary are false. *)
Definition truthy_dict (context : option (gmap string pyval)) : bool :=
  match context with
  | Some d => negb (bool_decide (d = ∅))
  | None => false
  end.

(** ** [question_generator.py]: [QuestionGenerator] *)

Module QuestionGenerator.

(** [self.question_templates] *)
Definition question_templates : list (AmbiguityType * list string) :=
  [ (ENTITY_AMBIGUITY,
      [ "Could you be more specific about what you're referring to?";
        "What exactly are you talking about?";
        "Can you clarify what you mean by that?";
        "Which specific {entity} are you referring to?";
        "I'm not sure what you mean. Could you provide more details?" ]);
    (SCOPE_AMBIGUITY,
      [ "Could you clarify what you mean by that?";
        "What specifically are you referring to?";
        "Can you be more specific about the scope?";
        "Are you referring to all of them or just some?";
        "What exactly do you mean by '{scope}'?" ]);
    (INTENT_AMBIGUITY,
      [ "What exactly would you like me to help you with?";
        "Could you clarify what you're trying to accomplish?";
        "What specifically are you looking for?";
        "Can you tell me more about what you need?";
        "I'd like to help, but I'm not sure what you want. Could you explain?" ]);
    (TEMPORAL_AMBIGUITY,
      [ "When are you referring to?";
        "Could you be more specific about the timing?";
        "What time period are you asking about?";
        "Are you referring to now, in the past, or in the future?";
        "Can you clarify when you mean?" ]);
    (QUANTIFIER_AMBIGUITY,
      [ "How much or how many are you referring to?";
        "Could you be more specific about the quantity?";
        "What amount are you asking about?";
        "Can you give me a specific number?";
        "How many exactly?" ]);
    (REFERENCE_AMBIGUITY,
      [ "What specifically are you referring to?";
        "Could you clarify what you mean by that?";
        "Which one are you talking about?";
        "I'm not sure what you're referring to. Could you be more specific?";
        "Can you tell me more about what you mean?" ]);
    (CONTEXT_AMBIGUITY,
      [ "Could you provide more context for your request?";
        "Can you give me more background information?";
        "I'm not sure I understand the context. Could you explain more?";
        "What situation are you referring to?";
        "Could you clarify the circumstances you're asking about?" ]) ].

(** [self.fallback_templates] *)
Definition fallback_templates : list string :=
  [ "Could you clarify what you mean?";
    "I'm not sure I understand. Could you explain more?";
    "Can you be more specific about what you're asking?";
    "Could you provide more details?";
    "I'd like to help, but I need a bit more information. What exactly do you mean?" ].

(** [self.contextual_templates] *)
Definition contextual_templates : list (string * list string) :=
  [ ("default",
      [ "To better assist you, could you clarify: {question}";
        "I want to make sure I understand correctly. {question}";
        "Could you help me understand what you mean by that? {question}";
        "To provide the best response, I need a bit more information: {question}";
        "Could you elaborate on that point? {question}" ]) ].

(** [self._customize_template(template, ambiguity)] *)
Definition _customize_template (template : string) (ambiguity : AmbiguityDetection)
    : string := template.

(** [self._add_context_to_question(question, context)] *)
Definition _add_context_to_question (question : string)
    (context : option (gmap string pyval)) : M string :=
  let templates := default ["{question}"] (dict_get contextual_templates "default") in
  contextual_template <- random_choice "" templates ;;
  ret (PyStr.replace contextual_template "{question}" question).

(** [self.generate_clarification_question(ambiguity, context)] *)
Definition generate_clarification_question (ambiguity : AmbiguityDetection)
    (context : option (gmap string pyval)) : M string :=
  let templates :=
    default fallback_templates (dict_get question_templates (type ambiguity)) in
  template <- random_choice "" templates ;;
  let question := _customize_template template ambiguity in
  if truthy_dict context then _add_context_to_question question context
  else ret question.

(** The [for ambiguity in top_ambiguities] loop. *)
Fixpoint generate_each (ambiguities : list AmbiguityDetection)
    (context : option (gmap string pyval)) : M (list string) :=
  match ambiguities with
  | [] => ret []
  | ambiguity :: rest =>
      question <- generate_clarification_question ambiguity context ;;
      questions <- generate_each rest context ;;
      ret (question :: questions)
  end.

(** [self.generate_multiple_questions(ambiguities, max_questions, context)] *)
Definition generate_multiple_questions (ambiguities : list AmbiguityDetection)
    (max_questions : nat) (context : option (gmap string pyval)) : M (list string) :=
  let sorted_ambiguities := AmbiguityDetector.sort_by_confidence_desc ambiguities in
  let top_ambiguities := take max_questions sorted_ambiguities in
  generate_each top_ambiguities context.

(** The template pools of [generate_contextual_question], chosen by the
    dialogue act. *)
Definition contextual_pool (dialogue_act : DialogueAct.t) : list string :=
  if decide (dialogue_act = DialogueAct.QUESTION) then
    [ "Could you tell me more about your question?";
      "What specifically would you like to know about that?";
      "I'd be happy to help with your question. Could you provide more details?" ]
  else if decide (dialogue_act = DialogueAct.REQUEST) then
    [ "What specifically would you like me to do?";
      "Could you tell me more about what you need?";
      "I'm here to help. What exactly are you looking for?" ]
  else if decide (dialogue_act = DialogueAct.CLARIFICATION) then
    [ "I see you're asking for clarification. What specifically would you like me to explain?";
      "Could you tell me what part you'd like me to clarify?";
      "What would you like me to explain in more detail?" ]
  else fallback_templates.

(** [self.generate_contextual_question(user_input, dialogue_act, context)] *)
Definition generate_contextual_question (user_input : string)
    (dialogue_act : DialogueAct.t) (context : option (gmap string pyval)) : M string :=
  let templates := contextual_pool dialogue_act in
  template <- random_choice "" templates ;;
  if truthy_dict context then _add_context_to_question template context
  else ret template.

(** The [direct_forms] dictionary of [_make_question_more_direct]. *)
Definition direct_forms : list (string * string) :=
  [ ("Could you be more specific about what you're referring to?", "What are you referring to?");
    ("Could you clarify what you mean by that?", "What do you mean?");
    ("What exactly would you like me to help you with?", "What do you want?");
    ("How much or how many are you referring to?", "How many?");
    ("When are you referring to?", "When?");
    ("What specifically are you referring to?", "What do you mean?");
    ("Could you provide more context for your request?", "More context?");
    ("Could you clarify what you're trying to accomplish?", "What are you trying to do?") ].

(** [self._make_question_more_direct(question)] *)
Definition _make_question_more_direct (question : string) : string :=
  default question (dict_get direct_forms question).

(** The [rephrased_forms] dictionary of [_rephrase_question]. *)
Definition rephrased_forms : list (string * string) :=
  [ ("Could you be more specific about what you're referring to?",
     "Can you tell me exactly what you mean?");
    ("What exactly would you like me to help you with?",
     "What kind of help are you looking for?");
    ("Could you clarify what you mean by that?", "Can you explain that differently?");
    ("How much or how many are you referring to?", "What quantity are you asking about?");
    ("When are you referring to?", "What time are you asking about?");
    ("What specifically are you referring to?", "Which one do you mean?");
    ("Could you provide more context for your request?", "Can you give me more background?");
    ("Could you clarify what you're trying to accomplish?", "What's your goal here?") ].

(** [self._rephrase_question(question)] *)
Definition _rephrase_question (question : string) : string :=
  default ("Let me ask differently: " +:+ question) (dict_get rephrased_forms question).

End QuestionGenerator.

(** ** [response_generator.py]: [ResponseGenerator] *)

Module ResponseGenerator.

(** [self.response_templates] *)
Definition response_templates : list (DialogueAct.t * ConversationState * list string) :=
  [ ((DialogueAct.GREETING, INITIAL),
      [ "Hello! I'm your personal assistant. How can I help you today?";
        "Hi there! What can I do for you?";
        "Greetings! How may I assist you?" ]);
    ((DialogueAct.GREETING, IN_PROGRESS),
      [ "Hello again! How can I help you further?";
        "Hi! What else can I assist you with?";
        "Welcome back! What would you like to know?" ]);
    ((DialogueAct.QUESTION, IN_PROGRESS),
      [ "That's a great question. Let me think about that...";
        "I'd be happy to help with that question.";
        "Let me see if I can answer that for you." ]);
    ((DialogueAct.REQUEST, IN_PROGRESS),
      [ "I'll help you with that request.";
        "Sure, I can assist with that.";
        "Let me take care of that for you." ]);
    ((DialogueAct.CLARIFICATION, ASKING_CLARIFICATION),
      [ "I apologize for any confusion. Let me clarify that for you.";
        "Let me explain that more clearly.";
        "I see you need more information. Here's a better explanation." ]);
    ((DialogueAct.CONFIRMATION, SEEKING_CONFIRMATION),
      [ "Thanks for confirming!";
        "Great, I'll proceed with that.";
        "Perfect, that's helpful to know." ]);
    ((DialogueAct.ACKNOWLEDGMENT, IN_PROGRESS),
      [ "I'm glad that was helpful!";
        "You're welcome! Is there anything else I can help with?";
        "Happy to assist! What else would you like to know?" ]);
    ((DialogueAct.CLOSING, CLOSING),
      [ "Goodbye! Have a wonderful day!";
        "It was great chatting with you. Take care!";
        "See you later! Feel free to come back anytime." ]);
    ((DialogueAct.ERROR, ERROR),
      [ "I'm sorry, I didn't quite understand that. Could you rephrase?";
        "I'm having trouble understanding. Could you try again?";
        "I'm not sure what you mean. Can you explain differently?" ]) ].

(** [self.fallback_templates] *)
Definition fallback_templates : list string :=
  [ "I understand. What else would you like to know?";
    "Thanks for sharing that. How can I help you further?";
    "I see. Is there anything specific you'd like me to help with?";
    "That's interesting. What would you like to do next?";
    "I'm here to help. What else can I assist you with?" ].

(** [self._enhance_response(template, llm_response, context)] *)
Definition _enhance_response (template llm_response : string)
    (context : ConversationContext) : string :=
  if PyStr.contains template "{llm_response}" then
    PyStr.replace template "{llm_response}" llm_response
  else if negb (String.eqb llm_response "") then
    if PyStr.endswith template "..." then
      PyStr.slice template 0 (PyStr.len template - 3) +:+ llm_response
    else if PyStr.endswith template "." || PyStr.endswith template "!"
            || PyStr.endswith template "?" then
      template +:+ " " +:+ llm_response
    else template +:+ ". " +:+ llm_response
  else template.

(** [self.generate_response(user_input, llm_response, state_manager, dialogue_act)] *)
Definition generate_response (user_input llm_response : string)
    (state_manager : ConversationStateManager) (dialogue_act : DialogueAct.t)
    : M string :=
  let context := get_context state_manager in
  let template_key := (dialogue_act, state context) in
  let templates := default fallback_templates (dict_get response_templates template_key) in
  template <- random_choice "" templates ;;
  ret (_enhance_response template llm_response context).

(** The [prompts] list of [generate_follow_up_prompt]. *)
Definition follow_up_prompts : list string :=
  [ "Is there anything else you'd like to know?";
    "What else can I help you with?";
    "Do you have any other questions?";
    "Is there anything more I can assist you with?";
    "What would you like to explore next?" ].

(** [self.generate_follow_up_prompt(context, dialogue_act)] *)
Definition generate_follow_up_prompt (context : ConversationContext)
    (dialogue_act : DialogueAct.t) : M (option string) :=
  if decide (state context = CLOSING) then ret None
  else if bool_decide (dialogue_act ∈ [DialogueAct.ACKNOWLEDGMENT; DialogueAct.CONFIRMATION])
  then ret None
  else prompt <- random_choice "" follow_up_prompts ;; ret (Some prompt).

(** [self.adapt_response_style(response, context, user_preferences)] *)
Definition adapt_response_style (response : string) (context : ConversationContext)
    (user_preferences : option (list string)) : string := response.

(** [self.generate_contextual_intro(context)] *)
Definition generate_contextual_intro (context : ConversationContext) : M string :=
  if decide (turn_count context = 0%Z) then
    random_choice ""
      [ "Hello! I'm your personal assistant. How can I help you today?";
        "Hi there! What can I do for you?";
        "Greetings! How may I assist you?" ]
  else
    let topic_references :=
      [ "Continuing our conversation"; "Picking up where we left off";
        "Following up on what we discussed" ] in
    reference <- random_choice "" topic_references ;;
    ret (reference +:+ ", how can I help you further?").

End ResponseGenerator.

(** ** [interface.py]: [EnhancedConversationInterface] *)

(** An entry [{"role": ..., "content": ...}] of the conversation history. *)
Record message := { role : string; content : string }.

Record EnhancedConversationInterface := {
  state_manager : ConversationStateManager;
  conversation_history : list message;
  ambiguity_threshold : float
}.

Module Interface.

Local Open Scope float_scope.

Definition newline : string := String (ascii_of_N 10) "".

Definition with_manager (m : ConversationStateManager)
    (self : EnhancedConversationInterface) : EnhancedConversationInterface :=
  {| state_manager := m;
     conversation_history := conversation_history self;
     ambiguity_threshold := ambiguity_threshold self |}.

(** [EnhancedConversationInterface(user_id)] *)
Definition new (uid : string) : M EnhancedConversationInterface :=
  m <- new_manager uid ;;
  ret {| state_manager := m; conversation_history := []; ambiguity_threshold := 0.6 |}.

(** [self.get_conversation_context()] *)
Definition get_conversation_context (self : EnhancedConversationInterface)
    : gmap string pyval :=
  let context := get_context (state_manager self) in
  <["state" := PStr (State.value (state context))]>
  (<["dialogue_act" := PStr (DialogueAct.value (dialogue_act context))]>
  (<["topic" := PStr (topic context)]>
  (<["turn_count" := PInt (turn_count context)]>
  (<["last_user_input" := PStr (last_user_input context)]>
  (<["last_agent_response" := PStr (last_agent_response context)]> ∅))))).

(** [self.state_manager.update_state(s, trigger)] with the result dropped. *)
Definition transition (s : ConversationState) (trig : string)
    (self : EnhancedConversationInterface) : M EnhancedConversationInterface :=
  p <- update_state s trig (state_manager self) ;;
  ret (with_manager (snd p) self).

(** [self._update_conversation_state(dialogue_act)] *)
Definition _update_conversation_state (dialogue_act : DialogueAct.t)
    (self : EnhancedConversationInterface) : M EnhancedConversationInterface :=
  let current_state := state (get_context (state_manager self)) in
  let trig := "dialogue_act:" +:+ DialogueAct.value dialogue_act in
  if decide (dialogue_act = DialogueAct.GREETING) then
    if decide (current_state = INITIAL) then transition GREETING trig self
    else transition IN_PROGRESS trig self
  else if decide (dialogue_act = DialogueAct.CLOSING) then
    transition CLOSING trig self
  else if decide (dialogue_act = DialogueAct.CLARIFICATION) then
    transition ASKING_CLARIFICATION trig self
  else if decide (dialogue_act = DialogueAct.CONFIRMATION) then
    transition SEEKING_CONFIRMATION trig self
  else if bool_decide (dialogue_act ∈ [DialogueAct.QUESTION; DialogueAct.REQUEST]) then
    transition PROVIDING_INFORMATION trig self
  else if decide (current_state = INITIAL) then
    transition IN_PROGRESS trig self
  else ret self.

(** The [fallback_templates] dictionary of [_generate_template_response]. *)
Definition fallback_templates : list (DialogueAct.t * list string) :=
  [ (DialogueAct.GREETING, ["Hello! How can I help you today?"]);
    (DialogueAct.QUESTION, ["That's an interesting question."]);
    (DialogueAct.REQUEST, ["I'll help you with that."]);
    (DialogueAct.STATEMENT, ["I see. Tell me more."]);
    (DialogueAct.CLOSING, ["Goodbye! Have a great day!"]);
    (DialogueAct.ERROR, ["I'm sorry, I didn't understand that."]) ].

(** [self._generate_template_response(dialogue_act)] *)
Definition _generate_template_response (dialogue_act : DialogueAct.t)
    (self : EnhancedConversationInterface) : M string :=
  let context := get_context (state_manager self) in
  let template_key := (dialogue_act, state context) in
  match dict_get ResponseGenerator.response_templates template_key with
  | Some (t :: ts) => random_choice "" (t :: ts)
  | _ =>
      let templates :=
        default ["I'm here to help. What can I do for you?"]
                (dict_get fallback_templates dialogue_act) in
      random_choice "" templates
  end.

(** The numbered list [f"{i + 1}. {q}"] joined by newlines. *)
Definition question_list (questions : list string) : string :=
  PyStr.join newline
    (imap (fun i q => PyStr.str_nat (i + 1) +:+ ". " +:+ q) questions).

Definition clarify_prefix : string := "I'd like to clarify a few things:" +:+ newline.

(** [self.process_input(user_input, llm_response)]; [llm_response] is
    [None] when the argument is left out. *)
Definition process_input (user_input : string) (llm_response : option string)
    (self : EnhancedConversationInterface) : M (string * EnhancedConversationInterface) :=
  (* Update conversation context *)
  p <- update_context
         [ kw_last_user_input user_input;
           kw_turn_count (turn_count (get_context (state_manager self)) + 1) ]
         (state_manager self) ;;
  let self := with_manager (snd p) self in
  (* Recognize dialogue act *)
  let (dialogue_act, _) := DialogueActRecognizer.recognize_act user_input in
  p <- update_dialogue_act dialogue_act (state_manager self) ;;
  let self := with_manager (snd p) self in
  (* Check for ambiguities in user input *)
  let ambiguities := AmbiguityDetector.detect_ambiguities user_input in
  let high_confidence_ambiguities :=
    List.filter (fun amb => PyFloat.ge (confidence amb) (ambiguity_threshold self))
                ambiguities in
  r <- match high_confidence_ambiguities with
       | _ :: _ =>
           questions <- QuestionGenerator.generate_multiple_questions
                          high_confidence_ambiguities 2
                          (Some (get_conversation_context self)) ;;
           let enhanced_response :=
             match questions with
             | [q] => q
             | _ => clarify_prefix +:+ question_list questions
             end in
           self' <- transition ASKING_CLARIFICATION "ambiguity_detected" self ;;
           ret (enhanced_response, self')
       | [] =>
           self' <- _update_conversation_state dialogue_act self ;;
           enhanced_response <-
             match llm_response with
             | Some (String c s) =>
                 ResponseGenerator.generate_response user_input (String c s)
                   (state_manager self') dialogue_act
             | _ => _generate_template_response dialogue_act self'
             end ;;
           ret (enhanced_response, self')
       end ;;
  let (enhanced_response, self) := r : string * EnhancedConversationInterface in
  (* Update context with agent response *)
  p <- update_context [kw_last_agent_response enhanced_response] (state_manager self) ;;
  let self := with_manager (snd p) self in
  (* Add to conversation history *)
  let history := conversation_history self ++ [ {| role := "user"; content := user_input |} ] in
  let history := history ++ [ {| role := "assistant"; content := enhanced_response |} ] in
  ret (enhanced_response,
       {| state_manager := state_manager self;
          conversation_history := history;
          ambiguity_threshold := ambiguity_threshold self |}).

(** [self.reset_conversation()] *)
Definition reset_conversation (self : EnhancedConversationInterface)
    : M EnhancedConversationInterface :=
  m <- reset_conversation (state_manager self) ;;
  ret {| state_manager := m; conversation_history := [];
         ambiguity_threshold := ambiguity_threshold self |}.

(** [self.get_state_description()] *)
Definition get_state_description (self : EnhancedConversationInterface) : string :=
  match state (get_context (state_manager self)) with
  | INITIAL => "Conversation is starting"
  | GREETING => "Exchanging greetings"
  | IN_PROGRESS => "Ongoing conversation"
  | ASKING_CLARIFICATION => "Asking for clarification"
  | PROVIDING_INFORMATION => "Providing information"
  | SEEKING_CONFIRMATION => "Seeking confirmation"
  | CLOSING => "Ending conversation"
  | ERROR => "Error state"
  end.

(** [create_enhanced_interface(user_id)] *)
Definition create_enhanced_interface (uid : string) : M EnhancedConversationInterface :=
  new uid.

End Interface.

(** ** Call sequences and tables the statements below speak about *)

(** Two calls of [update_state] in a row with the same target state. *)
Definition update_state_twice (s : ConversationState) (trig1 trig2 : string)
    (self : ConversationStateManager) : M (bool * bool * ConversationStateManager) :=
  p1 <- update_state s trig1 self ;;
  p2 <- update_state s trig2 (snd p1) ;;
  ret (fst p1, fst p2, snd p2).

(** The history after an accepted transition: the new record is appended
    and the history is cut back to its last [max_history_length] records. *)
Definition appended (self : ConversationStateManager) (tr : StateTransition)
    : list StateTransition :=
  let history := state_history self ++ [tr] in
  if (max_history_length self <? List.length history)%nat
  then last_n (max_history_length self) history
  else history.

(** The calls a client can make on a manager. *)
Inductive manager_call :=
| call_update_state (new_state : ConversationState) (trig : string)
| call_update_dialogue_act (act : DialogueAct.t)
| call_update_context (kwargs : list kwarg)
| call_reset_conversation.

Definition run_call (c : manager_call) (self : ConversationStateManager)
    : M ConversationStateManager :=
  match c with
  | call_update_state s trig => p <- update_state s trig self ;; ret (snd p)
  | call_update_dialogue_act a => p <- update_dialogue_act a self ;; ret (snd p)
  | call_update_context kwargs => p <- update_context kwargs self ;; ret (snd p)
  | call_reset_conversation => reset_conversation self
  end.

Fixpoint run_calls (cs : list manager_call) (self : ConversationStateManager)
    : M ConversationStateManager :=
  match cs with
  | [] => ret self
  | c :: cs' => self' <- run_call c self ;; run_calls cs' self'
  end.

(** The transition an accepted [update_state s trig] records when called on
    [self] in world [w]: its timestamp is the next reading of the clock. *)
Definition transition_of (s : ConversationState) (trig : string)
    (self : ConversationStateManager) (w : World) : StateTransition :=
  {| from_state := state (context self); to_state := s; trigger := trig;
     timestamp := clock w (n_clock w) |}.

(** The complete log of the transitions accepted since the manager was
    built or last reset, oldest first; it is kept beside the run and never
    cut. *)
Definition log_call (c : manager_call) (self : ConversationStateManager) (w : World)
    (log : list StateTransition) : list StateTransition :=
  match c with
  | call_update_state s trig =>
      if decide (s = state (context self)) then log
      else log ++ [transition_of s trig self w]
  | call_reset_conversation => []
  | _ => log
  end.

Fixpoint transition_log (cs : list manager_call) (self : ConversationStateManager)
    (w : World) (log : list StateTransition) : list StateTransition :=
  match cs with
  | [] => log
  | c :: cs' =>
      let (self', w') := run_call c self w in
      transition_log cs' self' w' (log_call c self w log)
  end.

(** The invariant tying the stored history to the complete log. *)
Definition history_inv (self : ConversationStateManager) (log : list StateTransition) : Prop :=
  max_history_length self = 10 /\ state_history self = last_n 10 log.

(** The transition table of the clear branch as the specification words
    it: the state asked of the manager for a dialogue act in a current
    state, [None] where no transition call is made. *)
Definition transition_table (act : DialogueAct.t) (current : ConversationState)
    : option ConversationState :=
  match act with
  | DialogueAct.GREETING =>
      Some (match current with INITIAL => GREETING | _ => IN_PROGRESS end)
  | DialogueAct.CLOSING => Some CLOSING
  | DialogueAct.CLARIFICATION => Some ASKING_CLARIFICATION
  | DialogueAct.CONFIRMATION => Some SEEKING_CONFIRMATION
  | DialogueAct.QUESTION | DialogueAct.REQUEST => Some PROVIDING_INFORMATION
  | _ => match current with INITIAL => Some IN_PROGRESS | _ => None end
  end.

(** The state the table leads to. *)
Definition next_state (act : DialogueAct.t) (current : ConversationState)
    : ConversationState :=
  match transition_table act current with Some s => s | None => current end.

(** The per-act score as the specification words it: 0.9 when any pattern
    fully matches, else 0.7 when any pattern is found, else 0.0. *)
Definition claimed_pattern_score (text : string) (pats : list string) : float :=
  if existsb (fun p => Re.fullmatch p text) pats then 0.9%float
  else if existsb (fun p => Re.search p text) pats then 0.7%float
  else 0.0%float.

(** The per-act score decided by the first pattern found in the text. *)
Definition first_found_score (text : string) (pats : list string) : float :=
  match List.find (fun p => Re.search p text) pats with
  | Some p => if Re.fullmatch p text then 0.9%float else 0.7%float
  | None => 0.0%float
  end.

(** The values a recognizer score or running best can take. *)
Definition score_value (f : float) : Prop :=
  f = 0.0%float \/ f = 0.1%float \/ f = 0.7%float \/ f = 0.9%float.

(** Descending order of confidence, with the comparison Python uses. *)
Definition conf_ge (x y : AmbiguityDetection) : Prop :=
  PrimFloat.leb (confidence y) (confidence x) = true.

Definition all_ambiguity_types : list AmbiguityType :=
  [ENTITY_AMBIGUITY; SCOPE_AMBIGUITY; INTENT_AMBIGUITY; TEMPORAL_AMBIGUITY;
   QUANTIFIER_AMBIGUITY; REFERENCE_AMBIGUITY; CONTEXT_AMBIGUITY].

(** Every confidence the detector can emit: each base confidence under the
    four possible adjustments, clamped, and the three flat confidences of
    the keyword and dialogue-act scans. *)
Definition conf_values : list float :=
  Eval vm_compute in
    (flat_map
       (fun a =>
          let base := AmbiguityDetector.base_confidence a in
          map (fun adjustment => PyFloat.max 0.0 (PyFloat.min 1.0 (base + adjustment)))
              [0.0; 0.0 + 0.1; 0.0 - 0.2; 0.0 + 0.1 - 0.2])
       all_ambiguity_types
     ++ [0.6; 0.8; 0.7])%float.

(** The fields of the manager a step leaves alone. *)
Definition keeps (m m' : ConversationStateManager) : Prop :=
  turn_count (context m') = turn_count (context m)
  /\ last_user_input (context m') = last_user_input (context m)
  /\ max_history_length m' = max_history_length m.

(** A run of [process_input] calls on successive inputs, each with its
    optional LLM response. *)
Fixpoint run_inputs (inputs : list (string * option string))
    (self : EnhancedConversationInterface) : M EnhancedConversationInterface :=
  match inputs with
  | [] => ret self
  | (user_input, llm_response) :: rest =>
      p <- Interface.process_input user_input llm_response self ;;
      run_inputs rest (snd p)
  end.

(** The clarification questions that can be generated for an ambiguity of
    type [a] when a conversation context is passed: a question template of
    the type inside a framing template. *)
Definition framed_questions (a : AmbiguityType) : list string :=
  flat_map
    (fun framing =>
       map (fun question => PyStr.replace framing "{question}" question)
           (default QuestionGenerator.fallback_templates
              (dict_get QuestionGenerator.question_templates a)))
    (default ["{question}"] (dict_get QuestionGenerator.contextual_templates "default")).

(** A detection whose confidence is one of the detector's values. *)
Definition known (x : AmbiguityDetection) : Prop := In (confidence x) conf_values.



(** The keys of the dictionary [to_dict] builds and [from_dict] reads. *)
Definition attribute_names : list string :=
  [ "user_id"; "conversation_id"; "state"; "previous_state"; "dialogue_act"; "topic";
    "entities"; "user_intent"; "last_user_input"; "last_agent_response"; "turn_count";
    "created_at"; "updated_at"; "metadata" ].

(** The first pair of the greatest score in a list of (act, score) pairs:
    a pair gives way only to a later pair of strictly greater score. *)
Fixpoint first_max (l : list (DialogueAct.t * float)) : option (DialogueAct.t * float) :=
  match l with
  | [] => None
  | x :: l' =>
      match first_max l' with
      | Some y => if PrimFloat.ltb (snd x) (snd y) then Some y else Some x
      | None => Some x
      end
  end.

(** Descending order of score on (act, score) pairs. *)
Definition score_ge (x y : DialogueAct.t * float) : Prop :=
  PrimFloat.leb (snd y) (snd x) = true.

(** No pattern of the recognizer's table is found in the text. *)
Definition nothing_found (text_lower : string) : Prop :=
  forall act pats pattern,
    In (act, pats) DialogueActRecognizer.patterns -> In pattern pats ->
    Re.search pattern text_lower = false.

(** Two confidences tie in the sort: neither is less than the other. *)
Definition tie (c : float) (x : AmbiguityDetection) : bool :=
  negb (PrimFloat.ltb (confidence x) c) && negb (PrimFloat.ltb c (confidence x)).

(** The questions [generate_clarification_question] can return for an
    ambiguity of type [a]: bare when no context (or an empty one) is
    passed, framed otherwise. *)
Definition question_pool (a : AmbiguityType) (context : option (gmap string pyval))
    : list string :=
  if truthy_dict context then framed_questions a
  else default QuestionGenerator.fallback_templates
         (dict_get QuestionGenerator.question_templates a).

(** A text that is not empty and holds a question mark. *)
Definition is_question (s : string) : bool :=
  negb (String.eqb s "") && PyStr.contains s "?".

(** The templates [generate_response] chooses from for a dialogue act in
    a state. *)
Definition response_pool (act : DialogueAct.t) (st : ConversationState) : list string :=
  default ResponseGenerator.fallback_templates
    (dict_get ResponseGenerator.response_templates (act, st)).

(** The templates [_generate_template_response] chooses from for a
    dialogue act in a state. *)
Definition template_pool (act : DialogueAct.t) (st : ConversationState) : list string :=
  match dict_get ResponseGenerator.response_templates (act, st) with
  | Some (t :: ts) => t :: ts
  | _ => default ["I'm here to help. What can I do for you?"]
           (dict_get Interface.fallback_templates act)
  end.

(** The detections of a text at or above a threshold. *)
Definition high_confidence (threshold : float) (user_input : string)
    : list AmbiguityDetection :=
  List.filter (fun amb => PyFloat.ge (confidence amb) threshold)
    (AmbiguityDetector.detect_ambiguities user_input).

(** ** Sample inputs for the worked instances *)

Definition sample_time : datetime :=
  {| year := 2024; month := 2; day := 29; hour := 23; minute := 59; second := 59;
     microsecond := 120 |}.

(** A world whose clock stands still, whose UUIDs are all the same and
    whose random source counts up. *)
Definition sample_world : World :=
  {| clock := fun _ => sample_time; uuids := fun _ => "00000000-0000-4000-8000-000000000000";
     rand := fun n => n; n_clock := 0; n_uuid := 0; n_rand := 0 |}.

Definition sample_manager : ConversationStateManager :=
  fst (new_manager "alice" sample_world).

Definition sample_interface : EnhancedConversationInterface :=
  fst (Interface.new "alice" sample_world).

(** The first detection on ["What about it?"]. *)
Definition sample_ambiguity : AmbiguityDetection :=
  {| type := INTENT_AMBIGUITY; confidence := 0.8%float;
     description := "Unclear intent with 'What about'";
     position := (0, 10)%nat;
     suggested_clarification := "What exactly would you like me to help you with?" |}.

(** The one detection on ["Please help me with this task"]. *)
Definition this_ambiguity : AmbiguityDetection :=
  {| type := ENTITY_AMBIGUITY; confidence := 0.7%float;
     description := "Unclear reference to 'this'";
     position := (20, 24)%nat;
     suggested_clarification :=
       "Could you be more specific about what you're referring to?" |}.

(** The world in which [sample_interface] has just been built. *)
Definition sample_world_1 : World :=
  snd (Interface.new "alice" sample_world).

(** * Properties *)

(** ** The state manager *)

Lemma update_state_same (s : ConversationState) (trig : string)
    (self : ConversationStateManager) (w : World) :
  s = state (context self) -> update_state s trig self w = (false, self, w).
Proof.
  intros ->. unfold update_state.
  destruct (decide _) as [_ | Hne]; [reflexivity | congruence].
Qed.

Lemma update_state_other (s : ConversationState) (trig : string)
    (self : ConversationStateManager) (w : World) :
  s <> state (context self) ->
  exists self' w',
    update_state s trig self w = (true, self', w')
    /\ state (context self') = s
    /\ previous_state (context self') = state (context self)
    /\ state_history self' = appended self (transition_of s trig self w)
    /\ max_history_length self' = max_history_length self.
Proof.
  intros Hne. unfold update_state.
  destruct (decide _) as [He | _]; [congruence |].
  eexists _, _. split; [reflexivity |]. auto.
Qed.

(** C4.  A call of [update_state] whose target is the current state
    returns [False] and changes nothing: the manager (history, [state],
    [previous_state], [updated_at] and all other fields) and even the clock
    are as before.  Consequently two calls in a row with the same target
    append what the first one appends: when the first call is a real
    transition (the target [s] differs from the current state), exactly one
    record, from the old state to [s] under the first trigger, joins the
    history, and the second call returns [False] and changes nothing. *)
Theorem update_state_same_target_noop
    (self : ConversationStateManager) (s : ConversationState)
    (trig trig' : string) (w : World)
    (Hs : s <> state (context self)) :
  update_state (state (context self)) trig self w = (false, self, w)
  /\ exists self1 w1,
       update_state s trig self w = (true, self1, w1)
       /\ update_state s trig' self1 w1 = (false, self1, w1)
       /\ update_state_twice s trig trig' self w = (true, false, self1, w1)
       /\ state_history self1 = appended self (transition_of s trig self w)
       /\ (List.length (state_history self) < max_history_length self ->
           state_history self1 = state_history self ++ [transition_of s trig self w]).
Proof.
  split; [by apply update_state_same |].
  destruct (update_state_other s trig self w Hs) as (self1 & w1 & H1 & Hst & _ & Hh & _).
  exists self1, w1.
  assert (H2 : update_state s trig' self1 w1 = (false, self1, w1))
    by (apply update_state_same; congruence).
  split; [assumption |]. split; [assumption |]. split; [| split; [assumption |]].
  - unfold update_state_twice, bind. rewrite H1. simpl. rewrite H2. reflexivity.
  - intros Hlen. rewrite Hh. unfold appended.
    rewrite length_app. simpl.
    destruct (Nat.ltb_spec (max_history_length self) (List.length (state_history self) + 1));
      [lia | reflexivity].
Qed.

(** C4 at work: a fresh manager asked twice for [GREETING]. *)
Lemma update_state_same_target_noop_witness :
  GREETING <> state (context sample_manager)
  /\ exists self1 w1,
       update_state GREETING "first" sample_manager sample_world = (true, self1, w1)
       /\ update_state GREETING "second" self1 w1 = (false, self1, w1).
Proof.
  split; [discriminate |].
  destruct (update_state_same_target_noop sample_manager GREETING "first" "second"
              sample_world) as (_ & self1 & w1 & H1 & H2 & _); [discriminate |].
  exists self1, w1. split; assumption.
Defined.

(** *** The bounded history *)

Lemma last_n_10 {A} (l : list A) : last_n 10 l = drop (List.length l - 10) l.
Proof. reflexivity. Qed.

Lemma last_n_length {A} (l : list A) : List.length (last_n 10 l) <= 10.
Proof. rewrite last_n_10, length_drop. lia. Qed.

Lemma last_n_short {A} (l : list A) : List.length l <= 10 -> last_n 10 l = l.
Proof.
  intros H. rewrite last_n_10. replace (List.length l - 10) with 0 by lia. reflexivity.
Qed.

Lemma last_n_snoc {A} (l : list A) (x : A) :
  last_n 10 (last_n 10 l ++ [x]) = last_n 10 (l ++ [x]).
Proof.
  destruct (Nat.le_gt_cases (List.length l) 10) as [Hle | Hgt].
  - by rewrite (last_n_short l).
  - rewrite !last_n_10, !length_app, length_drop. simpl.
    replace (List.length l - (List.length l - 10) + 1 - 10) with 1 by lia.
    replace (List.length l + 1 - 10) with (S (List.length l - 10)) by lia.
    rewrite (drop_app_le l [x]) by lia.
    rewrite (drop_app_le (drop _ l) [x]) by (rewrite length_drop; lia).
    rewrite drop_drop. f_equal. f_equal. lia.
Qed.

(** What [update_state] leaves in a history capped at ten. *)
Lemma appended_last_n (self : ConversationStateManager) (tr : StateTransition) :
  max_history_length self = 10 ->
  appended self tr = last_n 10 (state_history self ++ [tr]).
Proof.
  intros Hmax. unfold appended. rewrite Hmax.
  destruct (Nat.ltb_spec 10 (List.length (state_history self ++ [tr]))) as [H | H];
    [reflexivity | by rewrite last_n_short].
Qed.

Lemma run_call_inv (c : manager_call) (self : ConversationStateManager) (w : World)
    (log : list StateTransition) :
  history_inv self log ->
  history_inv (fst (run_call c self w)) (log_call c self w log).
Proof.
  intros [Hmax Hh]. destruct c as [s trig | a | kwargs | ]; simpl; unfold bind.
  - destruct (decide (s = state (context self))) as [He | Hne].
    + rewrite update_state_same by assumption. simpl. by split.
    + destruct (update_state_other s trig self w Hne) as (m' & w' & -> & _ & _ & Hh' & Hm').
      simpl. split; [congruence |].
      rewrite Hh', appended_last_n, Hh by assumption. apply last_n_snoc.
  - unfold update_dialogue_act. destruct (decide _); simpl; by split.
  - unfold update_context. destruct (update_context_loop _ _ _) as [[|] c]; simpl; by split.
  - split; [assumption | reflexivity].
Qed.

Lemma run_calls_inv (cs : list manager_call) :
  forall (self : ConversationStateManager) (w : World) (log : list StateTransition),
    history_inv self log ->
    history_inv (fst (run_calls cs self w)) (transition_log cs self w log).
Proof.
  induction cs as [| c cs IH]; intros self w log Hinv; [exact Hinv |].
  simpl. unfold bind.
  pose proof (run_call_inv c self w log Hinv) as Hstep.
  destruct (run_call c self w) as [self' w']. simpl in Hstep.
  by apply IH.
Qed.

Lemma new_manager_inv (uid : string) (w : World) :
  history_inv (fst (new_manager uid w)) [].
Proof. split; reflexivity. Qed.

(** C5.  After any sequence of [update_state], [update_dialogue_act],
    [update_context] and [reset_conversation] calls on a freshly built
    manager, the stored history has at most ten records and is exactly the
    last ten records (all of them when fewer), in order, of the complete
    log of transitions accepted since construction or the last reset.  In
    particular, when the history is full the next accepted transition
    drops its oldest record and is appended at the end. *)
Theorem state_history_bounded_fifo (uid : string) (cs : list manager_call) (w0 : World) :
  let start := new_manager uid w0 in
  let final := run_calls cs (fst start) (snd start) in
  let self := fst final in
  List.length (state_history self) <= 10
  /\ state_history self = last_n 10 (transition_log cs (fst start) (snd start) [])
  /\ forall (s : ConversationState) (trig : string),
       s <> state (context self) ->
       List.length (state_history self) = 10 ->
       state_history (snd (fst (update_state s trig self (snd final))))
       = drop 1 (state_history self) ++ [transition_of s trig self (snd final)].
Proof.
  intros start final self.
  destruct (run_calls_inv cs (fst start) (snd start) [] (new_manager_inv uid w0))
    as [Hmax Hh].
  fold final in Hmax, Hh. fold self in Hmax, Hh.
  split; [rewrite Hh; apply last_n_length |]. split; [exact Hh |].
  intros s trig Hne Hlen.
  destruct (update_state_other s trig self (snd final) Hne)
    as (m' & w' & -> & _ & _ & Hh' & _).
  simpl. rewrite Hh', appended_last_n by assumption.
  rewrite last_n_10, length_app. simpl. rewrite Hlen. simpl.
  rewrite drop_app_le by lia. reflexivity.
Qed.

(** ** The clear branch: dialogue act to state *)

Lemma transition_state (s : ConversationState) (trig : string)
    (self : EnhancedConversationInterface) (w : World) :
  state (context (state_manager (fst (Interface.transition s trig self w)))) = s.
Proof.
  unfold Interface.transition, bind.
  destruct (decide (s = state (context (state_manager self)))) as [He | Hne].
  - rewrite update_state_same by assumption. simpl. congruence.
  - destruct (update_state_other s trig (state_manager self) w Hne)
      as (m' & w' & -> & Hst & _). exact Hst.
Qed.

Lemma update_conversation_state_eq
    (act : DialogueAct.t) (self : EnhancedConversationInterface) (w : World) :
  Interface._update_conversation_state act self w
  = match transition_table act (state (context (state_manager self))) with
    | Some s => Interface.transition s ("dialogue_act:" +:+ DialogueAct.value act) self w
    | None => (self, w)
    end.
Proof.
  unfold Interface._update_conversation_state, get_context.
  destruct act, (state (context (state_manager self))); reflexivity.
Qed.

(** C3.  [_update_conversation_state] is the transition table: for a
    dialogue act and the current state it asks the manager for the state
    the table gives ([GREETING]: [GREETING] from [INITIAL], else
    [IN_PROGRESS]; [CLOSING]: [CLOSING]; [CLARIFICATION]:
    [ASKING_CLARIFICATION]; [CONFIRMATION]: [SEEKING_CONFIRMATION];
    [QUESTION], [REQUEST]: [PROVIDING_INFORMATION]; any other act:
    [IN_PROGRESS] from [INITIAL]), with the trigger ["dialogue_act:<act>"],
    and where the table has no entry it makes no call at all: interface
    and world are returned untouched.  The state afterwards is therefore a
    function of the act and the state before. *)
Theorem update_conversation_state_table
    (act : DialogueAct.t) (self : EnhancedConversationInterface) (w : World) :
  let current := state (context (state_manager self)) in
  Interface._update_conversation_state act self w
  = match transition_table act current with
    | Some s => Interface.transition s ("dialogue_act:" +:+ DialogueAct.value act) self w
    | None => (self, w)
    end
  /\ state (context (state_manager (fst (Interface._update_conversation_state act self w))))
     = next_state act current.
Proof.
  intros current. split; [apply update_conversation_state_eq |].
  rewrite update_conversation_state_eq. unfold next_state. fold current.
  destruct (transition_table act current) as [s |]; [apply transition_state | reflexivity].
Qed.

(** ** Serialization of the context *)

Section Iso8601.

Local Open Scope N_scope.

Lemma digit_of_d (n : N) : Datetime.digit_of (Datetime.d n) = Some (n mod 10).
Proof.
  unfold Datetime.digit_of, Datetime.d, PyStr.code.
  assert (Hr : n mod 10 < 10) by (apply N.mod_lt; lia).
  generalize dependent (n mod 10). intros r Hr.
  rewrite N_ascii_embedding by lia.
  replace ((48 <=? 48 + r) && (48 + r <=? 57)) with true.
  - f_equal. lia.
  - symmetry. apply andb_true_intro. split; apply N.leb_le; lia.
Qed.

Lemma number_of_zpad2 (n : N) :
  n < 100 -> Datetime.number_of (Datetime.zpad2 n) 0 = Some n.
Proof.
  intros Hn. unfold Datetime.zpad2. simpl Datetime.number_of.
  rewrite !digit_of_d. f_equal. zify. Z.to_euclidean_division_equations. lia.
Qed.

Lemma number_of_zpad4 (n : N) :
  n < 10000 -> Datetime.number_of (Datetime.zpad4 n) 0 = Some n.
Proof.
  intros Hn. unfold Datetime.zpad4. simpl Datetime.number_of.
  rewrite !digit_of_d. f_equal. zify. Z.to_euclidean_division_equations. lia.
Qed.

Lemma number_of_zpad6 (n : N) :
  n < 1000000 -> Datetime.number_of (Datetime.zpad6 n) 0 = Some n.
Proof.
  intros Hn. unfold Datetime.zpad6. simpl Datetime.number_of.
  rewrite !digit_of_d. f_equal. zify. Z.to_euclidean_division_equations. lia.
Qed.

Lemma days_in_month_le (y m : N) : Datetime.days_in_month y m <= 31.
Proof.
  unfold Datetime.days_in_month.
  repeat match goal with
         | |- context [match ?x with _ => _ end] => destruct x
         end; lia.
Qed.

Lemma valid_bounds (t : datetime) :
  Datetime.valid t = true ->
  year t < 10000 /\ month t < 100 /\ day t < 100 /\ hour t < 100
  /\ minute t < 100 /\ second t < 100 /\ microsecond t < 1000000.
Proof.
  unfold Datetime.valid. rewrite !andb_true_iff, !N.leb_le, !N.ltb_lt.
  pose proof (days_in_month_le (year t) (month t)). lia.
Qed.

(** [fromisoformat] undoes [isoformat] on every valid timestamp. *)
Lemma fromisoformat_isoformat (t : datetime) :
  Datetime.valid t = true ->
  Datetime.fromisoformat (Datetime.isoformat t) = Some t.
Proof.
  intros Hv. destruct (valid_bounds t Hv) as (Hy & Hm & Hd & Hh & Hmi & Hs & Hus).
  destruct t as [y m d h mi s us]. simpl in *.
  pose proof (number_of_zpad4 y Hy) as Ey.
  pose proof (number_of_zpad2 m Hm) as Em.
  pose proof (number_of_zpad2 d Hd) as Ed.
  pose proof (number_of_zpad2 h Hh) as Eh.
  pose proof (number_of_zpad2 mi Hmi) as Emi.
  pose proof (number_of_zpad2 s Hs) as Es.
  pose proof (number_of_zpad6 us Hus) as Eus.
  unfold Datetime.fromisoformat, Datetime.isoformat, PyStr.chars, PyStr.of_chars.
  rewrite list_ascii_of_string_of_list_ascii.
  cbn [year month day hour minute second microsecond].
  unfold Datetime.zpad2, Datetime.zpad4, Datetime.zpad6 in *.
  destruct (us =? 0) eqn:Hz.
  - apply N.eqb_eq in Hz. subst us.
    cbn [app]. rewrite Ey, Em, Ed, Eh, Emi, Es. simpl.
    unfold Datetime.checked. by rewrite Hv.
  - cbn [app]. rewrite Ey, Em, Ed, Eh, Emi, Es, Eus. simpl.
    unfold Datetime.checked. by rewrite Hv.
Qed.

End Iso8601.

Lemma state_of_value (s : ConversationState) : State.of_value (State.value s) = Some s.
Proof. destruct s; reflexivity. Qed.

Lemma act_of_value (a : DialogueAct.t) : DialogueAct.of_value (DialogueAct.value a) = Some a.
Proof. destruct a; reflexivity. Qed.

Lemma dicts_of_map (k : string) (es : list (gmap string pyval)) :
  dicts_of k (map PDict es) = Ok es.
Proof. induction es as [| e es IH]; simpl; [reflexivity | by rewrite IH]. Qed.

Ltac to_dict_lookup :=
  unfold getitem, to_dict;
  repeat (rewrite lookup_insert_ne by done); rewrite lookup_insert_eq.

Lemma from_dict_fill_to_dict (self manager : ConversationStateManager) :
  Datetime.valid (created_at (context self)) = true ->
  Datetime.valid (updated_at (context self)) = true ->
  user_id (context manager) = user_id (context self) ->
  exists self',
    from_dict_fill (to_dict self) manager = Ok self'
    /\ context self' = context self
    /\ state_history self' = state_history manager.
Proof.
  intros Hc Hu Huid. eexists. split; [| split].
  - unfold from_dict_fill, get_state, get_act, get_datetime, get_str, get_int,
      get_dict, get_dicts.
    repeat (to_dict_lookup; cbn [rbind]).
    rewrite !state_of_value, act_of_value, dicts_of_map.
    rewrite !fromisoformat_isoformat by assumption. cbn [rbind]. reflexivity.
  - simpl. rewrite Huid. by destruct (context self).
  - reflexivity.
Qed.

Lemma to_dict_user_id (self : ConversationStateManager) :
  get_str (to_dict self) "user_id" = Ok (user_id (context self)).
Proof. unfold get_str. to_dict_lookup. reflexivity. Qed.

(** C6.  For every manager whose two timestamps are valid calendar
    timestamps (as every [datetime] value is), [from_dict (to_dict m)]
    succeeds and yields a manager whose context equals the one of [m] in
    all fourteen fields; the enumeration tags and the ISO-8601 texts are
    read back to the values they were written from, and therefore
    [to_dict (from_dict (to_dict m)) = to_dict m]. *)
Theorem to_dict_from_dict_roundtrip (self : ConversationStateManager) (w : World)
    (Hcreated : Datetime.valid (created_at (context self)) = true)
    (Hupdated : Datetime.valid (updated_at (context self)) = true) :
  exists self' w',
    from_dict (to_dict self) w = (Ok self', w')
    /\ context self' = context self
    /\ to_dict self' = to_dict self.
Proof.
  unfold from_dict. rewrite to_dict_user_id. unfold bind.
  destruct (new_manager (user_id (context self)) w) as [manager w'] eqn:Hnew.
  assert (Huid : user_id (context manager) = user_id (context self)).
  { unfold new_manager, new_context, bind, ret, uuid4, datetime_now in Hnew.
    injection Hnew as <- _. reflexivity. }
  destruct (from_dict_fill_to_dict self manager Hcreated Hupdated Huid)
    as (self' & Hfill & Hctx & _).
  exists self', w'. rewrite Hfill. split; [reflexivity |]. split; [exact Hctx |].
  unfold to_dict. rewrite Hctx. reflexivity.
Qed.

(** C6 at work on a fresh manager built at [sample_time]. *)
Lemma to_dict_from_dict_roundtrip_witness :
  Datetime.valid (created_at (context sample_manager)) = true
  /\ Datetime.valid (updated_at (context sample_manager)) = true
  /\ exists self' w',
       from_dict (to_dict sample_manager) sample_world = (Ok self', w')
       /\ context self' = context sample_manager
       /\ to_dict self' = to_dict sample_manager.
Proof.
  split; [reflexivity |]. split; [reflexivity |].
  apply to_dict_from_dict_roundtrip; reflexivity.
Defined.

(** ** The dialogue-act recognizer *)

Section Recognizer.

Import DialogueActRecognizer.
Local Open Scope float_scope.

(** Every pattern of the two tables is inside the regular-expression
    fragment, so [Re.compile] never falls back. *)
Lemma tables_compile :
  Forall (fun p => is_Some (Re.parse p))
    (flat_map snd DialogueActRecognizer.patterns
     ++ flat_map snd AmbiguityDetector.patterns).
Proof. repeat constructor; vm_compute; eauto. Qed.

Lemma score_first_found (text : string) (pats : list string) :
  _calculate_pattern_score text pats = first_found_score text pats.
Proof.
  unfold first_found_score.
  induction pats as [| p pats IH]; simpl; [reflexivity |].
  destruct (Re.search p text); [reflexivity | exact IH].
Qed.

Lemma score_is_value (text : string) (pats : list string) :
  score_value (_calculate_pattern_score text pats).
Proof.
  rewrite score_first_found. unfold first_found_score, score_value.
  destruct (List.find _ pats); [destruct (Re.fullmatch _ _) |]; auto.
Qed.

Ltac float_cases :=
  unfold score_value in *;
  repeat match goal with
         | H : _ \/ _ |- _ => destruct H as [H | H]
         end;
  subst; vm_compute; intros; congruence.

Lemma value_lt_trans (a b c : float) :
  score_value a -> score_value b -> score_value c ->
  (a <? b) = true -> (b <? c) = true -> (a <? c) = true.
Proof. intros Ha Hb Hc. float_cases. Qed.

Lemma value_le_lt_trans (a b c : float) :
  score_value a -> score_value b -> score_value c ->
  (b <? a) = false -> (b <? c) = true -> (a <? c) = true.
Proof. intros Ha Hb Hc. float_cases. Qed.

Lemma value_lt_le (a b : float) :
  score_value a -> score_value b -> (a <? b) = true -> (a <=? b) = true.
Proof. intros Ha Hb. float_cases. Qed.

Lemma value_nlt_le (a b : float) :
  score_value a -> score_value b -> (a <? b) = false -> (b <=? a) = true.
Proof. intros Ha Hb. float_cases. Qed.

Lemma value_le_trans (a b c : float) :
  score_value a -> score_value b -> score_value c ->
  (a <=? b) = true -> (b <=? c) = true -> (a <=? c) = true.
Proof. intros Ha Hb Hc. float_cases. Qed.

Lemma value_le_refl (a : float) : score_value a -> (a <=? a) = true.
Proof. intros Ha. float_cases. Qed.

Lemma value_in_unit (a : float) : score_value a -> PyFloat.in_unit a = true.
Proof. intros Ha. float_cases. Qed.

(** The loop of [recognize_act] from any running best: the result
    dominates every score, and it is either the initial best, no score
    having exceeded it, or the first entry of the greatest score. *)
Lemma fold_best (text : string) (l : list (DialogueAct.t * list string)) :
  forall (a0 : DialogueAct.t) (c0 : float),
    score_value c0 ->
    let r := fold_left (step text) l (a0, c0) in
    score_value (snd r)
    /\ (c0 <=? snd r) = true
    /\ (forall e, In e l -> (_calculate_pattern_score text (snd e) <=? snd r) = true)
    /\ ((r = (a0, c0)
         /\ forall e, In e l -> (c0 <? _calculate_pattern_score text (snd e)) = false)
        \/ exists before pats after,
             l = before ++ (fst r, pats) :: after
             /\ snd r = _calculate_pattern_score text pats
             /\ (c0 <? snd r) = true
             /\ forall e, In e before ->
                  (_calculate_pattern_score text (snd e) <? snd r) = true).
Proof.
  induction l as [| x l IH]; intros a0 c0 Hc0; simpl.
  - split; [assumption |]. split; [by apply value_le_refl |].
    split; [intros e [] |]. left. split; [reflexivity | intros e []].
  - pose proof (score_is_value text (snd x)) as Hx.
    assert (Hstep : step text (a0, c0) x
                    = if c0 <? _calculate_pattern_score text (snd x)
                      then (fst x, _calculate_pattern_score text (snd x))
                      else (a0, c0)) by reflexivity.
    rewrite Hstep. clear Hstep.
    destruct (c0 <? _calculate_pattern_score text (snd x)) eqn:Hgt.
    + specialize (IH (fst x) _ Hx). simpl in IH.
      set (r := fold_left (step text) l (fst x, _calculate_pattern_score text (snd x))) in *.
      destruct IH as (Hv & Hle & Hall & Hcase).
      split; [assumption |].
      split.
      { apply (value_le_trans c0 _ (snd r) Hc0 Hx Hv); [by apply value_lt_le | exact Hle]. }
      split; [intros e [<- | He]; auto |].
      right. destruct Hcase as [[Hr _] | (before & pats & after & Hl & Hs & Hlt & Hb)].
      * exists [], (snd x), l. rewrite Hr. simpl.
        split; [by destruct x |]. split; [reflexivity |]. split; [assumption |].
        intros e [].
      * exists (x :: before), pats, after. rewrite Hl. simpl.
        split; [reflexivity |]. split; [assumption |].
        split; [exact (value_lt_trans c0 _ (snd r) Hc0 Hx Hv Hgt Hlt) |].
        intros e [<- | He]; auto.
    + specialize (IH a0 c0 Hc0). simpl in IH.
      set (r := fold_left (step text) l (a0, c0)) in *.
      destruct IH as (Hv & Hle & Hall & Hcase).
      split; [assumption |]. split; [assumption |].
      split.
      { intros e [<- | He]; auto.
        apply (value_le_trans _ c0 (snd r) Hx Hc0 Hv); [by apply value_nlt_le | exact Hle]. }
      destruct Hcase as [[Hr Hnone] | (before & pats & after & Hl & Hs & Hlt & Hb)].
      * left. split; [assumption |]. intros e [<- | He]; auto.
      * right. exists (x :: before), pats, after. rewrite Hl. simpl.
        split; [reflexivity |]. split; [assumption |]. split; [assumption |].
        intros e [<- | He]; auto.
        exact (value_le_lt_trans _ c0 (snd r) Hx Hc0 Hv Hgt Hlt).
Qed.

(** Counterexample to C7.  The claim that any fully matching pattern earns 0.9 fails on
    ["Hello, how are you?"]: the third QUESTION pattern [.*\?$] fully
    matches the lowercased text, but the first one is found inside it
    without matching it fully, so the loop returns 0.7, and the recognizer
    answers GREETING rather than QUESTION. *)
Lemma any_fullmatch_score_counterexample :
  PyStr.strip (PyStr.lower "Hello, how are you?") = "hello, how are you?"
  /\ dict_get patterns DialogueAct.QUESTION
     = Some [ "\b(what|where|when|why|how|who|which|whose|whom)\b.*\?";
              "\b(could|would|can|will|shall|do|does|did|is|are|was|were)\b.*\?";
              ".*\?$" ]
  /\ Re.fullmatch ".*\?$" "hello, how are you?" = true
  /\ claimed_pattern_score "hello, how are you?"
       [ "\b(what|where|when|why|how|who|which|whose|whom)\b.*\?";
         "\b(could|would|can|will|shall|do|does|did|is|are|was|were)\b.*\?";
         ".*\?$" ] = 0.9
  /\ _calculate_pattern_score "hello, how are you?"
       [ "\b(what|where|when|why|how|who|which|whose|whom)\b.*\?";
         "\b(could|would|can|will|shall|do|does|did|is|are|was|were)\b.*\?";
         ".*\?$" ] = 0.7
  /\ (0.7 =? 0.9) = false
  /\ recognize_act "Hello, how are you?" = (DialogueAct.GREETING, 0.7).
Proof. repeat split; vm_compute; reflexivity. Qed.

(** C7, amended.  For every input whose lowercased trimmed text is not
    empty, the score of each act of the table is decided by the first of
    the act's patterns, in list order, that is found somewhere in that
    text: 0.9 when this pattern also matches the whole text, 0.7 when it
    does not, and 0.0 when no pattern is found.  The returned confidence
    dominates every act's score, and the returned pair is either
    [(STATEMENT, 0.1)], no act scoring above 0.1, or the first act of the
    table with the greatest score, together with that score. *)
Theorem recognize_act_first_found (text : string) :
  PyStr.strip (PyStr.lower text) <> "" ->
  let text_lower := PyStr.strip (PyStr.lower text) in
  let r := recognize_act text in
  (forall act pats, In (act, pats) patterns ->
     _calculate_pattern_score text_lower pats = first_found_score text_lower pats)
  /\ (forall act pats, In (act, pats) patterns ->
        (_calculate_pattern_score text_lower pats <=? snd r) = true)
  /\ ((r = (DialogueAct.STATEMENT, 0.1)
       /\ forall act pats, In (act, pats) patterns ->
            (0.1 <? _calculate_pattern_score text_lower pats) = false)
      \/ exists before pats after,
           patterns = before ++ (fst r, pats) :: after
           /\ snd r = _calculate_pattern_score text_lower pats
           /\ (0.1 <? snd r) = true
           /\ forall e, In e before ->
                (_calculate_pattern_score text_lower (snd e) <? snd r) = true).
Proof.
  intros Hne text_lower r.
  split; [intros; apply score_first_found |].
  assert (Hr : r = fold_left (step text_lower) patterns (DialogueAct.STATEMENT, 0.1)).
  { unfold r, recognize_act. fold text_lower.
    destruct (String.eqb_spec text_lower ""); [contradiction | reflexivity]. }
  assert (Hv : score_value 0.1) by (unfold score_value; auto).
  destruct (fold_best text_lower patterns DialogueAct.STATEMENT 0.1 Hv)
    as (_ & _ & Hall & Hcase).
  rewrite <- Hr in Hall, Hcase.
  split; [intros act pats Hin; exact (Hall (act, pats) Hin) |].
  destruct Hcase as [[Heq Hnone] | Hex]; [left | right; exact Hex].
  split; [exact Heq |]. intros act pats Hin. exact (Hnone (act, pats) Hin).
Qed.

(** C7 (amended) at work on ["Hello, how are you?"]. *)
Lemma recognize_act_first_found_witness :
  PyStr.strip (PyStr.lower "Hello, how are you?") <> ""
  /\ forall act pats, In (act, pats) patterns ->
       _calculate_pattern_score (PyStr.strip (PyStr.lower "Hello, how are you?")) pats
       = first_found_score (PyStr.strip (PyStr.lower "Hello, how are you?")) pats.
Proof.
  split; [vm_compute; discriminate |].
  apply (recognize_act_first_found "Hello, how are you?"). vm_compute. discriminate.
Defined.

(** C8.  [recognize_act] is a total function of the text (every pattern
    of its table compiles, lemma [tables_compile]): on a text whose
    lowercased trimmed form is empty it returns exactly [(ERROR, 0.0)], and
    on every text it returns a member of the [DialogueAct] enumeration with
    a confidence between 0 and 1. *)
Theorem recognize_act_total (text : string) :
  let r := recognize_act text in
  (PyStr.strip (PyStr.lower text) = "" -> r = (DialogueAct.ERROR, 0.0))
  /\ In (fst r) DialogueAct.all
  /\ PyFloat.in_unit (snd r) = true.
Proof.
  intros r. split; [| split].
  - intros He. unfold r, recognize_act. rewrite He. reflexivity.
  - destruct (fst r); simpl; tauto.
  - unfold r, recognize_act.
    destruct (String.eqb _ ""); [reflexivity |].
    apply value_in_unit.
    apply (fold_best _ patterns DialogueAct.STATEMENT 0.1).
    unfold score_value. auto.
Qed.

End Recognizer.

(** ** The ambiguity detector *)

Section Detector.

Import AmbiguityDetector.
Local Open Scope float_scope.

(** *** Confidences *)

Lemma calculate_confidence_value (a : AmbiguityType) (matched_text text_lower : string) :
  In (_calculate_confidence a matched_text text_lower) conf_values.
Proof.
  unfold _calculate_confidence.
  destruct (PyStr.endswith text_lower matched_text && PyStr.contains text_lower "?");
    destruct (PyStr.len text_lower <? 10)%nat; destruct a;
    vm_compute; repeat (first [left; reflexivity | right]).
Qed.

Lemma collect_conf_value (text : string) (x : AmbiguityDetection) :
  In x (collect text) -> In (confidence x) conf_values.
Proof.
  unfold collect. rewrite !in_app_iff. intros [Hp | [Hk | Hd]].
  - apply in_flat_map in Hp as (entry & _ & Hp).
    apply in_flat_map in Hp as (pattern & _ & Hp).
    apply in_map_iff in Hp as ([start end_] & <- & _).
    apply calculate_confidence_value.
  - unfold _detect_keyword_ambiguities in Hk. apply in_app_iff in Hk as [Hk | Hk];
      apply in_flat_map in Hk as (term & _ & Hk);
      match type of Hk with context [if ?b then _ else _] => destruct b end;
      simpl in Hk; try contradiction; destruct Hk as [<- | []]; vm_compute; tauto.
  - destruct (_detect_dialogue_act_ambiguity text) as [d |] eqn:Hdet; [| destruct Hd].
    destruct Hd as [<- | []].
    unfold _detect_dialogue_act_ambiguity in Hdet.
    repeat match type of Hdet with
           | context [if ?b then _ else _] => destruct b; try discriminate
           end.
    injection Hdet as <-. vm_compute. tauto.
Qed.

Lemma on_values (P : float -> bool) :
  forallb P conf_values = true -> forall x, In x conf_values -> P x = true.
Proof. intros H x Hx. exact (proj1 (forallb_forall P conf_values) H x Hx). Qed.

Lemma on_values2 (P : float -> float -> bool) :
  forallb (fun x => forallb (P x) conf_values) conf_values = true ->
  forall x y, In x conf_values -> In y conf_values -> P x y = true.
Proof.
  intros H x y Hx Hy.
  apply (on_values (P x)); [| exact Hy].
  exact (on_values (fun x => forallb (P x) conf_values) H x Hx).
Qed.

Lemma on_values3 (P : float -> float -> float -> bool) :
  forallb (fun x => forallb (fun y => forallb (P x y) conf_values) conf_values)
    conf_values = true ->
  forall x y z, In x conf_values -> In y conf_values -> In z conf_values ->
    P x y z = true.
Proof.
  intros H x y z Hx Hy Hz.
  apply (on_values2 (P x)); [| exact Hy | exact Hz].
  exact (on_values (fun x => forallb (fun y => forallb (P x y) conf_values) conf_values)
           H x Hx).
Qed.

Lemma conf_in_unit (c : float) : In c conf_values -> PyFloat.in_unit c = true.
Proof. apply on_values. vm_compute. reflexivity. Qed.

(** On the detector's confidences [<] and [<=] are a total order. *)
Lemma conf_nlt_ge (x y : float) :
  In x conf_values -> In y conf_values -> (x <? y) = false -> (y <=? x) = true.
Proof.
  intros Hx Hy Hlt.
  pose proof (on_values2 (fun x y => (x <? y) || (y <=? x)) eq_refl x y Hx Hy) as H.
  cbv beta in H. rewrite Hlt in H. exact H.
Qed.

Lemma conf_lt_le (x y : float) :
  In x conf_values -> In y conf_values -> (x <? y) = true -> (x <=? y) = true.
Proof.
  intros Hx Hy Hlt.
  pose proof (on_values2 (fun x y => negb (x <? y) || (x <=? y)) eq_refl x y Hx Hy) as H.
  cbv beta in H. rewrite Hlt in H. exact H.
Qed.

Lemma conf_le_trans (x y z : float) :
  In x conf_values -> In y conf_values -> In z conf_values ->
  (x <=? y) = true -> (y <=? z) = true -> (x <=? z) = true.
Proof.
  intros Hx Hy Hz Hxy Hyz.
  pose proof (on_values3 (fun x y z => negb (x <=? y) || negb (y <=? z) || (x <=? z))
                eq_refl x y z Hx Hy Hz) as H.
  cbv beta in H. rewrite Hxy, Hyz in H. exact H.
Qed.

(** *** The stable descending sort *)

Lemma insert_desc_perm (x : AmbiguityDetection) (l : list AmbiguityDetection) :
  Permutation (insert_desc x l) (x :: l).
Proof.
  induction l as [| y l IH]; simpl; [reflexivity |].
  destruct (confidence x <? confidence y); [| reflexivity].
  rewrite IH. apply perm_swap.
Qed.

Lemma sort_perm (l : list AmbiguityDetection) :
  Permutation (sort_by_confidence_desc l) l.
Proof.
  induction l as [| x l IH]; simpl; [reflexivity |].
  rewrite insert_desc_perm. by apply perm_skip.
Qed.

Lemma insert_desc_sorted (x : AmbiguityDetection) (l : list AmbiguityDetection) :
  known x -> Forall known l ->
  StronglySorted conf_ge l -> StronglySorted conf_ge (insert_desc x l).
Proof.
  intros Hx Hl Hs. induction Hs as [| y l Hs IH Hy]; simpl.
  - constructor; constructor.
  - apply Forall_cons_iff in Hl as [Hky Hkl].
    destruct (confidence x <? confidence y) eqn:Hlt.
    + constructor; [by apply IH |].
      rewrite insert_desc_perm. constructor; [| exact Hy].
      by apply conf_lt_le.
    + assert (Hyx : conf_ge x y) by (by apply conf_nlt_ge).
      constructor; [by constructor |].
      constructor; [exact Hyx |].
      rewrite List.Forall_forall in Hy, Hkl |- *. intros z Hz.
      exact (conf_le_trans _ _ _ (Hkl z Hz) Hky Hx (Hy z Hz) Hyx).
Qed.

Lemma sort_sorted (l : list AmbiguityDetection) :
  Forall known l -> StronglySorted conf_ge (sort_by_confidence_desc l).
Proof.
  induction l as [| x l IH]; intros Hl; simpl; [constructor |].
  apply Forall_cons_iff in Hl as [Hx Hl].
  apply insert_desc_sorted; [exact Hx | | by apply IH].
  by rewrite sort_perm.
Qed.

(** *** De-duplication *)

Lemma remove_duplicates_from_spec (l : list AmbiguityDetection) :
  forall seen : gset (nat * nat * string),
    let r := remove_duplicates_from seen l in
    NoDup (map pos_key r)
    /\ (forall x, In x r ->
          (pos_key x ∉ seen)
          /\ exists l1 l2, l = l1 ++ x :: l2 /\ ~ In (pos_key x) (map pos_key l1))
    /\ (forall y, In y l -> pos_key y ∈ seen \/ In (pos_key y) (map pos_key r)).
Proof.
  induction l as [| a l IH]; intros seen; simpl.
  - split; [constructor |]. split; [intros x [] | intros y []].
  - destruct (decide (pos_key a ∈ seen)) as [Hin | Hnin].
    + destruct (IH seen) as (Hnd & Hkept & Hall).
      split; [exact Hnd |]. split.
      * intros x Hx. destruct (Hkept x Hx) as (Hns & l1 & l2 & -> & Hfirst).
        split; [exact Hns |]. exists (a :: l1), l2. split; [reflexivity |].
        simpl. intros [He | Hl1]; [| contradiction]. congruence.
      * intros y [<- | Hy]; [by left | by apply Hall].
    + destruct (IH ({[pos_key a]} ∪ seen)) as (Hnd & Hkept & Hall).
      split; [| split].
      * simpl. constructor; [| exact Hnd].
        intros Hdup. apply list_elem_of_In, in_map_iff in Hdup as (x & Hk & Hx).
        destruct (Hkept x Hx) as (Hns & _). apply Hns. rewrite Hk.
        apply elem_of_union_l, elem_of_singleton. reflexivity.
      * intros x [<- | Hx].
        -- split; [exact Hnin |]. exists [], l. split; [reflexivity | intros []].
        -- destruct (Hkept x Hx) as (Hns & l1 & l2 & -> & Hfirst).
           split; [intros Hs; apply Hns, elem_of_union_r, Hs |].
           exists (a :: l1), l2. split; [reflexivity |].
           simpl. intros [He | Hl1]; [| contradiction].
           apply Hns. rewrite <- He. apply elem_of_union_l, elem_of_singleton. reflexivity.
      * intros y [<- | Hy]; [right; simpl; by left |].
        destruct (Hall y Hy) as [Hs | Hr]; [| right; simpl; by right].
        apply elem_of_union in Hs as [Hs | Hs]; [| by left].
        apply elem_of_singleton in Hs. right. simpl. left. congruence.
Qed.

(** C9.  For every text the list returned by [detect_ambiguities] is
    sorted by confidence in descending order (every element's confidence is
    at least that of every later element), holds no two elements with the
    same (start, end, type) key, and has all its confidences in [0, 1].
    Where several collected detections share a key the first one is kept
    and the later ones are dropped: every returned element stands in the
    collected list with no element of the same key before it, and every
    collected key is the key of a returned element. *)
Theorem detect_ambiguities_sorted_unique (text : string) :
  let result := detect_ambiguities text in
  StronglySorted conf_ge result
  /\ NoDup (map pos_key result)
  /\ Forall (fun a => PyFloat.in_unit (confidence a) = true) result
  /\ (forall x, In x result ->
        exists l1 l2, collect text = l1 ++ x :: l2 /\ ~ In (pos_key x) (map pos_key l1))
  /\ (forall y, In y (collect text) -> In (pos_key y) (map pos_key result)).
Proof.
  intros result. unfold result, detect_ambiguities, _remove_duplicates.
  destruct (remove_duplicates_from_spec (collect text) ∅) as (Hnd & Hkept & Hall).
  set (u := remove_duplicates_from ∅ (collect text)) in *.
  assert (Hsub : forall x, In x u -> In x (collect text)).
  { intros x Hx. destruct (Hkept x Hx) as (_ & l1 & l2 & -> & _).
    apply in_app_iff. right. by left. }
  assert (Hknown : Forall known u).
  { apply List.Forall_forall. intros x Hx. apply (collect_conf_value text), Hsub, Hx. }
  pose proof (sort_perm u) as Hperm.
  split; [by apply sort_sorted |].
  split; [by rewrite Hperm |].
  split.
  { rewrite Hperm. apply List.Forall_forall. intros x Hx.
    apply conf_in_unit. rewrite List.Forall_forall in Hknown. by apply Hknown. }
  split.
  - intros x Hx. rewrite Hperm in Hx. destruct (Hkept x Hx) as (_ & Hex). exact Hex.
  - intros y Hy. rewrite Hperm. destruct (Hall y Hy) as [He | Hr]; [by apply not_elem_of_empty in He | exact Hr].
Qed.

End Detector.

(** ** The orchestrator *)

Section Orchestrator.

Import Interface.

Lemma update_dialogue_act_frame (act : DialogueAct.t) (m : ConversationStateManager)
    (w : World) :
  let m' := snd (fst (update_dialogue_act act m w)) in
  keeps m m'
  /\ dialogue_act (context m') = act
  /\ state (context m') = state (context m)
  /\ state_history m' = state_history m.
Proof.
  unfold update_dialogue_act, keeps.
  destruct (decide (act = dialogue_act (context m))) as [-> | Hne]; simpl; auto 10.
Qed.

Lemma transition_frame (s : ConversationState) (trig : string)
    (self : EnhancedConversationInterface) (w : World) :
  let self' := fst (transition s trig self w) in
  keeps (state_manager self) (state_manager self')
  /\ dialogue_act (context (state_manager self')) = dialogue_act (context (state_manager self))
  /\ conversation_history self' = conversation_history self
  /\ ambiguity_threshold self' = ambiguity_threshold self
  /\ state (context (state_manager self')) = s
  /\ state_history (state_manager self')
     = if decide (s = state (context (state_manager self)))
       then state_history (state_manager self)
       else appended (state_manager self)
              (transition_of s trig (state_manager self) w).
Proof.
  unfold transition, update_state, keeps, bind.
  destruct (decide (s = state (context (state_manager self)))) as [-> | Hne]; simpl; auto 10.
Qed.

Lemma update_conversation_state_frame (act : DialogueAct.t)
    (self : EnhancedConversationInterface) (w : World) :
  let self' := fst (_update_conversation_state act self w) in
  keeps (state_manager self) (state_manager self')
  /\ dialogue_act (context (state_manager self')) = dialogue_act (context (state_manager self))
  /\ conversation_history self' = conversation_history self
  /\ ambiguity_threshold self' = ambiguity_threshold self
  /\ state (context (state_manager self'))
     = next_state act (state (context (state_manager self))).
Proof.
  rewrite update_conversation_state_eq. unfold next_state.
  destruct (transition_table act _) as [s |].
  - destruct (transition_frame s ("dialogue_act:" +:+ DialogueAct.value act) self w)
      as (Hk & Hd & Hc & Ht & Hs & _). auto 10.
  - simpl. unfold keeps. auto 10.
Qed.

Lemma update_context_input_frame (user_input : string) (n : Z)
    (m : ConversationStateManager) (w : World) :
  let m' := snd (fst (update_context [kw_last_user_input user_input; kw_turn_count n] m w)) in
  turn_count (context m') = n
  /\ last_user_input (context m') = user_input
  /\ max_history_length m' = max_history_length m
  /\ dialogue_act (context m') = dialogue_act (context m)
  /\ state (context m') = state (context m)
  /\ state_history m' = state_history m.
Proof. simpl. auto 10. Qed.

Lemma update_context_response_frame (resp : string)
    (m : ConversationStateManager) (w : World) :
  let m' := snd (fst (update_context [kw_last_agent_response resp] m w)) in
  turn_count (context m') = turn_count (context m)
  /\ last_user_input (context m') = last_user_input (context m)
  /\ max_history_length m' = max_history_length m
  /\ dialogue_act (context m') = dialogue_act (context m)
  /\ state (context m') = state (context m)
  /\ state_history m' = state_history m
  /\ last_agent_response (context m') = resp.
Proof. simpl. auto 10. Qed.

Lemma process_input_shape (user_input : string) (llm_response : option string)
    (self : EnhancedConversationInterface) (w : World) :
  let m := state_manager self in
  let act := fst (DialogueActRecognizer.recognize_act user_input) in
  let high :=
    List.filter (fun amb => PyFloat.ge (confidence amb) (ambiguity_threshold self))
      (AmbiguityDetector.detect_ambiguities user_input) in
  exists resp self' w',
    process_input user_input llm_response self w = (resp, self', w')
    /\ turn_count (context (state_manager self')) = (turn_count (context m) + 1)%Z
    /\ conversation_history self'
       = conversation_history self
         ++ [ {| role := "user"; content := user_input |};
              {| role := "assistant"; content := resp |} ]
    /\ ambiguity_threshold self' = ambiguity_threshold self
    /\ max_history_length (state_manager self') = max_history_length m
    /\ dialogue_act (context (state_manager self')) = act
    /\ last_user_input (context (state_manager self')) = user_input
    /\ last_agent_response (context (state_manager self')) = resp
    /\ match high with
       | _ :: _ =>
           (exists ctx w1 questions w2,
              QuestionGenerator.generate_multiple_questions high 2 (Some ctx) w1
              = (questions, w2)
              /\ ctx <> ∅
              /\ resp = match questions with
                        | [q] => q
                        | _ => clarify_prefix +:+ question_list questions
                        end)
           /\ state (context (state_manager self')) = ASKING_CLARIFICATION
           /\ exists ts,
                state_history (state_manager self')
                = if decide (ASKING_CLARIFICATION = state (context m))
                  then state_history m
                  else appended m {| from_state := state (context m);
                                     to_state := ASKING_CLARIFICATION;
                                     trigger := "ambiguity_detected";
                                     timestamp := ts |}
       | [] =>
           state (context (state_manager self')) = next_state act (state (context m))
       end.
Proof.
  intros m act high.
  unfold process_input.
  remember (DialogueActRecognizer.recognize_act user_input) as ra eqn:Hra.
  remember (AmbiguityDetector.detect_ambiguities user_input) as ambs eqn:Hambs.
  (* the first update of the context *)
  unfold bind at 1.
  pose proof (update_context_input_frame user_input
                (turn_count (get_context (state_manager self)) + 1) m w) as F1.
  fold m. destruct (update_context _ m w) as [[b1 m1] w1]. simpl in F1.
  destruct F1 as (Ftc1 & Flui1 & Fmax1 & Fda1 & Fst1 & Fh1).
  (* the dialogue act *)
  destruct ra as [dact c]. simpl in act. subst act. unfold get_context in *.
  unfold bind at 1. cbn [snd state_manager with_manager].
  pose proof (update_dialogue_act_frame dact m1 w1) as F2.
  destruct (update_dialogue_act dact m1 w1) as [[b2 m2] w2]. simpl in F2.
  destruct F2 as ((Ftc2 & Flui2 & Fmax2) & Fda2 & Fst2 & Fh2).
  cbn [snd ambiguity_threshold with_manager]. fold high.
  unfold bind at 1.
  set (self2 := with_manager m2 (with_manager m1 self)).
  assert (Hthr : ambiguity_threshold self2 = ambiguity_threshold self) by reflexivity.
  assert (Hconv : conversation_history self2 = conversation_history self) by reflexivity.
  assert (Hm2 : state_manager self2 = m2) by reflexivity.
  clearbody self2.
  destruct high as [| amb high'] eqn:Hhigh.
  - (* the clear branch *)
    unfold bind at 1.
    pose proof (update_conversation_state_frame dact self2 w2) as F3.
    destruct (_update_conversation_state dact self2 w2) as [self3 w3]. simpl in F3.
    destruct F3 as ((Ftc3 & Flui3 & Fmax3) & Fda3 & Fc3 & Ft3 & Fst3).
    unfold bind at 1.
    match goal with
    | |- context [match llm_response with _ => _ end ?w] =>
        destruct (match llm_response with
                  | Some (String c0 s0) =>
                      ResponseGenerator.generate_response user_input (String c0 s0)
                        (state_manager self3) dact
                  | _ => _generate_template_response dact self3
                  end w) as [resp w4]
    end.
    unfold ret at 1. unfold bind at 1.
    pose proof (update_context_response_frame resp (state_manager self3) w4) as F5.
    destruct (update_context _ (state_manager self3) w4) as [[b5 m5] w5]. simpl in F5.
    destruct F5 as (Ftc5 & Flui5 & Fmax5 & Fda5 & Fst5 & Fh5 & Flar5).
    unfold ret. cbn [snd state_manager with_manager conversation_history ambiguity_threshold].
    eexists _, _, _. split; [reflexivity |].
    cbn [state_manager conversation_history ambiguity_threshold].
    rewrite Hm2 in *. subst m.
    split; [congruence |].
    split; [rewrite Fc3, Hconv, <- app_assoc; reflexivity |].
    split; [congruence |]. split; [congruence |]. split; [congruence |].
    split; [congruence |]. split; [congruence |]. congruence.
  - (* the clarification branch *)
    unfold bind at 1.
    destruct (QuestionGenerator.generate_multiple_questions (amb :: high') 2
                (Some (get_conversation_context self2)) w2) as [questions wq] eqn:Hq.
    unfold bind at 1.
    pose proof (transition_frame ASKING_CLARIFICATION "ambiguity_detected" self2 wq) as F3.
    destruct (transition ASKING_CLARIFICATION "ambiguity_detected" self2 wq) as [self3 w3].
    simpl in F3. destruct F3 as ((Ftc3 & Flui3 & Fmax3) & Fda3 & Fc3 & Ft3 & Fst3 & Fh3).
    unfold ret at 1. unfold bind at 1.
    set (resp := match questions with
                 | [q] => q
                 | _ => clarify_prefix +:+ question_list questions
                 end).
    pose proof (update_context_response_frame resp (state_manager self3) w3) as F5.
    destruct (update_context _ (state_manager self3) w3) as [[b5 m5] w5]. simpl in F5.
    destruct F5 as (Ftc5 & Flui5 & Fmax5 & Fda5 & Fst5 & Fh5 & Flar5).
    unfold ret. cbn [snd state_manager with_manager conversation_history ambiguity_threshold].
    eexists _, _, _. split; [reflexivity |].
    cbn [state_manager conversation_history ambiguity_threshold].
    rewrite Hm2 in *. subst m.
    split; [congruence |].
    split; [rewrite Fc3, Hconv, <- app_assoc; reflexivity |].
    split; [congruence |]. split; [congruence |]. split; [congruence |].
    split; [congruence |]. split; [congruence |].
    split; [| split; [congruence |]].
    + exists (get_conversation_context self2), w2, questions, wq.
      split; [exact Hq |]. split; [apply insert_non_empty | reflexivity].
    + exists (clock wq (n_clock wq)).
      rewrite Fh5, Fh3, Fst2, Fst1.
      destruct (decide (ASKING_CLARIFICATION = state (context (state_manager self))));
        [congruence |].
      unfold appended, transition_of. rewrite Fst2, Fst1, Fh2, Fh1, Fmax2, Fmax1.
      reflexivity.
Qed.

Lemma run_inputs_counts (inputs : list (string * option string)) :
  forall (self : EnhancedConversationInterface) (w : World),
    let self' := fst (run_inputs inputs self w) in
    turn_count (context (state_manager self'))
    = (turn_count (context (state_manager self)) + Z.of_nat (List.length inputs))%Z
    /\ List.length (conversation_history self')
       = List.length (conversation_history self) + 2 * List.length inputs.
Proof.
  induction inputs as [| [user_input llm_response] rest IH]; intros self w.
  - simpl. split; lia.
  - simpl run_inputs. unfold bind.
    destruct (process_input_shape user_input llm_response self w)
      as (resp & self1 & w1 & -> & Htc & Hh & _).
    cbn [snd]. destruct (IH self1 w1) as [IHtc IHh].
    cbv zeta. rewrite IHtc, IHh, Htc, Hh, length_app. simpl List.length. split; lia.
Qed.

(** C10.  Every call of [process_input], whichever branch it takes, adds
    one to [turn_count] and appends two entries to the interface's
    conversation history: the user entry with the input, then the
    assistant entry with the returned response.  Hence after [n] calls on
    an interface just constructed, or just reset, [turn_count] is [n] and
    the history holds [2n] entries. *)
Theorem process_input_counts_turns
    (user_input : string) (llm_response : option string)
    (self : EnhancedConversationInterface) (w : World)
    (uid : string) (inputs : list (string * option string)) :
  (let out := process_input user_input llm_response self w in
   turn_count (context (state_manager (snd (fst out))))
   = (turn_count (context (state_manager self)) + 1)%Z
   /\ conversation_history (snd (fst out))
      = conversation_history self
        ++ [ {| role := "user"; content := user_input |};
             {| role := "assistant"; content := fst (fst out) |} ])
  /\ (let start := Interface.new uid w in
      let final := fst (run_inputs inputs (fst start) (snd start)) in
      turn_count (context (state_manager final)) = Z.of_nat (List.length inputs)
      /\ List.length (conversation_history final) = 2 * List.length inputs)
  /\ (let start := Interface.reset_conversation self w in
      let final := fst (run_inputs inputs (fst start) (snd start)) in
      turn_count (context (state_manager final)) = Z.of_nat (List.length inputs)
      /\ List.length (conversation_history final) = 2 * List.length inputs).
Proof.
  split; [| split].
  - destruct (process_input_shape user_input llm_response self w)
      as (resp & self1 & w1 & -> & Htc & Hh & _). simpl. by split.
  - intros start final.
    destruct (run_inputs_counts inputs (fst start) (snd start)) as [Htc Hh].
    fold final in Htc, Hh. rewrite Htc, Hh. simpl. split; lia.
  - intros start final.
    destruct (run_inputs_counts inputs (fst start) (snd start)) as [Htc Hh].
    fold final in Htc, Hh. rewrite Htc, Hh. simpl. split; lia.
Qed.

(** *** The clarification branch *)

Lemma insert_desc_length (x : AmbiguityDetection) (l : list AmbiguityDetection) :
  List.length (AmbiguityDetector.insert_desc x l) = S (List.length l).
Proof.
  induction l as [| y l IH]; simpl; [reflexivity |].
  destruct (PrimFloat.ltb _ _); simpl; [by rewrite IH | reflexivity].
Qed.

Lemma sort_length (l : list AmbiguityDetection) :
  List.length (AmbiguityDetector.sort_by_confidence_desc l) = List.length l.
Proof.
  induction l as [| x l IH]; simpl; [reflexivity |].
  by rewrite insert_desc_length, IH.
Qed.

Lemma generate_each_length (l : list AmbiguityDetection)
    (context : option (gmap string pyval)) :
  forall w, List.length (fst (QuestionGenerator.generate_each l context w)) = List.length l.
Proof.
  induction l as [| a l IH]; intros w; simpl; [reflexivity |].
  unfold bind.
  destruct (QuestionGenerator.generate_clarification_question a context w) as [q w1].
  specialize (IH w1).
  destruct (QuestionGenerator.generate_each l context w1) as [qs w2].
  simpl in *. by rewrite IH.
Qed.

(** Up to two questions, one per ambiguity. *)
Lemma generate_multiple_questions_length (l : list AmbiguityDetection)
    (context : option (gmap string pyval)) (w : World) :
  List.length (fst (QuestionGenerator.generate_multiple_questions l 2 context w))
  = Nat.min 2 (List.length l).
Proof.
  unfold QuestionGenerator.generate_multiple_questions.
  rewrite generate_each_length, length_take, sort_length. reflexivity.
Qed.

(** C1.  Whenever the detector returns at least one detection of
    confidence at least 0.6 (the interface's threshold), [process_input]
    generates one or two clarification questions for the detections at or
    above the threshold and returns the single question verbatim, or, for
    two questions, the text ["I'd like to clarify a few things:"], a
    newline, and the list ["1. <q1>"], newline, ["2. <q2>"].  Afterwards
    the conversation state is [ASKING_CLARIFICATION]; the transition from
    the previous state is recorded under the trigger
    ["ambiguity_detected"], unless the state already was
    [ASKING_CLARIFICATION], in which case the history is unchanged. *)
Theorem process_input_asks_clarification
    (user_input : string) (llm_response : option string)
    (self : EnhancedConversationInterface) (w : World)
    (Hthreshold : ambiguity_threshold self = 0.6%float)
    (Hambiguous : exists amb,
        In amb (AmbiguityDetector.detect_ambiguities user_input)
        /\ PyFloat.ge (confidence amb) 0.6%float = true) :
  let m := state_manager self in
  let high :=
    List.filter (fun amb => PyFloat.ge (confidence amb) 0.6%float)
      (AmbiguityDetector.detect_ambiguities user_input) in
  exists resp self' w' ctx w1 questions w2,
    process_input user_input llm_response self w = (resp, self', w')
    /\ QuestionGenerator.generate_multiple_questions high 2 (Some ctx) w1 = (questions, w2)
    /\ ((exists q, questions = [q] /\ resp = q)
        \/ (exists q1 q2,
              questions = [q1; q2]
              /\ resp = "I'd like to clarify a few things:" +:+ newline
                        +:+ "1. " +:+ q1 +:+ newline +:+ "2. " +:+ q2))
    /\ state (context (state_manager self')) = ASKING_CLARIFICATION
    /\ (state (context m) = ASKING_CLARIFICATION ->
        state_history (state_manager self') = state_history m)
    /\ (state (context m) <> ASKING_CLARIFICATION ->
        exists ts,
          state_history (state_manager self')
          = appended m {| from_state := state (context m);
                          to_state := ASKING_CLARIFICATION;
                          trigger := "ambiguity_detected";
                          timestamp := ts |}).
Proof.
  intros m high.
  destruct (process_input_shape user_input llm_response self w)
    as (resp & self' & w' & Hrun & _ & _ & _ & _ & _ & _ & _ & Hbranch).
  rewrite Hthreshold in Hbranch. fold high in Hbranch.
  destruct Hambiguous as (amb & Hin & Hge).
  assert (Hhigh : In amb high) by (apply filter_In; by split).
  destruct high as [| a0 high'] eqn:Ehigh; [destruct Hhigh |].
  destruct Hbranch as ((ctx & w1 & questions & w2 & Hq & _ & Hresp) & Hstate & ts & Hhist).
  exists resp, self', w', ctx, w1, questions, w2.
  split; [exact Hrun |]. split; [exact Hq |].
  split; [| split; [exact Hstate | split]].
  - pose proof (generate_multiple_questions_length (a0 :: high') (Some ctx) w1) as Hlen.
    rewrite Hq in Hlen. simpl in Hlen.
    destruct questions as [| q1 [| q2 [| q3 qs]]]; simpl in Hlen.
    + destruct high'; discriminate.
    + left. by exists q1.
    + right. exists q1, q2. split; [reflexivity |]. rewrite Hresp. reflexivity.
    + destruct high'; discriminate.
  - intros Hs. fold m in Hhist. rewrite Hhist.
    destruct (decide _) as [_ | Hne]; [reflexivity | congruence].
  - intros Hs. exists ts. fold m in Hhist. rewrite Hhist.
    destruct (decide _) as [He | _]; [congruence | reflexivity].
Qed.

(** C1 at work on ["What about it?"]. *)
Lemma process_input_asks_clarification_witness :
  ambiguity_threshold sample_interface = 0.6%float
  /\ (exists amb,
        In amb (AmbiguityDetector.detect_ambiguities "What about it?")
        /\ PyFloat.ge (confidence amb) 0.6%float = true)
  /\ exists resp self' w',
       process_input "What about it?" None sample_interface sample_world_1
       = (resp, self', w')
       /\ state (context (state_manager self')) = ASKING_CLARIFICATION.
Proof.
  assert (Hamb : exists amb,
             In amb (AmbiguityDetector.detect_ambiguities "What about it?")
             /\ PyFloat.ge (confidence amb) 0.6%float = true).
  { exists sample_ambiguity. split; [vm_compute; left; reflexivity | reflexivity]. }
  split; [reflexivity |]. split; [exact Hamb |].
  destruct (process_input_asks_clarification "What about it?" None sample_interface
              sample_world_1 eq_refl Hamb)
    as (resp & self' & w' & _ & _ & _ & _ & Hrun & _ & _ & Hstate & _).
  exists resp, self', w'. split; assumption.
Defined.

(** *** The generated questions *)

Lemma random_choice_In {A} (dflt : A) (seq : list A) (w : World) :
  seq <> [] -> In (fst (random_choice dflt seq w)) seq.
Proof.
  intros Hne. unfold random_choice. simpl. apply nth_In.
  apply Nat.mod_upper_bound. destruct seq; [congruence | simpl; lia].
Qed.

Lemma question_templates_nonempty (a : AmbiguityType) :
  default QuestionGenerator.fallback_templates
    (dict_get QuestionGenerator.question_templates a) <> [].
Proof. destruct a; discriminate. Qed.

(** With a non-empty context, a generated question is a question template
    of the ambiguity's type inside a framing template. *)
Lemma generate_clarification_question_framed (amb : AmbiguityDetection)
    (ctx : gmap string pyval) (w : World) :
  ctx <> ∅ ->
  In (fst (QuestionGenerator.generate_clarification_question amb (Some ctx) w))
     (framed_questions (type amb)).
Proof.
  intros Hctx.
  unfold QuestionGenerator.generate_clarification_question, bind,
    QuestionGenerator._customize_template.
  pose proof (random_choice_In "" _ w (question_templates_nonempty (type amb))) as Hq.
  destruct (random_choice "" _ w) as [template w1]. cbn [fst] in Hq.
  unfold truthy_dict. rewrite bool_decide_eq_false_2 by assumption.
  unfold QuestionGenerator._add_context_to_question, bind, ret.
  cbn [negb]. cbv beta iota.
  match goal with
  | |- context [random_choice "" ?l w1] =>
      pose proof (random_choice_In "" l w1) as Hf;
      destruct (random_choice "" l w1) as [framing w2]
  end.
  cbn [fst] in Hf |- *. specialize (Hf ltac:(discriminate)).
  unfold framed_questions. apply in_flat_map. exists framing.
  split; [exact Hf |]. apply in_map. exact Hq.
Qed.

Lemma framed_questions_nonempty (a : AmbiguityType) (q : string) :
  In q (framed_questions a) -> q <> "".
Proof.
  intros Hin Hq.
  assert (Hall : forallb (fun s => negb (String.eqb s "")) (framed_questions a) = true)
    by (destruct a; vm_compute; reflexivity).
  pose proof (proj1 (forallb_forall _ _) Hall q Hin) as Hne.
  rewrite Hq in Hne. discriminate.
Qed.

(** Counterexample to C2.  The claim that ["Please help me with this task"] meets no ambiguity
    at or above the threshold and leads to [PROVIDING_INFORMATION] fails:
    the word ["this"] is an ENTITY ambiguity of confidence 0.7, so the
    clarification branch runs and the state becomes
    [ASKING_CLARIFICATION]. *)
Lemma help_with_this_task_counterexample :
  List.filter (fun amb => PyFloat.ge (confidence amb) 0.6%float)
    (AmbiguityDetector.detect_ambiguities "Please help me with this task")
  = [this_ambiguity]
  /\ state (context (state_manager (snd (fst
        (process_input "Please help me with this task" None
           sample_interface sample_world_1)))))
     = ASKING_CLARIFICATION
  /\ state (context (state_manager (snd (fst
        (process_input "Please help me with this task" None
           sample_interface sample_world_1)))))
     <> PROVIDING_INFORMATION.
Proof.
  split; [vm_compute; reflexivity |].
  assert (H : state (context (state_manager (snd (fst
                (process_input "Please help me with this task" None
                   sample_interface sample_world_1)))))
              = ASKING_CLARIFICATION) by (vm_compute; reflexivity).
  split; [exact H | rewrite H; discriminate].
Qed.

(** C2, amended.  On a fresh conversation, [process_input] with the input
    ["Please help me with this task"] and no LLM response recognizes the
    dialogue act [REQUEST]; the detector reports exactly one ambiguity at
    or above the 0.6 threshold, the ENTITY ambiguity of the word ["this"]
    with confidence 0.7; so the clarification branch is taken: the state
    becomes [ASKING_CLARIFICATION], the transition from [INITIAL] is
    recorded under ["ambiguity_detected"], and the returned string is one
    non-empty clarification question, an ENTITY question template inside a
    framing template. *)
Theorem help_with_this_task_clarifies (uid : string) (w0 : World) :
  let start := Interface.new uid w0 in
  let out := process_input "Please help me with this task" None (fst start) (snd start) in
  let resp := fst (fst out) in
  let self' := snd (fst out) in
  fst (DialogueActRecognizer.recognize_act "Please help me with this task")
  = DialogueAct.REQUEST
  /\ List.filter (fun amb => PyFloat.ge (confidence amb) 0.6%float)
       (AmbiguityDetector.detect_ambiguities "Please help me with this task")
     = [this_ambiguity]
  /\ dialogue_act (context (state_manager self')) = DialogueAct.REQUEST
  /\ state (context (state_manager self')) = ASKING_CLARIFICATION
  /\ (exists ts,
        state_history (state_manager self')
        = [ {| from_state := INITIAL; to_state := ASKING_CLARIFICATION;
               trigger := "ambiguity_detected"; timestamp := ts |} ])
  /\ In resp (framed_questions ENTITY_AMBIGUITY)
  /\ resp <> "".
Proof.
  intros start out resp self'.
  assert (Hact : fst (DialogueActRecognizer.recognize_act "Please help me with this task")
                 = DialogueAct.REQUEST) by (vm_compute; reflexivity).
  assert (Hhigh : List.filter (fun amb => PyFloat.ge (confidence amb) 0.6%float)
                    (AmbiguityDetector.detect_ambiguities "Please help me with this task")
                  = [this_ambiguity]) by (vm_compute; reflexivity).
  destruct (process_input_shape "Please help me with this task" None (fst start) (snd start))
    as (resp0 & self0 & w' & Hrun & _ & _ & _ & _ & Hda & _ & _ & Hbranch).
  change (ambiguity_threshold (fst start)) with 0.6%float in Hbranch.
  rewrite Hhigh in Hbranch.
  destruct Hbranch as ((ctx & w1 & questions & w2 & Hq & Hctx & Hresp) & Hstate & ts & Hhist).
  assert (Hin : In resp0 (framed_questions ENTITY_AMBIGUITY)).
  { pose proof (generate_clarification_question_framed this_ambiguity ctx w1 Hctx) as Hg.
    unfold QuestionGenerator.generate_multiple_questions in Hq.
    change (take 2 (AmbiguityDetector.sort_by_confidence_desc [this_ambiguity]))
      with [this_ambiguity] in Hq.
    simpl in Hq. unfold bind, ret in Hq.
    destruct (QuestionGenerator.generate_clarification_question this_ambiguity
                (Some ctx) w1) as [q wq].
    injection Hq as <- _. rewrite Hresp. exact Hg. }
  unfold resp, self', out. rewrite Hrun. cbn [fst snd].
  split; [exact Hact |]. split; [exact Hhigh |].
  split; [by rewrite Hda, Hact |]. split; [exact Hstate |].
  split; [exists ts; rewrite Hhist; reflexivity |].
  split; [exact Hin | by apply (framed_questions_nonempty ENTITY_AMBIGUITY)].
Qed.

End Orchestrator.

(** ** The scenarios of the repository's tests, replayed on the embedding *)

Example recognizer_test_cases :
  map (fun text => fst (DialogueActRecognizer.recognize_act text))
    [ "Hello, how are you?"; "What is the weather like today?";
      "Please help me with this task"; "Yes, that's correct"; "No, that's not right";
      "I don't understand what you mean"; "Thanks for your help";
      "Goodbye, see you later"; "This is just a statement" ]
  = [ DialogueAct.GREETING; DialogueAct.QUESTION; DialogueAct.REQUEST;
      DialogueAct.CONFIRMATION; DialogueAct.CONFIRMATION; DialogueAct.CLARIFICATION;
      DialogueAct.ACKNOWLEDGMENT; DialogueAct.CLOSING; DialogueAct.STATEMENT ].
Proof. vm_compute. reflexivity. Qed.

Example has_ambiguity_test_cases :
  AmbiguityDetector.has_ambiguity "What about it?" 0.5%float = true
  /\ AmbiguityDetector.has_ambiguity "Set a timer for 10 minutes" 0.5%float = false
  /\ AmbiguityDetector.has_ambiguity "What about it?" 0.9%float = false
  /\ AmbiguityDetector.has_ambiguity "Turn off the bedroom light" 0.3%float = false.
Proof. vm_compute. repeat split; reflexivity. Qed.

Example hello_scenario :
  let out := Interface.process_input "Hello!" None sample_interface sample_world_1 in
  fst (fst out) = "Hello! How can I help you today?"
  /\ dialogue_act (context (state_manager (snd (fst out)))) = DialogueAct.GREETING
  /\ state (context (state_manager (snd (fst out)))) = GREETING
  /\ map (fun tr => (from_state tr, to_state tr, trigger tr))
         (state_history (state_manager (snd (fst out))))
     = [(INITIAL, GREETING, "dialogue_act:greeting")].
Proof. vm_compute. repeat split; reflexivity. Qed.

Example isoformat_samples :
  Datetime.isoformat sample_time = "2024-02-29T23:59:59.000120"
  /\ Datetime.isoformat
       {| year := 987; month := 1; day := 2; hour := 3; minute := 4; second := 5;
          microsecond := 0 |} = "0987-01-02T03:04:05"
  /\ Datetime.fromisoformat "2023-02-29T00:00:00" = None.
Proof. vm_compute. repeat split; reflexivity. Qed.

(** * Further properties of the code *)

(** ** The state manager: the remaining operations *)

(** X1.  [update_dialogue_act] with the current act returns [False] and
    changes nothing, the clock included; with another act it returns
    [True], stores the act and stamps [updated_at] with the clock, and
    leaves the state, the previous state, the turn count and the
    transition history as they were: a change of dialogue act is never
    recorded in the history. *)
Theorem update_dialogue_act_effect (act : DialogueAct.t)
    (self : ConversationStateManager) (w : World) :
  let out := update_dialogue_act act self w in
  let self' := snd (fst out) in
  (act = dialogue_act (context self) -> out = (false, self, w))
  /\ (act <> dialogue_act (context self) ->
      fst (fst out) = true
      /\ dialogue_act (context self') = act
      /\ updated_at (context self') = clock w (n_clock w)
      /\ n_clock (snd out) = S (n_clock w))
  /\ state (context self') = state (context self)
  /\ previous_state (context self') = previous_state (context self)
  /\ turn_count (context self') = turn_count (context self)
  /\ created_at (context self') = created_at (context self)
  /\ state_history self' = state_history self.
Proof.
  unfold update_dialogue_act.
  destruct (decide (act = dialogue_act (context self))) as [He | Hne]; simpl.
  - repeat split; congruence.
  - repeat split; congruence.
Qed.









Lemma run_call_identity (c : manager_call) (self : ConversationStateManager) (w : World) :
  self_user_id (fst (run_call c self w)) = self_user_id self
  /\ max_history_length (fst (run_call c self w)) = max_history_length self.
Proof.
  destruct c as [s trig | a | kwargs |]; simpl; unfold bind.
  - unfold update_state. destruct (decide _); simpl; auto.
  - unfold update_dialogue_act. destruct (decide _); simpl; auto.
  - unfold update_context. destruct (update_context_loop _ _ _) as [[|] c]; simpl; auto.
  - auto.
Qed.

Lemma run_calls_identity (cs : list manager_call) :
  forall (self : ConversationStateManager) (w : World),
    self_user_id (fst (run_calls cs self w)) = self_user_id self
    /\ max_history_length (fst (run_calls cs self w)) = max_history_length self.
Proof.
  induction cs as [| c cs IH]; intros self w; simpl; [auto |].
  unfold bind. destruct (run_call_identity c self w) as [Hu Hm].
  destruct (run_call c self w) as [self' w']. simpl in Hu, Hm.
  destruct (IH self' w') as [Hu' Hm']. split; congruence.
Qed.

(** X3.  Resetting is building anew: after any sequence of
    [update_state], [update_dialogue_act], [update_context] and
    [reset_conversation] calls on a manager built for a user,
    [reset_conversation] yields exactly the manager (and consumes exactly
    the UUID and the two clock readings) that constructing a manager for
    that user would: initial state, zero turns, empty history, fresh
    conversation id and timestamps; the user is the one given at
    construction even if the context's [user_id] was overwritten
    meanwhile. *)
Theorem reset_is_fresh_manager (uid : string) (cs : list manager_call) (w0 w : World) :
  let start := new_manager uid w0 in
  let self := fst (run_calls cs (fst start) (snd start)) in
  reset_conversation self w = new_manager uid w.
Proof.
  intros start self.
  destruct (run_calls_identity cs (fst start) (snd start)) as [Hu Hm].
  fold self in Hu, Hm. simpl in Hu, Hm.
  unfold reset_conversation, new_manager, bind, ret. rewrite Hu, Hm. reflexivity.
Qed.

(** *** Reading a dictionary back *)

Ltac deleted_lookup :=
  unfold getitem; rewrite ?lookup_delete_eq; rewrite ?lookup_delete_ne by done.

(** X4.  [from_dict] needs every one of the fourteen keys: on the
    dictionary of [to_dict] with any one key removed it raises [KeyError]
    for that key. *)
Theorem from_dict_missing_key (self : ConversationStateManager) (w : World) (k : string)
    (Hcreated : Datetime.valid (created_at (context self)) = true)
    (Hupdated : Datetime.valid (updated_at (context self)) = true)
    (Hk : In k attribute_names) :
  fst (from_dict (delete k (to_dict self)) w) = Raise (KeyError k).
Proof.
  unfold attribute_names in Hk. simpl in Hk.
  repeat (destruct Hk as [<- | Hk]); try contradiction;
    unfold from_dict, from_dict_fill, get_state, get_act, get_datetime, get_str, get_int,
      get_dict, get_dicts;
    deleted_lookup;
    repeat (to_dict_lookup; cbn [rbind]);
    rewrite ?state_of_value, ?act_of_value, ?dicts_of_map;
    rewrite ?fromisoformat_isoformat by assumption;
    reflexivity.
Qed.

(** X4 at work: the serialized sample manager without its ["state"]. *)
Lemma from_dict_missing_key_witness :
  Datetime.valid (created_at (context sample_manager)) = true
  /\ In "state" attribute_names
  /\ fst (from_dict (delete "state" (to_dict sample_manager)) sample_world)
     = Raise (KeyError "state").
Proof.
  split; [reflexivity |]. split; [simpl; tauto |].
  apply from_dict_missing_key; [reflexivity | reflexivity | simpl; tauto].
Defined.

(** X5.  [from_dict] rejects an unknown state tag: when the ["state"]
    entry of a serialized dictionary is replaced by a string that is the
    value of no [ConversationState], it raises [ValueError]. *)
Theorem from_dict_unknown_state (self : ConversationStateManager) (w : World) (tag : string)
    (Htag : State.of_value tag = None) :
  fst (from_dict (<["state" := PStr tag]> (to_dict self)) w) = Raise (ValueError tag).
Proof.
  unfold from_dict, from_dict_fill, get_state, get_act, get_datetime, get_str, get_int,
    get_dict, get_dicts, getitem.
  rewrite ?lookup_insert_eq. rewrite ?lookup_insert_ne by done.
  repeat (to_dict_lookup; cbn [rbind]).
  rewrite Htag. reflexivity.
Qed.

Lemma from_dict_unknown_state_witness :
  State.of_value "paused" = None
  /\ fst (from_dict (<["state" := PStr "paused"]> (to_dict sample_manager)) sample_world)
     = Raise (ValueError "paused").
Proof. split; [reflexivity |]. by apply from_dict_unknown_state. Defined.

(** X6.  Serialization does not carry the transition history: whatever
    history a manager has, the manager rebuilt by [from_dict] from its
    [to_dict] starts with an empty history and the cap of ten; its own
    conversation id is a fresh UUID, while its context keeps the
    serialized one. *)
Theorem from_dict_forgets_history (self : ConversationStateManager) (w : World)
    (Hcreated : Datetime.valid (created_at (context self)) = true)
    (Hupdated : Datetime.valid (updated_at (context self)) = true) :
  exists self' w',
    from_dict (to_dict self) w = (Ok self', w')
    /\ state_history self' = []
    /\ max_history_length self' = 10
    /\ self_user_id self' = user_id (context self)
    /\ self_conversation_id self' = uuids w (n_uuid w)
    /\ conversation_id (context self') = conversation_id (context self).
Proof.
  unfold from_dict. rewrite to_dict_user_id. unfold bind.
  destruct (new_manager (user_id (context self)) w) as [manager w'] eqn:Hnew.
  unfold new_manager, new_context, bind, ret, uuid4, datetime_now in Hnew.
  injection Hnew as <- <-.
  match goal with
  | |- context [from_dict_fill _ ?m] =>
      destruct (from_dict_fill_to_dict self m Hcreated Hupdated eq_refl)
        as (self' & Hfill & Hctx & Hh);
      assert (Hrest : max_history_length self' = 10
                      /\ self_user_id self' = user_id (context self)
                      /\ self_conversation_id self' = uuids w (n_uuid w))
  end.
  { revert Hfill. unfold from_dict_fill.
    repeat match goal with
           | |- context [rbind ?r _] => destruct r; cbn [rbind]; try discriminate
           end.
    intros [= <-]. simpl. auto. }
  destruct Hrest as (Hmax & Huid & Hcid).
  eexists self', _. rewrite Hfill. split; [reflexivity |].
  split; [exact Hh |]. split; [exact Hmax |]. split; [exact Huid |].
  split; [exact Hcid | by rewrite Hctx].
Qed.

Lemma from_dict_forgets_history_witness :
  Datetime.valid (created_at (context sample_manager)) = true
  /\ exists self' w',
       from_dict (to_dict sample_manager) sample_world = (Ok self', w')
       /\ state_history self' = [].
Proof.
  split; [reflexivity |].
  destruct (from_dict_forgets_history sample_manager sample_world eq_refl eq_refl)
    as (self' & w' & Hrun & Hh & _).
  by exists self', w'.
Defined.

(** ** The recognizer: the remaining behaviour *)

Section RecognizerMore.

Import DialogueActRecognizer.
Local Open Scope float_scope.

Ltac value_cases :=
  unfold score_value in *;
  repeat match goal with
         | H : _ \/ _ |- _ => destruct H as [H | H]
         end;
  subst; vm_compute; intros; try congruence; auto.

Lemma score_three (text : string) (pats : list string) :
  _calculate_pattern_score text pats = 0.0
  \/ _calculate_pattern_score text pats = 0.7
  \/ _calculate_pattern_score text pats = 0.9.
Proof.
  rewrite score_first_found. unfold first_found_score.
  destruct (List.find _ pats); [destruct (Re.fullmatch _ _) |]; auto.
Qed.

Lemma score_zero_iff (text : string) (pats : list string) :
  _calculate_pattern_score text pats = 0.0
  <-> forall pattern, In pattern pats -> Re.search pattern text = false.
Proof.
  induction pats as [| p pats IH]; simpl.
  - split; [intros _ q [] | reflexivity].
  - destruct (Re.search p text) eqn:Hs.
    + split.
      * intros H. destruct (Re.fullmatch p text); exfalso; revert H; vm_compute;
          intros H; assert (Hb : (0.0 =? 0.0) = true) by reflexivity;
          rewrite <- H in Hb at 1; vm_compute in Hb; discriminate.
      * intros H. specialize (H p (or_introl eq_refl)). congruence.
    + rewrite IH. split.
      * intros H q [<- | Hq]; auto.
      * intros H q Hq. apply H. by right.
Qed.

Lemma table_acts (act : DialogueAct.t) (pats : list string) :
  In (act, pats) patterns ->
  act <> DialogueAct.STATEMENT /\ act <> DialogueAct.ERROR.
Proof.
  unfold patterns. simpl.
  intros H. repeat (destruct H as [[= <- <-] | H]); try contradiction;
    split; discriminate.
Qed.

(** X7.  On a text that is not blank, [recognize_act] answers
    [(STATEMENT, 0.1)] exactly when no pattern of any act is found in the
    lowercased trimmed text; otherwise it answers an act of the pattern
    table with confidence 0.7 or 0.9.  It never answers [ERROR] for such a
    text. *)
Theorem recognize_act_statement_iff (text : string) :
  PyStr.strip (PyStr.lower text) <> "" ->
  let text_lower := PyStr.strip (PyStr.lower text) in
  let r := recognize_act text in
  (r = (DialogueAct.STATEMENT, 0.1) <-> nothing_found text_lower)
  /\ fst r <> DialogueAct.ERROR
  /\ (fst r <> DialogueAct.STATEMENT ->
      (snd r = 0.7 \/ snd r = 0.9)
      /\ exists pats, In (fst r, pats) patterns).
Proof.
  intros Hne text_lower r.
  assert (Hr : r = fold_left (step text_lower) patterns (DialogueAct.STATEMENT, 0.1)).
  { unfold r, recognize_act. fold text_lower.
    destruct (String.eqb_spec text_lower ""); [contradiction | reflexivity]. }
  assert (Hv : score_value 0.1) by (unfold score_value; auto).
  destruct (fold_best text_lower patterns DialogueAct.STATEMENT 0.1 Hv)
    as (_ & _ & _ & Hcase).
  rewrite <- Hr in Hcase.
  destruct Hcase as [[Heq Hnone] | (before & pats & after & Hl & Hs & Hlt & _)].
  - assert (Hnf : nothing_found text_lower).
    { intros act pats pattern Hin Hp.
      specialize (Hnone (act, pats) Hin). simpl in Hnone.
      apply (proj1 (score_zero_iff text_lower pats)); [| exact Hp].
      destruct (score_three text_lower pats) as [H | [H | H]]; [exact H | |];
        rewrite H in Hnone; vm_compute in Hnone; discriminate. }
    split; [split; auto |]. rewrite Heq. simpl.
    split; [discriminate | congruence].
  - assert (Hin : In (fst r, pats) patterns)
      by (rewrite Hl; apply in_app_iff; right; by left).
    destruct (table_acts _ _ Hin) as [Hns Hne'].
    assert (Hval : snd r = 0.7 \/ snd r = 0.9).
    { destruct (score_three text_lower pats) as [H | [H | H]]; rewrite <- Hs in H; auto.
      rewrite H in Hlt. vm_compute in Hlt. discriminate. }
    split; [| split; [exact Hne' | intros _; split; [exact Hval | by exists pats]]].
    split.
    + intros Heq. rewrite Heq in Hns. simpl in Hns. congruence.
    + intros Hnf. exfalso.
      assert (Hz : _calculate_pattern_score text_lower pats = 0.0).
      { apply score_zero_iff. intros pattern Hp. exact (Hnf _ _ _ Hin Hp). }
      rewrite <- Hs in Hz. rewrite Hz in Hlt. vm_compute in Hlt. discriminate.
Qed.

Lemma recognize_act_statement_iff_witness :
  PyStr.strip (PyStr.lower "This is just a statement") <> ""
  /\ fst (recognize_act "This is just a statement") <> DialogueAct.ERROR.
Proof.
  split; [vm_compute; discriminate |].
  apply (recognize_act_statement_iff "This is just a statement").
  vm_compute. discriminate.
Defined.

(** *** The ranked list of acts *)

Lemma In_take {A} (x : A) (k : nat) (l : list A) : In x (take k l) -> In x l.
Proof.
  revert k. induction l as [| y l IH]; intros [| k]; simpl; try tauto.
  intros [-> | H]; [by left | right; by apply (IH k)].
Qed.

Lemma insert_score_perm (x : DialogueAct.t * float) (l : list (DialogueAct.t * float)) :
  Permutation (insert_score x l) (x :: l).
Proof.
  induction l as [| y l IH]; simpl; [reflexivity |].
  destruct (snd x <? snd y); [| reflexivity].
  rewrite IH. apply perm_swap.
Qed.

Lemma sort_scores_perm (l : list (DialogueAct.t * float)) :
  Permutation (sort_scores l) l.
Proof.
  induction l as [| x l IH]; simpl; [reflexivity |].
  rewrite insert_score_perm. by apply perm_skip.
Qed.

Lemma insert_score_sorted (x : DialogueAct.t * float) (l : list (DialogueAct.t * float)) :
  score_value (snd x) -> Forall (fun e => score_value (snd e)) l ->
  StronglySorted score_ge l -> StronglySorted score_ge (insert_score x l).
Proof.
  intros Hx Hl Hs. induction Hs as [| y l Hs IH Hy]; simpl.
  - constructor; constructor.
  - apply Forall_cons_iff in Hl as [Hky Hkl].
    destruct (snd x <? snd y) eqn:Hlt.
    + constructor; [by apply IH |].
      rewrite insert_score_perm. constructor; [| exact Hy].
      by apply value_lt_le.
    + assert (Hyx : score_ge x y) by (by apply value_nlt_le).
      constructor; [by constructor |].
      constructor; [exact Hyx |].
      rewrite List.Forall_forall in Hy, Hkl |- *. intros z Hz.
      exact (value_le_trans _ _ _ (Hkl z Hz) Hky Hx (Hy z Hz) Hyx).
Qed.

Lemma sort_scores_sorted (l : list (DialogueAct.t * float)) :
  Forall (fun e => score_value (snd e)) l -> StronglySorted score_ge (sort_scores l).
Proof.
  induction l as [| x l IH]; intros Hl; simpl; [constructor |].
  apply Forall_cons_iff in Hl as [Hx Hl].
  apply insert_score_sorted; [exact Hx | | by apply IH].
  by rewrite sort_scores_perm.
Qed.

Lemma all_scores_values (text : string) :
  Forall (fun e => score_value (snd e)) (all_scores text).
Proof.
  unfold all_scores. apply List.Forall_forall. intros e He.
  apply in_map_iff in He as (entry & <- & _). apply score_is_value.
Qed.

(** The head of the stable descending sort is the first greatest pair. *)
Lemma head_sort_scores (l : list (DialogueAct.t * float)) :
  head (sort_scores l) = first_max l.
Proof.
  induction l as [| x l IH]; simpl; [reflexivity |].
  rewrite <- IH. destruct (sort_scores l) as [| y rest]; simpl; [reflexivity |].
  destruct (snd x <? snd y); reflexivity.
Qed.

Lemma first_max_value (l : list (DialogueAct.t * float)) (y : DialogueAct.t * float) :
  Forall (fun e => score_value (snd e)) l -> first_max l = Some y -> score_value (snd y).
Proof.
  intros Hl Hy. rewrite <- head_sort_scores in Hy.
  assert (Hin : In y (sort_scores l)) by (destruct (sort_scores l); [discriminate |];
                                          injection Hy as ->; by left).
  rewrite sort_scores_perm in Hin.
  rewrite List.Forall_forall in Hl. by apply Hl.
Qed.

(** The running best of [recognize_act] against the first greatest pair. *)
Lemma fold_left_first_max (text : string) (l : list (DialogueAct.t * list string)) :
  forall (a0 : DialogueAct.t) (c0 : float),
    score_value c0 ->
    fold_left (step text) l (a0, c0)
    = match first_max (map (fun e => (fst e, _calculate_pattern_score text (snd e))) l) with
      | Some y => if c0 <? snd y then y else (a0, c0)
      | None => (a0, c0)
      end.
Proof.
  induction l as [| x l IH]; intros a0 c0 Hc0; [reflexivity |].
  assert (Hstep : step text (a0, c0) x
                  = if c0 <? _calculate_pattern_score text (snd x)
                    then (fst x, _calculate_pattern_score text (snd x))
                    else (a0, c0)) by reflexivity.
  cbn [fold_left map first_max]. rewrite Hstep. clear Hstep.
  pose proof (score_is_value text (snd x)) as Hx.
  set (sx := _calculate_pattern_score text (snd x)) in *.
  assert (Hl : Forall (fun e => score_value (snd e))
                 (map (fun e => (fst e, _calculate_pattern_score text (snd e))) l)).
  { apply List.Forall_forall. intros e He.
    apply in_map_iff in He as (entry & <- & _). apply score_is_value. }
  destruct (c0 <? sx) eqn:Hgt.
  - rewrite (IH (fst x) sx Hx).
    destruct (first_max _) as [[ya yc] |] eqn:Hfm; cbn [snd].
    + pose proof (first_max_value _ _ Hl Hfm) as Hy. cbn [snd] in Hy.
      destruct (sx <? yc) eqn:Hxy; cbn [snd].
      * by rewrite (value_lt_trans c0 sx yc Hc0 Hx Hy Hgt Hxy).
      * by rewrite Hgt.
    + by rewrite Hgt.
  - rewrite (IH a0 c0 Hc0).
    destruct (first_max _) as [[ya yc] |] eqn:Hfm; cbn [snd].
    + pose proof (first_max_value _ _ Hl Hfm) as Hy. cbn [snd] in Hy.
      destruct (c0 <? yc) eqn:Hcy.
      * rewrite (value_le_lt_trans sx c0 yc Hx Hc0 Hy Hgt Hcy). cbn [snd].
        by rewrite Hcy.
      * destruct (sx <? yc) eqn:Hxy; cbn [snd]; [by rewrite Hcy | by rewrite Hgt].
    + by rewrite Hgt.
Qed.

(** X8.  [recognize_multiple_acts] answers [[(ERROR, 0.0)]] on a blank
    text, whatever [top_n] is.  On any other text and for [top_n >= 0] it
    answers the first [top_n] (all seven when [top_n] is larger) of the
    (act, score) pairs of the table rearranged into descending order of
    score; the list never holds [STATEMENT] or [ERROR].  For [top_n >= 1] its first pair is
    the answer of [recognize_act] whenever that answer is not the
    [STATEMENT] default. *)
Theorem recognize_multiple_acts_ranked (text : string) (top_n : Z) :
  let text_lower := PyStr.strip (PyStr.lower text) in
  let r := recognize_multiple_acts text top_n in
  (text_lower = "" -> r = [(DialogueAct.ERROR, 0.0)])
  /\ (text_lower <> "" -> (0 <= top_n)%Z ->
      r = take (Z.to_nat top_n) (sort_scores (all_scores text_lower))
      /\ Permutation (sort_scores (all_scores text_lower)) (all_scores text_lower)
      /\ List.length r = Nat.min (Z.to_nat top_n) 7
      /\ StronglySorted score_ge r
      /\ (forall e, In e r ->
            fst e <> DialogueAct.STATEMENT /\ fst e <> DialogueAct.ERROR)
      /\ ((1 <= top_n)%Z -> fst (recognize_act text) <> DialogueAct.STATEMENT ->
          head r = Some (recognize_act text))).
Proof.
  intros text_lower r. unfold r, recognize_multiple_acts. fold text_lower. split.
  - intros ->. reflexivity.
  - intros Hne Hn.
    destruct (String.eqb_spec text_lower ""); [contradiction |].
    unfold slice_to. destruct (Z.leb_spec 0 top_n); [| lia].
    pose proof (sort_scores_perm (all_scores text_lower)) as Hperm.
    pose proof (sort_scores_sorted _ (all_scores_values text_lower)) as Hsorted.
    split; [reflexivity |]. split; [exact Hperm |].
    split; [| split; [| split]].
    + rewrite length_take, (Permutation_length Hperm). reflexivity.
    + set (s := sort_scores (all_scores text_lower)) in *.
      clearbody s. clear Hperm. revert Hsorted. generalize (Z.to_nat top_n).
      induction s as [| y s IHs]; intros k Hs; destruct k; simpl; try constructor.
      * apply IHs. by inversion Hs.
      * inversion Hs as [| ? ? _ Hall]; subst.
        rewrite List.Forall_forall in Hall |- *. intros z Hz.
        apply Hall. by apply (In_take z k s).
    + intros e He.
      assert (Hin : In e (all_scores text_lower)).
      { rewrite <- Hperm. by apply (In_take e (Z.to_nat top_n)). }
      unfold all_scores in Hin. apply in_map_iff in Hin as ([act pats] & <- & Hin).
      exact (table_acts act pats Hin).
    + intros Htop Hns.
      assert (Hhead : head (take (Z.to_nat top_n) (sort_scores (all_scores text_lower)))
                      = head (sort_scores (all_scores text_lower))).
      { destruct (Z.to_nat top_n) eqn:Hk; [lia |].
        by destruct (sort_scores (all_scores text_lower)). }
      rewrite Hhead, head_sort_scores.
      assert (Hv : score_value 0.1) by (unfold score_value; auto).
      revert Hns. unfold recognize_act. fold text_lower.
      destruct (String.eqb_spec text_lower ""); [contradiction |].
      rewrite (fold_left_first_max text_lower patterns DialogueAct.STATEMENT 0.1 Hv).
      fold (all_scores text_lower).
      destruct (first_max (all_scores text_lower)) as [y |]; [| simpl; congruence].
      destruct (0.1 <? snd y); [reflexivity | simpl; congruence].
Qed.

End RecognizerMore.

(** ** The detector: the remaining behaviour *)

Section DetectorMore.

Import AmbiguityDetector.
Local Open Scope float_scope.

Lemma detect_in_collect (text : string) (x : AmbiguityDetection) :
  In x (detect_ambiguities text) -> In x (collect text).
Proof.
  unfold detect_ambiguities, _remove_duplicates. rewrite sort_perm. intros Hx.
  destruct (remove_duplicates_from_spec (collect text) ∅) as (_ & Hkept & _).
  destruct (Hkept x Hx) as (_ & l1 & l2 & -> & _).
  apply in_app_iff. right. by left.
Qed.

Lemma detect_known (text : string) : Forall known (detect_ambiguities text).
Proof.
  apply List.Forall_forall. intros x Hx.
  apply (collect_conf_value text), detect_in_collect, Hx.
Qed.

Lemma detect_sorted (text : string) : StronglySorted conf_ge (detect_ambiguities text).
Proof.
  unfold detect_ambiguities. apply sort_sorted.
  apply List.Forall_forall. intros x Hx. apply (collect_conf_value text).
  apply detect_in_collect. unfold detect_ambiguities. by rewrite sort_perm.
Qed.

Lemma conf_le_nlt (x y : float) :
  In x conf_values -> In y conf_values -> (x <=? y) = true -> (y <? x) = false.
Proof.
  intros Hx Hy Hle.
  pose proof (on_values2 (fun x y => negb (x <=? y) || negb (y <? x)) eq_refl x y Hx Hy) as H.
  cbv beta in H. rewrite Hle in H. simpl in H. by apply negb_true_iff in H.
Qed.

Lemma max_by_confidence_head (first : AmbiguityDetection) (others : list AmbiguityDetection) :
  known first -> Forall known others -> Forall (conf_ge first) others ->
  max_by_confidence first others = first.
Proof.
  intros Hf Hk Hge. unfold max_by_confidence.
  induction others as [| x others IH]; simpl; [reflexivity |].
  apply Forall_cons_iff in Hk as [Hx Hk]. apply Forall_cons_iff in Hge as [Hxf Hge].
  rewrite (conf_le_nlt _ _ Hx Hf Hxf). by apply IH.
Qed.

(** X9.  [get_highest_confidence_ambiguity] is [None] exactly when the
    text has no detection; otherwise it is the first element of the list
    [detect_ambiguities] returns, and no detection of the text has a
    greater confidence. *)
Theorem highest_confidence_is_first (text : string) :
  get_highest_confidence_ambiguity text = head (detect_ambiguities text)
  /\ (get_highest_confidence_ambiguity text = None <-> detect_ambiguities text = [])
  /\ forall top x,
       get_highest_confidence_ambiguity text = Some top ->
       In x (detect_ambiguities text) ->
       (confidence x <=? confidence top) = true.
Proof.
  unfold get_highest_confidence_ambiguity.
  pose proof (detect_sorted text) as Hs. pose proof (detect_known text) as Hk.
  destruct (detect_ambiguities text) as [| first others]; simpl.
  - split; [reflexivity |]. split; [tauto | discriminate].
  - inversion Hs as [| ? ? Hs' Hge]; subst.
    apply Forall_cons_iff in Hk as [Hf Hko].
    rewrite (max_by_confidence_head first others Hf Hko Hge).
    split; [reflexivity |]. split; [split; discriminate |].
    intros top x [= <-] [<- | Hx].
    + apply (on_values (fun c => c <=? c)); [reflexivity | exact Hf].
    + rewrite List.Forall_forall in Hge. by apply Hge.
Qed.

(** X10.  Every detection has a confidence between 0.3 and 0.9: the clamp
    to [0, 1] in [_calculate_confidence] never changes a value.  Hence
    [has_ambiguity] with a threshold of 0.3 is true exactly when the text
    has any detection at all, and with a threshold of 1.0 it is always
    false. *)
Theorem confidence_range (text : string) :
  (forall a matched_text text_lower,
     exists adjustment,
       In adjustment [0.0; 0.0 + 0.1; 0.0 - 0.2; 0.0 + 0.1 - 0.2]
       /\ _calculate_confidence a matched_text text_lower
          = base_confidence a + adjustment)
  /\ Forall (fun x => (0.3 <=? confidence x) && (confidence x <=? 0.9) = true)
       (detect_ambiguities text)
  /\ (has_ambiguity text 0.3 = true <-> detect_ambiguities text <> [])
  /\ has_ambiguity text 1.0 = false.
Proof.
  pose proof (detect_known text) as Hk. rewrite List.Forall_forall in Hk.
  split; [| split; [| split]].
  - intros a matched_text text_lower. unfold _calculate_confidence.
    destruct (PyStr.endswith text_lower matched_text && PyStr.contains text_lower "?");
      destruct (PyStr.len text_lower <? 10)%nat;
      [exists (0.0 + 0.1 - 0.2) | exists (0.0 + 0.1) | exists (0.0 - 0.2) | exists 0.0];
      (split; [simpl; tauto | destruct a; vm_compute; reflexivity]).
  - apply List.Forall_forall. intros x Hx.
    apply (on_values (fun c => (0.3 <=? c) && (c <=? 0.9))); [reflexivity | by apply Hk].
  - unfold has_ambiguity. destruct (detect_ambiguities text) as [| x l]; simpl.
    + split; [discriminate | congruence].
    + split; [discriminate |]. intros _.
      unfold PyFloat.ge.
      rewrite (on_values (fun c => 0.3 <=? c) eq_refl (confidence x)); [reflexivity |].
      apply Hk. by left.
  - unfold has_ambiguity. apply not_true_is_false. intros Hex.
    apply existsb_exists in Hex as (x & Hx & Hge). unfold PyFloat.ge in Hge.
    pose proof (on_values (fun c => negb (1.0 <=? c)) eq_refl (confidence x) (Hk x Hx))
      as Hlt.
    cbv beta in Hlt. rewrite Hge in Hlt. discriminate.
Qed.

End DetectorMore.

(** *** Where a match can lie *)

Section Spans.

Import AmbiguityDetector.










Lemma starts_chars_length (p l : list ascii) :
  PyStr.starts_chars p l = true -> List.length p <= List.length l.
Proof.
  revert l. induction p as [| a p IH]; intros [| b l] H; simpl in *; try lia; try discriminate.
  apply andb_true_iff in H as [_ H]. apply IH in H. lia.
Qed.




End Spans.

(** *** Stability *)

Section Stability.

Import AmbiguityDetector.
Local Open Scope float_scope.

Lemma insert_desc_filter (c : float) (x : AmbiguityDetection) (l : list AmbiguityDetection) :
  In c conf_values -> known x -> Forall known l ->
  List.filter (tie c) (insert_desc x l) = List.filter (tie c) (x :: l).
Proof.
  intros Hc Hx Hl. induction l as [| y l IH]; [reflexivity |].
  apply Forall_cons_iff in Hl as [Hy Hl]. cbn [insert_desc].
  destruct (confidence x <? confidence y) eqn:Hlt; [| reflexivity].
  cbn [List.filter] in *. rewrite (IH Hl).
  destruct (tie c x) eqn:Htx; [| reflexivity].
  destruct (tie c y) eqn:Hty; [| reflexivity].
  exfalso. unfold tie in Htx, Hty.
  pose proof (on_values3
                (fun c a b => negb (negb (a <? c) && negb (c <? a))
                              || negb (negb (b <? c) && negb (c <? b))
                              || negb (a <? b))
                eq_refl c (confidence x) (confidence y) Hc Hx Hy) as H.
  cbv beta in H. rewrite Htx, Hty, Hlt in H. discriminate.
Qed.

(** X12.  The sort of [detect_ambiguities] only rearranges the
    de-duplicated detections, and it is stable: the detections that tie
    with any given confidence appear in the result in the order in which
    they were collected. *)
Theorem detect_ambiguities_stable (text : string) (c : float)
    (Hc : In c conf_values) :
  Permutation (detect_ambiguities text) (_remove_duplicates (collect text))
  /\ List.filter (tie c) (detect_ambiguities text)
     = List.filter (tie c) (_remove_duplicates (collect text)).
Proof.
  unfold detect_ambiguities. split; [apply sort_perm |].
  assert (Hk : Forall known (_remove_duplicates (collect text))).
  { apply List.Forall_forall. intros x Hx. apply (collect_conf_value text).
    apply detect_in_collect. unfold detect_ambiguities. by rewrite sort_perm. }
  induction (_remove_duplicates (collect text)) as [| x l IH]; [reflexivity |].
  apply Forall_cons_iff in Hk as [Hx Hl]. cbn [sort_by_confidence_desc fold_right].
  fold (sort_by_confidence_desc l).
  rewrite insert_desc_filter; [| exact Hc | exact Hx | by rewrite sort_perm].
  cbn [List.filter]. rewrite (IH Hl). reflexivity.
Qed.

Lemma detect_ambiguities_stable_witness :
  In 0.7 conf_values
  /\ List.filter (tie 0.7) (detect_ambiguities "What about it?")
     = List.filter (tie 0.7) (_remove_duplicates (collect "What about it?")).
Proof.
  assert (H : In 0.7 conf_values) by (vm_compute; tauto).
  split; [exact H |]. by apply detect_ambiguities_stable.
Defined.

End Stability.

(** ** The question generator *)

Section Questions.

Import QuestionGenerator.

Lemma append_length (a b : string) :
  String.length (a +:+ b) = String.length a + String.length b.
Proof. induction a as [| c a IH]; simpl; [reflexivity | by rewrite IH]. Qed.

(** X13.  [_rephrase_question] never hands a question back unchanged: a
    question of its table is replaced by a different wording, and any
    other question is prefixed with ["Let me ask differently: "]. *)
Theorem rephrase_question_changes (question : string) :
  _rephrase_question question <> question
  /\ (dict_get rephrased_forms question = None ->
      _rephrase_question question = "Let me ask differently: " +:+ question).
Proof.
  unfold _rephrase_question. split.
  - destruct (dict_get rephrased_forms question) as [v |] eqn:Hget; simpl.
    + unfold rephrased_forms in Hget. simpl in Hget.
      repeat match type of Hget with
             | context [decide (?k = question)] =>
                 destruct (decide (k = question)) as [<- | _];
                 [injection Hget as <-; discriminate |]
             end.
      discriminate.
    + intros H. apply (f_equal String.length) in H.
      rewrite append_length in H. simpl in H. lia.
  - by intros ->.
Qed.

(** X14.  [_make_question_more_direct] never lengthens a question, and
    applying it twice is the same as applying it once. *)
Theorem make_question_more_direct_shortens (question : string) :
  String.length (_make_question_more_direct question) <= String.length question
  /\ _make_question_more_direct (_make_question_more_direct question)
     = _make_question_more_direct question.
Proof.
  unfold _make_question_more_direct at 1 3 4.
  destruct (dict_get direct_forms question) as [v |] eqn:Hget; simpl.
  - unfold direct_forms in Hget. simpl in Hget.
    repeat match type of Hget with
           | context [decide (?k = question)] =>
               destruct (decide (k = question)) as [<- | _];
               [injection Hget as <-; split; [simpl; lia | reflexivity] |]
           end.
    discriminate.
  - split; [lia |]. unfold _make_question_more_direct. by rewrite Hget.
Qed.

Lemma question_pool_questions (a : AmbiguityType) (context : option (gmap string pyval))
    (q : string) :
  In q (question_pool a context) -> is_question q = true.
Proof.
  intros Hin.
  assert (Hall : forallb is_question (question_pool a context) = true).
  { unfold question_pool. destruct (truthy_dict context); destruct a; vm_compute; reflexivity. }
  exact (proj1 (forallb_forall _ _) Hall q Hin).
Qed.

Lemma generate_clarification_question_pool (amb : AmbiguityDetection)
    (context : option (gmap string pyval)) (w : World) :
  In (fst (generate_clarification_question amb context w)) (question_pool (type amb) context).
Proof.
  unfold question_pool. destruct (truthy_dict context) eqn:Ht.
  - destruct context as [ctx |]; [| discriminate].
    apply generate_clarification_question_framed.
    unfold truthy_dict in Ht. apply negb_true_iff, bool_decide_eq_false in Ht. exact Ht.
  - unfold generate_clarification_question, bind, _customize_template.
    pose proof (random_choice_In "" _ w (question_templates_nonempty (type amb))) as Hq.
    destruct (random_choice "" _ w) as [template w1]. rewrite Ht. exact Hq.
Qed.

Lemma generate_each_questions (l : list AmbiguityDetection)
    (context : option (gmap string pyval)) :
  forall w, Forall (fun q => is_question q = true) (fst (generate_each l context w)).
Proof.
  induction l as [| a l IH]; intros w; simpl; [constructor |].
  unfold bind.
  pose proof (generate_clarification_question_pool a context w) as Hq.
  destruct (generate_clarification_question a context w) as [q w1].
  specialize (IH w1). destruct (generate_each l context w1) as [qs w2].
  simpl in *. constructor; [| exact IH].
  by apply (question_pool_questions (type a) context).
Qed.

(** X15.  Every clarification question generated for an ambiguity, with
    or without a conversation context, is a non-empty text holding a
    question mark, drawn from the pool of the ambiguity's type (framed when
    a non-empty context is passed).  [generate_multiple_questions] returns
    [min(max_questions, len(ambiguities))] such questions and draws two
    random choices per question when framing, one otherwise. *)
Theorem generated_questions_are_questions (amb : AmbiguityDetection)
    (ambiguities : list AmbiguityDetection) (max_questions : nat)
    (context : option (gmap string pyval)) (w : World) :
  let q := fst (generate_clarification_question amb context w) in
  let qs := fst (generate_multiple_questions ambiguities max_questions context w) in
  In q (question_pool (type amb) context)
  /\ is_question q = true
  /\ n_rand (snd (generate_clarification_question amb context w))
     = n_rand w + (if truthy_dict context then 2 else 1)
  /\ List.length qs = Nat.min max_questions (List.length ambiguities)
  /\ Forall (fun q => is_question q = true) qs.
Proof.
  intros q qs.
  pose proof (generate_clarification_question_pool amb context w) as Hq.
  split; [exact Hq |]. split; [by apply (question_pool_questions (type amb) context) |].
  split; [| split].
  - unfold generate_clarification_question, bind, _add_context_to_question, ret.
    destruct (truthy_dict context); simpl; lia.
  - unfold qs, generate_multiple_questions.
    rewrite generate_each_length, length_take, sort_length. reflexivity.
  - apply generate_each_questions.
Qed.

Lemma contextual_pool_nonempty (act : DialogueAct.t) : contextual_pool act <> [].
Proof. destruct act; discriminate. Qed.

Lemma contextual_pool_questions (act : DialogueAct.t) :
  forallb
    (fun t =>
       is_question t
       && forallb (fun framing => is_question (PyStr.replace framing "{question}" t))
            (default ["{question}"] (dict_get contextual_templates "default")))
    (contextual_pool act) = true.
Proof. destruct act; vm_compute; reflexivity. Qed.

(** X20.  [generate_contextual_question] always returns a question: a
    template of the pool of the dialogue act (the fallback pool for every
    act other than QUESTION, REQUEST and CLARIFICATION), bare after one
    random choice when no context or an empty one is passed, and set in a
    framing template after a second random choice otherwise.  The user
    input plays no part in the result. *)
Theorem contextual_question_is_question (user_input : string)
    (dialogue_act : DialogueAct.t) (context : option (gmap string pyval)) (w : World) :
  let out := generate_contextual_question user_input dialogue_act context w in
  (exists template,
     In template (contextual_pool dialogue_act)
     /\ (truthy_dict context = false ->
         fst out = template /\ n_rand (snd out) = S (n_rand w))
     /\ (truthy_dict context = true ->
         exists framing,
           In framing (default ["{question}"] (dict_get contextual_templates "default"))
           /\ fst out = PyStr.replace framing "{question}" template
           /\ n_rand (snd out) = S (S (n_rand w))))
  /\ is_question (fst out) = true
  /\ (forall other_input,
        generate_contextual_question other_input dialogue_act context w = out).
Proof.
  intros out. subst out. unfold generate_contextual_question, bind.
  pose proof (random_choice_In "" _ w (contextual_pool_nonempty dialogue_act)) as Hin.
  destruct (random_choice "" (contextual_pool dialogue_act) w) as [template w1] eqn:Hrc.
  assert (Hw1 : n_rand w1 = S (n_rand w))
    by (unfold random_choice in Hrc; injection Hrc as _ <-; reflexivity).
  cbn [fst] in Hin.
  pose proof (proj1 (forallb_forall _ _) (contextual_pool_questions dialogue_act)
                template Hin) as Hq.
  apply andb_true_iff in Hq as [Hbare Hframed].
  destruct (truthy_dict context) eqn:Ht.
  - unfold _add_context_to_question, bind, ret.
    set (framings := default ["{question}"] (dict_get contextual_templates "default")) in *.
    assert (Hne : framings <> []) by discriminate.
    pose proof (random_choice_In "" framings w1 Hne) as Hf.
    destruct (random_choice "" framings w1) as [framing w2] eqn:Hrc2.
    assert (Hw2 : n_rand w2 = S (n_rand w1))
      by (unfold random_choice in Hrc2; injection Hrc2 as _ <-; reflexivity).
    cbn [fst snd] in *.
    split; [| split; [| reflexivity]].
    + exists template. split; [exact Hin |]. split; [discriminate |].
      intros _. exists framing. split; [exact Hf |]. split; [reflexivity | congruence].
    + exact (proj1 (forallb_forall _ _) Hframed framing Hf).
  - unfold ret. cbn [fst snd].
    split; [| split; [exact Hbare | reflexivity]].
    exists template. split; [exact Hin |]. split; [by intros _ | discriminate].
Qed.

End Questions.

(** ** The response generator *)

Section Responses.

Import ResponseGenerator.

Lemma chars_append (a b : string) : PyStr.chars (a +:+ b) = PyStr.chars a ++ PyStr.chars b.
Proof. induction a as [| c a IH]; simpl; [reflexivity | by rewrite <- IH]. Qed.

Lemma starts_chars_app (p l : list ascii) : PyStr.starts_chars p (p ++ l) = true.
Proof.
  induction p as [| a p IH]; simpl; [reflexivity |].
  by rewrite Ascii.eqb_refl, IH.
Qed.

Lemma endswith_append (a b : string) : PyStr.endswith (a +:+ b) b = true.
Proof.
  unfold PyStr.endswith. rewrite chars_append, rev_app_distr. apply starts_chars_app.
Qed.

Lemma endswith_append_assoc (a b c : string) : PyStr.endswith (a +:+ b +:+ c) c = true.
Proof.
  unfold PyStr.endswith. rewrite !chars_append, !rev_app_distr, <- app_assoc.
  apply starts_chars_app.
Qed.

Lemma endswith_nonempty (s suffix : string) :
  PyStr.endswith s suffix = true -> suffix <> "" -> s <> "".
Proof.
  intros H Hne ->. unfold PyStr.endswith in H. simpl in H.
  destruct suffix as [| c suffix]; [congruence |].
  apply starts_chars_length in H. rewrite length_rev in H. simpl in H. lia.
Qed.

Lemma enhance_response_suffix (template llm_response : string)
    (context : ConversationContext) :
  PyStr.contains template "{llm_response}" = false ->
  llm_response <> "" ->
  PyStr.endswith (_enhance_response template llm_response context) llm_response = true.
Proof.
  intros Hp Hne. unfold _enhance_response. rewrite Hp.
  destruct (String.eqb_spec llm_response ""); [contradiction |]. simpl negb. cbv iota.
  destruct (PyStr.endswith template "..."); [apply endswith_append |].
  destruct (_ || _).
  - rewrite (endswith_append_assoc template " " llm_response). reflexivity.
  - rewrite (endswith_append_assoc template ". " llm_response). reflexivity.
Qed.

Lemma response_pool_plain (act : DialogueAct.t) (st : ConversationState) :
  forallb (fun t => negb (PyStr.contains t "{llm_response}") && negb (String.eqb t ""))
    (response_pool act st) = true.
Proof. destruct act, st; vm_compute; reflexivity. Qed.

Lemma response_pool_nonempty (act : DialogueAct.t) (st : ConversationState) :
  response_pool act st <> [].
Proof. destruct act, st; discriminate. Qed.

Lemma generate_response_nonempty (user_input llm_response : string)
    (state_manager : ConversationStateManager) (dialogue_act : DialogueAct.t) (w : World) :
  fst (generate_response user_input llm_response state_manager dialogue_act w) <> "".
Proof.
  unfold generate_response, bind, ret, get_context.
  fold (response_pool dialogue_act (state (context state_manager))).
  pose proof (random_choice_In "" _ w
                (response_pool_nonempty dialogue_act (state (context state_manager))))
    as Hin.
  destruct (random_choice "" _ w) as [template w1]. cbn [fst] in *.
  pose proof (proj1 (forallb_forall _ _) (response_pool_plain _ _) template Hin) as Hplain.
  apply andb_true_iff in Hplain as [Hslot Hne].
  apply negb_true_iff in Hslot. apply negb_true_iff in Hne.
  destruct (String.eqb_spec template ""); [discriminate |].
  destruct (String.eqb_spec llm_response "") as [-> | Hllm].
  - unfold _enhance_response. by rewrite Hslot.
  - apply (endswith_nonempty _ llm_response); [by apply enhance_response_suffix | exact Hllm].
Qed.

Lemma generate_response_suffix (user_input llm_response : string)
    (state_manager : ConversationStateManager) (dialogue_act : DialogueAct.t) (w : World) :
  llm_response <> "" ->
  PyStr.endswith
    (fst (generate_response user_input llm_response state_manager dialogue_act w))
    llm_response = true.
Proof.
  intros Hllm. unfold generate_response, bind, ret, get_context.
  fold (response_pool dialogue_act (state (context state_manager))).
  pose proof (random_choice_In "" _ w
                (response_pool_nonempty dialogue_act (state (context state_manager))))
    as Hin.
  destruct (random_choice "" _ w) as [template w1]. cbn [fst] in *.
  pose proof (proj1 (forallb_forall _ _) (response_pool_plain _ _) template Hin) as Hplain.
  apply andb_true_iff in Hplain as [Hslot _]. apply negb_true_iff in Hslot.
  by apply enhance_response_suffix.
Qed.

(** X16.  [generate_response] never alters the LLM text: with a
    non-empty LLM response the result is one template of the pool for the
    act and the current state followed by the LLM response, which is kept
    verbatim as the end of the result (no template of the tables holds an
    [{llm_response}] slot); with an empty LLM response the result is the
    bare template.  Exactly one random choice is drawn. *)
Theorem generate_response_keeps_llm_text (user_input llm_response : string)
    (state_manager : ConversationStateManager) (dialogue_act : DialogueAct.t) (w : World) :
  let out := generate_response user_input llm_response state_manager dialogue_act w in
  exists template,
    In template (response_pool dialogue_act (state (context state_manager)))
    /\ fst out = _enhance_response template llm_response (context state_manager)
    /\ (llm_response <> "" -> PyStr.endswith (fst out) llm_response = true)
    /\ (llm_response = "" -> fst out = template)
    /\ fst out <> ""
    /\ n_rand (snd out) = S (n_rand w).
Proof.
  unfold generate_response, bind, ret, get_context.
  fold (response_pool dialogue_act (state (context state_manager))).
  pose proof (random_choice_In "" _ w
                (response_pool_nonempty dialogue_act (state (context state_manager))))
    as Hin.
  destruct (random_choice "" _ w) as [template w1] eqn:Hrc.
  assert (Hw : n_rand w1 = S (n_rand w))
    by (unfold random_choice in Hrc; injection Hrc as _ <-; reflexivity).
  cbn [fst snd] in *. exists template.
  pose proof (proj1 (forallb_forall _ _) (response_pool_plain _ _) template Hin) as Hplain.
  apply andb_true_iff in Hplain as [Hslot Hne].
  apply negb_true_iff in Hslot. apply negb_true_iff in Hne.
  destruct (String.eqb_spec template ""); [discriminate |].
  split; [exact Hin |]. split; [reflexivity |].
  split; [intros Hllm; by apply enhance_response_suffix |].
  assert (Hempty : llm_response = "" ->
                   _enhance_response template llm_response (context state_manager) = template).
  { intros ->. unfold _enhance_response. by rewrite Hslot. }
  split; [exact Hempty |]. split; [| exact Hw].
  destruct (String.eqb_spec llm_response "") as [He | Hllm].
  - by rewrite (Hempty He).
  - apply (endswith_nonempty _ llm_response); [by apply enhance_response_suffix | exact Hllm].
Qed.

(** X17.  [generate_follow_up_prompt] stays silent, and draws no random
    number, exactly when the conversation is closing or the act is an
    acknowledgment or a confirmation; otherwise it returns one of its five
    prompts, each a question. *)
Theorem follow_up_prompt_when (context : ConversationContext)
    (dialogue_act : DialogueAct.t) (w : World) :
  let out := generate_follow_up_prompt context dialogue_act w in
  let silent := state context = CLOSING
                \/ dialogue_act = DialogueAct.ACKNOWLEDGMENT
                \/ dialogue_act = DialogueAct.CONFIRMATION in
  (silent -> out = (None, w))
  /\ (~ silent ->
      exists prompt, fst out = Some prompt /\ In prompt follow_up_prompts
                     /\ is_question prompt = true
                     /\ n_rand (snd out) = S (n_rand w)).
Proof.
  unfold generate_follow_up_prompt.
  destruct (decide (state context = CLOSING)) as [Hc | Hc];
    [split; [reflexivity | tauto] |].
  destruct (bool_decide (dialogue_act ∈ _)) eqn:Hb.
  - split; [reflexivity |]. intros Hn. exfalso. apply Hn. right.
    apply bool_decide_eq_true in Hb.
    apply list_elem_of_In in Hb. destruct Hb as [<- | [<- | []]]; [by left | by right].
  - split.
    + intros [H | [-> | ->]]; [contradiction | |]; vm_compute in Hb; discriminate.
    + intros _. unfold bind, ret.
      pose proof (random_choice_In "" follow_up_prompts w ltac:(discriminate)) as Hin.
      destruct (random_choice "" follow_up_prompts w) as [prompt w1] eqn:Hrc.
      assert (Hw : n_rand w1 = S (n_rand w))
        by (unfold random_choice in Hrc; injection Hrc as _ <-; reflexivity).
      exists prompt. cbn [fst snd] in *.
      split; [reflexivity |]. split; [exact Hin |]. split; [| exact Hw].
      exact (proj1 (forallb_forall is_question follow_up_prompts) eq_refl prompt Hin).
Qed.

End Responses.

(** ** The orchestrator: the remaining behaviour *)

Section OrchestratorMore.

Import Interface.

Lemma update_context_user (kwargs : list kwarg) (m : ConversationStateManager) (w : World) :
  self_user_id (snd (fst (update_context kwargs m w))) = self_user_id m.
Proof.
  unfold update_context. destruct (update_context_loop _ _ _) as [[|] c]; reflexivity.
Qed.

Lemma update_dialogue_act_user (act : DialogueAct.t) (m : ConversationStateManager)
    (w : World) :
  self_user_id (snd (fst (update_dialogue_act act m w))) = self_user_id m.
Proof. unfold update_dialogue_act. destruct (decide _); reflexivity. Qed.

Lemma transition_user (s : ConversationState) (trig : string)
    (self : EnhancedConversationInterface) (w : World) :
  self_user_id (state_manager (fst (transition s trig self w)))
  = self_user_id (state_manager self).
Proof. unfold transition, update_state, bind. destruct (decide _); reflexivity. Qed.

Lemma update_conversation_state_user (act : DialogueAct.t)
    (self : EnhancedConversationInterface) (w : World) :
  self_user_id (state_manager (fst (_update_conversation_state act self w)))
  = self_user_id (state_manager self).
Proof.
  rewrite update_conversation_state_eq.
  destruct (transition_table act _); [apply transition_user | reflexivity].
Qed.

(** The clear branch in detail, and the user id on both branches. *)
Lemma process_input_detail (user_input : string) (llm_response : option string)
    (self : EnhancedConversationInterface) (w : World) :
  let m := state_manager self in
  let act := fst (DialogueActRecognizer.recognize_act user_input) in
  exists resp self' w',
    process_input user_input llm_response self w = (resp, self', w')
    /\ self_user_id (state_manager self') = self_user_id m
    /\ (high_confidence (ambiguity_threshold self) user_input = [] ->
        exists self3 w3,
          state (context (state_manager self3)) = next_state act (state (context m))
          /\ resp = fst (match llm_response with
                         | Some (String c s) =>
                             ResponseGenerator.generate_response user_input (String c s)
                               (state_manager self3) act
                         | _ => _generate_template_response act self3
                         end w3)).
Proof.
  intros m act. unfold high_confidence, process_input.
  remember (DialogueActRecognizer.recognize_act user_input) as ra eqn:Hra.
  remember (AmbiguityDetector.detect_ambiguities user_input) as ambs eqn:Hambs.
  unfold bind at 1.
  pose proof (update_context_input_frame user_input
                (turn_count (get_context (state_manager self)) + 1) m w) as F1.
  pose proof (update_context_user
                [kw_last_user_input user_input;
                 kw_turn_count (turn_count (get_context (state_manager self)) + 1)] m w) as U1.
  fold m. destruct (update_context _ m w) as [[b1 m1] w1]. cbn [fst snd] in F1, U1.
  destruct F1 as (_ & _ & _ & _ & Fst1 & _).
  destruct ra as [dact c]. simpl in act. subst act.
  unfold bind at 1. cbn [snd state_manager with_manager].
  pose proof (update_dialogue_act_frame dact m1 w1) as F2.
  pose proof (update_dialogue_act_user dact m1 w1) as U2.
  destruct (update_dialogue_act dact m1 w1) as [[b2 m2] w2]. cbn [fst snd] in F2, U2.
  destruct F2 as (_ & _ & Fst2 & _).
  cbn [snd ambiguity_threshold with_manager].
  unfold bind at 1.
  set (self2 := with_manager m2 (with_manager m1 self)).
  assert (Hm2 : state_manager self2 = m2) by reflexivity.
  clearbody self2.
  destruct (List.filter _ ambs) as [| amb high'] eqn:Hhigh.
  - unfold bind at 1.
    pose proof (update_conversation_state_frame dact self2 w2) as F3.
    pose proof (update_conversation_state_user dact self2 w2) as U3.
    destruct (_update_conversation_state dact self2 w2) as [self3 w3].
    cbn [fst snd] in F3, U3. destruct F3 as (_ & _ & _ & _ & Fst3).
    unfold bind at 1.
    set (respond := match llm_response with
                    | Some (String c0 s0) =>
                        ResponseGenerator.generate_response user_input (String c0 s0)
                          (state_manager self3) dact
                    | _ => _generate_template_response dact self3
                    end).
    remember (respond w3) as rr eqn:Hresp. destruct rr as [resp w4].
    unfold ret at 1. unfold bind at 1.
    pose proof (update_context_user [kw_last_agent_response resp] (state_manager self3) w4)
      as U5.
    destruct (update_context _ (state_manager self3) w4) as [[b5 m5] w5].
    cbn [fst snd] in U5.
    unfold ret. cbn [snd state_manager with_manager conversation_history ambiguity_threshold].
    eexists _, _, _. split; [reflexivity |].
    cbn [state_manager]. rewrite Hm2 in *. subst m.
    split; [congruence |]. intros _. exists self3, w3.
    split; [congruence | subst respond; by rewrite <- Hresp].
  - unfold bind at 1.
    destruct (QuestionGenerator.generate_multiple_questions (amb :: high') 2
                (Some (get_conversation_context self2)) w2) as [questions wq].
    unfold bind at 1.
    pose proof (transition_user ASKING_CLARIFICATION "ambiguity_detected" self2 wq) as U3.
    destruct (transition ASKING_CLARIFICATION "ambiguity_detected" self2 wq) as [self3 w3].
    cbn [fst] in U3.
    unfold ret at 1. unfold bind at 1.
    match goal with
    | |- context [update_context [kw_last_agent_response ?r] (state_manager self3) w3] =>
        pose proof (update_context_user [kw_last_agent_response r] (state_manager self3) w3)
          as U5;
        destruct (update_context [kw_last_agent_response r] (state_manager self3) w3)
          as [[b5 m5] w5]
    end.
    cbn [fst snd] in U5.
    unfold ret. cbn [snd state_manager with_manager conversation_history ambiguity_threshold].
    eexists _, _, _. split; [reflexivity |].
    cbn [state_manager]. rewrite Hm2 in *. subst m.
    split; [congruence | discriminate].
Qed.

Lemma template_response_pool (act : DialogueAct.t)
    (self : EnhancedConversationInterface) (w : World) :
  In (fst (_generate_template_response act self w))
     (template_pool act (state (context (state_manager self)))).
Proof.
  unfold _generate_template_response, template_pool, get_context.
  destruct (dict_get ResponseGenerator.response_templates _) as [[| t ts] |].
  - apply random_choice_In. destruct act; discriminate.
  - apply random_choice_In. discriminate.
  - apply random_choice_In. destruct act; discriminate.
Qed.

Lemma template_pool_nonempty (act : DialogueAct.t) (st : ConversationState) (t : string) :
  In t (template_pool act st) -> t <> "".
Proof.
  intros Hin Ht.
  assert (Hall : forallb (fun s => negb (String.eqb s "")) (template_pool act st) = true)
    by (destruct act, st; vm_compute; reflexivity).
  pose proof (proj1 (forallb_forall _ _) Hall t Hin) as Hne.
  rewrite Ht in Hne. discriminate.
Qed.

Lemma find_question_mark (l : list ascii) :
  forall i, (exists j, PyStr.find_chars ["?"%char] l i = Some j) <-> In "?"%char l.
Proof.
  induction l as [| c l IH]; intros i.
  - simpl. split; [intros [j Hj]; discriminate | tauto].
  - change (PyStr.find_chars ["?"%char] (c :: l) i)
      with (if Ascii.eqb "?" c && true then Some i
            else PyStr.find_chars ["?"%char] l (S i)).
    destruct (Ascii.eqb_spec "?"%char c) as [<- | Hne]; simpl andb; cbv iota.
    + split; [intros _; by left | intros _; by exists i].
    + rewrite IH. simpl. split; [by right | intros [H | H]; [congruence | exact H]].
Qed.

Lemma contains_question_mark (s : string) :
  PyStr.contains s "?" = true <-> In "?"%char (PyStr.chars s).
Proof.
  rewrite <- (find_question_mark (PyStr.chars s) 0).
  unfold PyStr.contains. change (PyStr.chars "?") with ["?"%char].
  destruct (PyStr.find_chars _ _ 0) as [j |].
  - split; [intros _; by exists j | reflexivity].
  - split; [discriminate | intros [j Hj]; discriminate].
Qed.

Lemma is_question_chars (s : string) :
  is_question s = true <-> In "?"%char (PyStr.chars s).
Proof.
  unfold is_question. rewrite andb_true_iff, contains_question_mark. split; [tauto |].
  intros H. split; [| exact H]. destruct s; [destruct H | reflexivity].
Qed.

Lemma generate_multiple_questions_questions (l : list AmbiguityDetection) (n : nat)
    (context : option (gmap string pyval)) (w : World) :
  Forall (fun q => is_question q = true)
    (fst (QuestionGenerator.generate_multiple_questions l n context w)).
Proof. apply generate_each_questions. Qed.

(** X18.  [process_input] never returns the empty string, on any input,
    with or without an LLM response; and whenever a detection reaches the
    interface's threshold, the returned text holds a question mark. *)
Theorem process_input_never_empty (user_input : string) (llm_response : option string)
    (self : EnhancedConversationInterface) (w : World) :
  let resp := fst (fst (process_input user_input llm_response self w)) in
  resp <> ""
  /\ (high_confidence (ambiguity_threshold self) user_input <> [] ->
      is_question resp = true).
Proof.
  intros resp.
  destruct (process_input_shape user_input llm_response self w)
    as (r1 & s1 & w1 & Hrun & _ & _ & _ & _ & _ & _ & _ & Hbranch).
  destruct (process_input_detail user_input llm_response self w)
    as (r2 & s2 & w2 & Hrun2 & _ & Hclear).
  rewrite Hrun in Hrun2. injection Hrun2 as <- <- <-.
  unfold resp. rewrite Hrun. cbn [fst].
  fold (high_confidence (ambiguity_threshold self) user_input) in Hbranch.
  destruct (high_confidence (ambiguity_threshold self) user_input) as [| amb high'] eqn:Hh.
  - split; [| congruence].
    destruct (Hclear eq_refl) as (self3 & w3 & _ & ->).
    destruct llm_response as [[| c s] |].
    + eapply template_pool_nonempty, template_response_pool.
    + apply generate_response_nonempty.
    + eapply template_pool_nonempty, template_response_pool.
  - destruct Hbranch as ((ctx & wq & questions & wq' & Hq & _ & ->) & _).
    pose proof (generate_multiple_questions_questions (amb :: high') 2 (Some ctx) wq) as Hall.
    pose proof (generate_multiple_questions_length (amb :: high') (Some ctx) wq) as Hlen.
    rewrite Hq in Hall, Hlen. cbn [fst] in Hall, Hlen.
    assert (Hisq : is_question match questions with
                               | [q] => q
                               | _ => clarify_prefix +:+ question_list questions
                               end = true).
    { destruct questions as [| q1 [| q2 qs]]; [simpl in Hlen; destruct high'; discriminate | |].
      - by inversion Hall.
      - inversion Hall as [| ? ? Hq1 _]; subst.
        apply is_question_chars in Hq1. apply is_question_chars.
        unfold question_list. cbn [imap PyStr.join].
        rewrite !chars_append, !in_app_iff. auto 10. }
    split; [| by intros _].
    intros He. rewrite He in Hisq. discriminate.
Qed.

(** X19.  When a detection reaches the threshold, the LLM response plays
    no part: [process_input] returns the same text, interface and world
    whatever LLM response is passed. *)
Theorem clarification_discards_llm_response (user_input : string)
    (llm_response llm_response' : option string)
    (self : EnhancedConversationInterface) (w : World)
    (Hhigh : high_confidence (ambiguity_threshold self) user_input <> []) :
  process_input user_input llm_response self w
  = process_input user_input llm_response' self w.
Proof.
  unfold high_confidence in Hhigh. unfold process_input, bind.
  destruct (update_context _ (state_manager self) w) as [[b1 m1] w1].
  destruct (DialogueActRecognizer.recognize_act user_input) as [dact c].
  cbn [snd state_manager with_manager].
  destruct (update_dialogue_act dact m1 w1) as [[b2 m2] w2].
  cbn [snd ambiguity_threshold with_manager].
  destruct (List.filter _ (AmbiguityDetector.detect_ambiguities user_input));
    [contradiction | reflexivity].
Qed.

Lemma clarification_discards_llm_response_witness :
  high_confidence (ambiguity_threshold sample_interface) "What about it?" <> []
  /\ process_input "What about it?" (Some "It is sunny.") sample_interface sample_world_1
     = process_input "What about it?" None sample_interface sample_world_1.
Proof.
  assert (H : high_confidence (ambiguity_threshold sample_interface) "What about it?" <> [])
    by (vm_compute; discriminate).
  split; [exact H |]. by apply clarification_discards_llm_response.
Defined.

Lemma next_state_not_initial (act : DialogueAct.t) (st : ConversationState) :
  next_state act st <> INITIAL.
Proof. destruct act, st; discriminate. Qed.

Lemma next_state_error (act : DialogueAct.t) (st : ConversationState) :
  next_state act st = ERROR -> st = ERROR.
Proof. destruct act, st; (discriminate || reflexivity). Qed.

Lemma process_input_state (user_input : string) (llm_response : option string)
    (self : EnhancedConversationInterface) (w : World) :
  let st := state (context (state_manager self)) in
  let st' :=
    state (context (state_manager (snd (fst (process_input user_input llm_response self w))))) in
  st' <> INITIAL /\ (st' = ERROR -> st = ERROR).
Proof.
  intros st st'. subst st st'.
  destruct (process_input_shape user_input llm_response self w)
    as (r1 & s1 & w1 & Hrun & _ & _ & _ & _ & _ & _ & _ & Hbranch).
  rewrite Hrun. cbn [fst snd].
  destruct (List.filter _ (AmbiguityDetector.detect_ambiguities user_input)).
  - rewrite Hbranch. split; [apply next_state_not_initial | apply next_state_error].
  - destruct Hbranch as (_ & -> & _). split; discriminate.
Qed.

Lemma run_inputs_not_error (inputs : list (string * option string)) :
  forall (self : EnhancedConversationInterface) (w : World),
    state (context (state_manager self)) <> ERROR ->
    state (context (state_manager (fst (run_inputs inputs self w)))) <> ERROR.
Proof.
  induction inputs as [| [user_input llm_response] rest IH]; intros self w Hne;
    [exact Hne |].
  cbn [run_inputs]. unfold bind.
  pose proof (process_input_state user_input llm_response self w) as [_ Herr].
  destruct (process_input user_input llm_response self w) as [[resp self1] w1].
  cbn [fst snd] in *. apply IH. intros He. exact (Hne (Herr He)).
Qed.

Lemma run_inputs_not_initial (inputs : list (string * option string)) :
  forall (self : EnhancedConversationInterface) (w : World),
    state (context (state_manager self)) <> INITIAL ->
    state (context (state_manager (fst (run_inputs inputs self w)))) <> INITIAL.
Proof.
  induction inputs as [| [user_input llm_response] rest IH]; intros self w Hne;
    [exact Hne |].
  cbn [run_inputs]. unfold bind.
  pose proof (process_input_state user_input llm_response self w) as [Hni _].
  destruct (process_input user_input llm_response self w) as [[resp self1] w1].
  cbn [fst snd] in *. by apply IH.
Qed.

(** X21.  The interface never puts a conversation into the ERROR state,
    and never back into INITIAL: after any sequence of [process_input]
    calls on a newly built interface the state is not ERROR, and after at
    least one call it is not INITIAL either.  A single call on any
    interface leaves a state other than INITIAL, and leaves ERROR only
    when the conversation was in ERROR before. *)
Theorem error_state_unreachable (uid : string) (inputs : list (string * option string))
    (w0 w : World) :
  let self' := fst (run_inputs inputs (fst (Interface.new uid w0)) w) in
  state (context (state_manager self')) <> ERROR
  /\ (inputs <> [] -> state (context (state_manager self')) <> INITIAL)
  /\ forall user_input llm_response (self : EnhancedConversationInterface) (w2 : World),
       let st' :=
         state (context (state_manager
                          (snd (fst (process_input user_input llm_response self w2))))) in
       st' <> INITIAL /\ (st' = ERROR -> state (context (state_manager self)) = ERROR).
Proof.
  intros self'. subst self'. split; [| split].
  - apply run_inputs_not_error. discriminate.
  - destruct inputs as [| [user_input llm_response] rest]; [congruence |]. intros _.
    cbn [run_inputs]. unfold bind.
    pose proof (process_input_state user_input llm_response (fst (Interface.new uid w0)) w)
      as [Hni _].
    destruct (process_input user_input llm_response (fst (Interface.new uid w0)) w)
      as [[resp self1] w1].
    cbn [fst snd] in *. by apply run_inputs_not_initial.
  - intros user_input llm_response self w2.
    apply process_input_state.
Qed.

(** X22.  When no detection reaches the threshold, the response is built
    for the state the conversation has just moved to.  Without an LLM
    response, or with the empty string for one, it is one of the
    templates [_generate_template_response] holds for the recognized act
    and the new state; with a non-empty LLM response it ends with that
    response, verbatim. *)
Theorem clear_input_response (user_input : string) (llm_response : option string)
    (self : EnhancedConversationInterface) (w : World)
    (Hclear : high_confidence (ambiguity_threshold self) user_input = []) :
  let act := fst (DialogueActRecognizer.recognize_act user_input) in
  let st' := next_state act (state (context (state_manager self))) in
  let resp := fst (fst (process_input user_input llm_response self w)) in
  match llm_response with
  | Some (String c s) => PyStr.endswith resp (String c s) = true
  | _ => In resp (template_pool act st')
  end.
Proof.
  intros act st' resp. subst act st' resp.
  destruct (process_input_detail user_input llm_response self w)
    as (r & s2 & w2 & Hrun & _ & Hdetail).
  rewrite Hrun. cbn [fst].
  destruct (Hdetail Hclear) as (self3 & w3 & Hst & ->).
  destruct llm_response as [[| c s] |].
  - rewrite <- Hst. apply template_response_pool.
  - by apply generate_response_suffix.
  - rewrite <- Hst. apply template_response_pool.
Qed.

Lemma clear_input_response_witness :
  high_confidence (ambiguity_threshold sample_interface) "Hello" = []
  /\ In (fst (fst (process_input "Hello" None sample_interface sample_world_1)))
        (template_pool (fst (DialogueActRecognizer.recognize_act "Hello"))
           (next_state (fst (DialogueActRecognizer.recognize_act "Hello"))
              (state (context (state_manager sample_interface))))).
Proof.
  assert (H : high_confidence (ambiguity_threshold sample_interface) "Hello" = [])
    by (vm_compute; reflexivity).
  split; [exact H |].
  exact (clear_input_response "Hello" None sample_interface sample_world_1 H).
Defined.

Lemma process_input_identity (user_input : string) (llm_response : option string)
    (self : EnhancedConversationInterface) (w : World) :
  let self' := snd (fst (process_input user_input llm_response self w)) in
  self_user_id (state_manager self') = self_user_id (state_manager self)
  /\ max_history_length (state_manager self') = max_history_length (state_manager self)
  /\ ambiguity_threshold self' = ambiguity_threshold self.
Proof.
  intros self'. subst self'.
  destruct (process_input_shape user_input llm_response self w)
    as (r1 & s1 & w1 & Hrun & _ & _ & Hthr & Hmax & _).
  destruct (process_input_detail user_input llm_response self w)
    as (r2 & s2 & w2 & Hrun2 & Huid & _).
  rewrite Hrun in Hrun2. injection Hrun2 as <- <- <-.
  rewrite Hrun. cbn [fst snd]. auto.
Qed.

Lemma run_inputs_identity (inputs : list (string * option string)) :
  forall (self : EnhancedConversationInterface) (w : World),
    let self' := fst (run_inputs inputs self w) in
    self_user_id (state_manager self') = self_user_id (state_manager self)
    /\ max_history_length (state_manager self') = max_history_length (state_manager self)
    /\ ambiguity_threshold self' = ambiguity_threshold self.
Proof.
  induction inputs as [| [user_input llm_response] rest IH]; intros self w; [by cbn |].
  cbn [run_inputs]. unfold bind.
  pose proof (process_input_identity user_input llm_response self w) as (Hu & Hm & Ht).
  destruct (process_input user_input llm_response self w) as [[resp self1] w1].
  cbn [fst snd] in *.
  destruct (IH self1 w1) as (Hu' & Hm' & Ht'). cbn zeta in *.
  repeat split; congruence.
Qed.

End OrchestratorMore.

(** X23.  Resetting an interface is building it anew: after any sequence
    of [process_input] calls on an interface built for a user,
    [reset_conversation] yields exactly the interface (and consumes
    exactly the UUID and clock readings) that constructing one for that
    user would: empty conversation history, threshold 0.6, a manager in
    the initial state with zero turns and no transition history. *)
Theorem reset_is_fresh_interface (uid : string) (inputs : list (string * option string))
    (w0 w1 w : World) :
  let self := fst (run_inputs inputs (fst (Interface.new uid w0)) w1) in
  Interface.reset_conversation self w = Interface.new uid w.
Proof.
  intros self.
  destruct (run_inputs_identity inputs (fst (Interface.new uid w0)) w1) as (Hu & Hm & Ht).
  fold self in Hu, Hm, Ht. cbn in Hu, Hm, Ht.
  unfold Interface.reset_conversation, Interface.new, reset_conversation, new_manager,
    bind, ret.
  rewrite Hu, Hm, Ht. reflexivity.
Qed.
